(** * Game_Store: the lobby orchestrator, its framing layer and its clients

    A shallow embedding of [server/main_server.py], [server/database_server.py]
    and the correlation client of [player/player.py], with the properties of
    the specification stated over it.

    Modelling conventions.
    - Python [bytes] are [list byte]; [str] is [string]; [int] is [Z].
    - Python exceptions are values of [pyexn]; a handler returns an [outcome]
      together with the state its side effects produced before it returned
      or raised.
    - Python dicts are association lists in insertion order.
    - What the Python runtime and its libraries compute ([json], [hashlib],
      [base64], [str] of an exception) is a Section variable: it is not code
      of this repository. The text [json.dumps] writes is also given, in
      [Json], for the values without floats. *)

From Stdlib Require Import ZArith NArith Lia List String Ascii QArith Sorted.
From Stdlib.Strings Require Import Byte.
From stdpp Require Import base tactics option list strings pretty.

Local Open Scope nat_scope.

(** ** The framing layer ([send_message], [recv_exact], [recv_message]) *)

Module Framing.

(** [CHUNK_SIZE = 65536] *)
Definition CHUNK_SIZE : nat := 65536.

(** One byte of a number: [n mod 256] as a [byte]. *)
Definition byte_of_N (n : N) : byte :=
  match Byte.of_N (n mod 256) with
  | Some b => b
  | None => Byte.x00
  end.

(** [struct.pack('!I', n)]: four bytes, most significant first. The source
    only packs chunk lengths, which are at most [CHUNK_SIZE]. *)
Definition pack_u32 (n : nat) : list byte :=
  let m := N.of_nat n in
  [ byte_of_N (m / 16777216); byte_of_N (m / 65536);
    byte_of_N (m / 256); byte_of_N m ].

(** [struct.unpack('!I', b)[0]] on exactly four bytes. *)
Definition unpack_u32 (b : list byte) : option nat :=
  match b with
  | [b3; b2; b1; b0] =>
      Some (N.to_nat (Byte.to_N b3 * 16777216 + Byte.to_N b2 * 65536
                      + Byte.to_N b1 * 256 + Byte.to_N b0))
  | _ => None
  end.

(** *** Sending *)

(** The [while offset < total_length] loop of [send_message]. [wire] is what
    [sock.sendall] has put on the connection so far. Every turn moves
    [offset] forward by at least one byte, so [length data] turns are
    enough; [None] is "out of fuel". *)
Fixpoint send_loop (fuel : nat) (data : list byte) (offset : nat)
    (wire : list byte) : option (list byte) :=
  let total_length := length data in
  if decide (offset < total_length) then
    match fuel with
    | O => None
    | S fuel' =>
        let remaining := total_length - offset in
        let chunk_length := Nat.min CHUNK_SIZE remaining in
        let chunk_data := take chunk_length (drop offset data) in
        let length_prefix := pack_u32 chunk_length in
        send_loop fuel' data (offset + chunk_length)
          (wire ++ length_prefix ++ chunk_data)
    end
  else
    let end_marker := pack_u32 0 in
    Some (wire ++ end_marker).

(** The bytes [send_message] writes for the encoded message [data]
    ([data = json.dumps(message).encode('utf-8')]). *)
Definition send_bytes (data : list byte) : option (list byte) :=
  send_loop (length data) data 0 [].

(** *** Receiving *)

(** A connection seen from the reader: the bytes the peer has sent and not
    yet been read, and a schedule that says how the transport cuts them into
    packets. [sock.recv(n)] returns at most [n] bytes, at least one while
    bytes remain, and [b''] once the peer has closed and nothing is left. *)
Record sock := Sock { inbuf : list byte; sched : list nat }.

Definition recv (s : sock) (n : nat) : list byte * sock :=
  let k := match sched s with
           | [] => n
           | k :: _ => Nat.min n (S k)
           end in
  (take k (inbuf s), Sock (drop k (inbuf s)) (tail (sched s))).

(** [recv_exact]: [Some None] is Python's [return None], [None] is "out of
    fuel". *)
Fixpoint recv_exact_loop (fuel : nat) (s : sock) (n : nat) (data : list byte)
    : option (option (list byte)) * sock :=
  if decide (length data < n) then
    match fuel with
    | O => (None, s)
    | S fuel' =>
        let '(packet, s') := recv s (n - length data) in
        match packet with
        | [] => (Some None, s')
        | _ => recv_exact_loop fuel' s' n (data ++ packet)
        end
    end
  else (Some (Some data), s).

Definition recv_exact (s : sock) (n : nat) : option (option (list byte)) * sock :=
  recv_exact_loop n s n [].

(** What one call of [recv_message] does, before [json.loads]. *)
Inductive frame_result :=
| Payload (complete_data : list byte)   (* the loop ended at the zero marker *)
| NoMessage                             (* [return None] *)
| InvalidChunk (chunk_length : nat)     (* [raise ValueError] *)
| OutOfFuel.

(** Python's [if not length_data] / [if not chunk_data]: [None] and [b'']
    are both false. *)
Definition falsy_bytes (r : option (list byte)) : bool :=
  match r with
  | None => true
  | Some [] => true
  | Some _ => false
  end.

Fixpoint recv_loop (fuel : nat) (s : sock) (chunks : list (list byte))
    : frame_result * sock :=
  match fuel with
  | O => (OutOfFuel, s)
  | S fuel' =>
      match recv_exact s 4 with
      | (None, s1) => (OutOfFuel, s1)
      | (Some length_data, s1) =>
          if falsy_bytes length_data then (NoMessage, s1)
          else
            match unpack_u32 (default [] length_data) with
            | None => (OutOfFuel, s1)
            | Some chunk_length =>
                if decide (chunk_length = 0) then (Payload (concat chunks), s1)
                else if decide (CHUNK_SIZE < chunk_length)
                then (InvalidChunk chunk_length, s1)
                else
                  match recv_exact s1 chunk_length with
                  | (None, s2) => (OutOfFuel, s2)
                  | (Some chunk_data, s2) =>
                      if falsy_bytes chunk_data then (NoMessage, s2)
                      else recv_loop fuel' s2
                             (chunks ++ [default [] chunk_data])
                  end
            end
      end
  end.

(** Every turn of the loop that goes on has read at least five bytes, so
    [S (length (inbuf s))] turns are enough. *)
Definition recv_frames (s : sock) : frame_result * sock :=
  recv_loop (S (length (inbuf s))) s [].

Section Codec.
(** [json.dumps(v).encode('utf-8')] and [json.loads(b.decode('utf-8'))],
    the latter [None] when it raises. *)
Context {J : Type}.
Variable dumps : J -> list byte.
Variable loads : list byte -> option J.

Inductive recv_result :=
| Returned (v : J)
| ReturnedNone
| RaisedValueError
| Stuck.

Definition send_message (message : J) : option (list byte) :=
  send_bytes (dumps message).

Definition recv_message (s : sock) : recv_result * sock :=
  match recv_frames s with
  | (Payload complete_data, s') =>
      match loads complete_data with
      | Some v => (Returned v, s')
      | None => (RaisedValueError, s')
      end
  | (NoMessage, s') => (ReturnedNone, s')
  | (InvalidChunk _, s') => (RaisedValueError, s')
  | (OutOfFuel, s') => (Stuck, s')
  end.
End Codec.

(** The JSON codec at the two boolean literals, [true] and [false]. *)
Definition dumps_bool (b : bool) : list byte :=
  if b then [x74; x72; x75; x65] else [x66; x61; x6c; x73; x65].

Definition loads_bool (data : list byte) : option bool :=
  match data with
  | [x74; x72; x75; x65] => Some true
  | [x66; x61; x6c; x73; x65] => Some false
  | _ => None
  end.

End Framing.

(** ** What [json.dumps] writes *)

Module Json.
Local Open Scope string_scope.

(** The values [json.dumps] accepts, floats apart. A dict key is a [str] or
    an [int]; a [string] is a sequence of code points below 256. *)
Inductive key :=
| KStr (s : string)
| KInt (z : Z).

Inductive value :=
| JNull
| JBool (b : bool)
| JInt (z : Z)
| JStr (s : string)
| JList (l : list value)
| JTuple (l : list value)
| JDict (d : list (key * value)).

Definition backslash : string := String (ascii_of_nat 92) EmptyString.
Definition quote : string := String (ascii_of_nat 34) EmptyString.

Definition hex_digit (n : N) : ascii :=
  ascii_of_N (if (n <? 10)%N then 48 + n else 87 + n).

(** [json.encoder.py_encode_basestring_ascii], one character: the short
    escapes of [ESCAPE_DCT], the printable ASCII characters as they are, and
    [\u00xx] for the others. *)
Definition escape_char (c : ascii) : string :=
  let n := N_of_ascii c in
  if (n =? 92)%N then backslash ++ backslash
  else if (n =? 34)%N then backslash ++ quote
  else if (n =? 8)%N then backslash ++ "b"
  else if (n =? 12)%N then backslash ++ "f"
  else if (n =? 10)%N then backslash ++ "n"
  else if (n =? 13)%N then backslash ++ "r"
  else if (n =? 9)%N then backslash ++ "t"
  else if (32 <=? n)%N && (n <=? 126)%N then String c EmptyString
  else backslash ++ "u00"
       ++ String (hex_digit (n / 16)) (String (hex_digit (n mod 16)) EmptyString).

Fixpoint escape (s : string) : string :=
  match s with
  | EmptyString => EmptyString
  | String c s' => escape_char c ++ escape s'
  end.

Definition quoted (s : string) : string := quote ++ escape s ++ quote.

(** A key of a JSON object is a string: an [int] key is written as the
    string of its decimal digits. *)
Definition key_text (k : key) : string :=
  match k with
  | KStr s => quoted s
  | KInt z => quote ++ pretty z ++ quote
  end.

(** The item separator [', ']. *)
Fixpoint comma_join (items : list string) : string :=
  match items with
  | [] => EmptyString
  | [item] => item
  | item :: rest => item ++ ", " ++ comma_join rest
  end.

(** [json.dumps(v)] with its default separators. A tuple is written as an
    array, like a list. *)
Fixpoint text (v : value) : string :=
  match v with
  | JNull => "null"
  | JBool true => "true"
  | JBool false => "false"
  | JInt z => pretty z
  | JStr s => quoted s
  | JList l => "[" ++ comma_join (map text l) ++ "]"
  | JTuple l => "[" ++ comma_join (map text l) ++ "]"
  | JDict d =>
      "{" ++ comma_join (map (fun entry => key_text entry.1 ++ ": " ++ text entry.2) d)
      ++ "}"
  end.

(** [json.dumps(v).encode('utf-8')]: the text is ASCII. *)
Definition dumps (v : value) : list byte := list_byte_of_string (text v).

(** The [GAME_OVER] message of the Dots and Boxes match server
    ([end_msg], with [self.scores = {1: ..., 2: ...}]), and the same message
    with the two scores under the keys ['1'] and ['2']. *)
Definition game_over (winner score1 score2 : Z) : value :=
  JDict [(KStr "type", JStr "GAME_OVER"); (KStr "winner", JInt winner);
         (KStr "scores", JDict [(KInt 1, JInt score1); (KInt 2, JInt score2)])].

Definition game_over_read (winner score1 score2 : Z) : value :=
  JDict [(KStr "type", JStr "GAME_OVER"); (KStr "winner", JInt winner);
         (KStr "scores", JDict [(KStr "1", JInt score1); (KStr "2", JInt score2)])].

End Json.

(** ** Python values, dictionaries and exceptions *)

Module Py.

(** The values that travel as JSON between the programs, as Python sees
    them after [json.loads]: [None], [bool], [int], [str], [list] and [dict]
    with [str] keys (insertion order kept). Floats do not occur in any
    message of the lobby protocol and are left out. *)
Inductive pyval :=
| VNone
| VBool (b : bool)
| VInt (z : Z)
| VStr (s : string)
| VList (l : list pyval)
| VDict (d : list (string * pyval)).

(** The exceptions the modelled code can raise. [ValueError] covers its
    subclasses [JSONDecodeError] and [UnicodeDecodeError]. [OSError] stands
    for the failures of sockets and processes and carries the system's
    message; [FileError] is the [OSError] that [open] raises on a path that
    is not a readable file ([FileNotFoundError] and its siblings). *)
Inductive pyexn :=
| KeyError (key : pyval)
| IndexError
| TypeError
| AttributeError
| UnboundLocalError
| ValueError
| FileError
| OSError (msg : string).

(** A call either returns a value or raises. *)
Inductive outcome (A : Type) :=
| Ret (a : A)
| Raise (e : pyexn).
Arguments Ret {A} a.
Arguments Raise {A} e.

(** Truth value of a Python object ([if v:]). *)
Definition truthy (v : pyval) : bool :=
  match v with
  | VNone => false
  | VBool b => b
  | VInt z => negb (z =? 0)%Z
  | VStr s => negb (String.eqb s "")
  | VList l => match l with [] => false | _ => true end
  | VDict d => match d with [] => false | _ => true end
  end.

(** Lookup in a [str]-keyed dictionary. *)
Fixpoint sd_find {V : Type} (key : string) (d : list (string * V)) : option V :=
  match d with
  | [] => None
  | (k, v) :: d' => if String.eqb k key then Some v else sd_find key d'
  end.

(** [d[key] = v]: an existing key keeps its place, a new one goes last. *)
Fixpoint sd_set {V : Type} (key : string) (v : V) (d : list (string * V))
    : list (string * V) :=
  match d with
  | [] => [(key, v)]
  | (k, w) :: d' =>
      if String.eqb k key then (k, v) :: d' else (k, w) :: sd_set key v d'
  end.

(** Python's [==]. [True == 1] and [False == 0]; lists compare element by
    element; dicts compare as maps, whatever their order. *)
Fixpoint py_eq (a b : pyval) : bool :=
  match a, b with
  | VNone, VNone => true
  | VBool x, VBool y => Bool.eqb x y
  | VBool x, VInt y => (Z.b2z x =? y)%Z
  | VInt x, VBool y => (x =? Z.b2z y)%Z
  | VInt x, VInt y => (x =? y)%Z
  | VStr x, VStr y => String.eqb x y
  | VList x, VList y =>
      (fix list_eq (x y : list pyval) : bool :=
         match x, y with
         | [], [] => true
         | u :: x', v :: y' => py_eq u v && list_eq x' y'
         | _, _ => false
         end) x y
  | VDict x, VDict y =>
      (length x =? length y) &&
      forallb (fun '(k, u) =>
                 match sd_find k y with
                 | Some v => py_eq u v
                 | None => false
                 end) x
  | _, _ => false
  end.

(** Lists and dicts are unhashable: using one as a dictionary key raises
    [TypeError]. *)
Definition hashable (v : pyval) : bool :=
  match v with
  | VList _ | VDict _ => false
  | _ => true
  end.

(** A Python [dict] whose keys are arbitrary hashable objects, in insertion
    order. *)
Definition pydict (V : Type) := list (pyval * V).

Fixpoint pd_find {V : Type} (key : pyval) (d : pydict V) : option V :=
  match d with
  | [] => None
  | (k, v) :: d' => if py_eq k key then Some v else pd_find key d'
  end.

Fixpoint pd_set {V : Type} (key : pyval) (v : V) (d : pydict V) : pydict V :=
  match d with
  | [] => [(key, v)]
  | (k, w) :: d' =>
      if py_eq k key then (k, v) :: d' else (k, w) :: pd_set key v d'
  end.

Fixpoint pd_del {V : Type} (key : pyval) (d : pydict V) : pydict V :=
  match d with
  | [] => []
  | (k, w) :: d' => if py_eq k key then d' else (k, w) :: pd_del key d'
  end.

(** [key in d] *)
Definition pd_contains {V : Type} (key : pyval) (d : pydict V) : outcome bool :=
  if hashable key then Ret (bool_decide (is_Some (pd_find key d)))
  else Raise TypeError.

(** [d[key]] *)
Definition pd_getitem {V : Type} (d : pydict V) (key : pyval) : outcome V :=
  if hashable key then
    match pd_find key d with
    | Some v => Ret v
    | None => Raise (KeyError key)
    end
  else Raise TypeError.

(** [x in l] for a list [l]. *)
Definition list_contains (x : pyval) (l : list pyval) : bool :=
  existsb (fun y => py_eq y x) l.

(** [l.remove(x)]: drops the first element equal to [x]. *)
Fixpoint list_remove (x : pyval) (l : list pyval) : list pyval :=
  match l with
  | [] => []
  | y :: l' => if py_eq y x then l' else y :: list_remove x l'
  end.

(** [v.get(key)] and [v.get(key, dflt)]: only a dict has [get]. *)
Definition py_get_default (v : pyval) (key : string) (dflt : pyval)
    : outcome pyval :=
  match v with
  | VDict d => Ret (default dflt (sd_find key d))
  | _ => Raise AttributeError
  end.

Definition py_get (v : pyval) (key : string) : outcome pyval :=
  py_get_default v key VNone.

(** [v[key]] for a [str] key: a dict answers or raises [KeyError]; a list or
    a string wants an integer index, any other object has no subscript. *)
Definition py_getitem_str (v : pyval) (key : string) : outcome pyval :=
  match v with
  | VDict d =>
      match sd_find key d with
      | Some x => Ret x
      | None => Raise (KeyError (VStr key))
      end
  | _ => Raise TypeError
  end.

(** [v[0]] *)
Definition py_getitem_0 (v : pyval) : outcome pyval :=
  match v with
  | VList [] => Raise IndexError
  | VList (x :: _) => Ret x
  | VStr EmptyString => Raise IndexError
  | VStr (String c _) => Ret (VStr (String c EmptyString))
  | VDict _ => Raise (KeyError (VInt 0))
  | VNone | VBool _ | VInt _ => Raise TypeError
  end.

(** An integer operand of [<], [>=] and the like: [bool] counts as [int];
    comparing an [int] with anything else raises [TypeError]. *)
Definition py_int (v : pyval) : outcome Z :=
  match v with
  | VInt z => Ret z
  | VBool b => Ret (Z.b2z b)
  | _ => Raise TypeError
  end.

(** [v.encode()]: only a [str] has it. *)
Definition py_encode (v : pyval) : outcome string :=
  match v with
  | VStr s => Ret s
  | _ => Raise AttributeError
  end.

(** An operand of [Path(...) / v]: only a [str] is accepted. *)
Definition py_path_part (v : pyval) : outcome string :=
  match v with
  | VStr s => Ret s
  | _ => Raise TypeError
  end.

(** The line feed of ["...\n"]. *)
Definition nl : string := String (ascii_of_nat 10) EmptyString.

(** [response[key] = v] on a reply under construction. *)
Definition py_setitem (v : pyval) (key : string) (x : pyval) : outcome pyval :=
  match v with
  | VDict d => Ret (VDict (sd_set key x d))
  | _ => Raise TypeError
  end.

End Py.

(** ** The document store ([server/database_server.py]) *)

Module Db.
Import Py.

(** What the Python runtime supplies: [str(v)] inside an f-string, [str(e)]
    of a caught exception, [hashlib.sha256(s.encode()).hexdigest()],
    [json.load] on the bytes of a file ([None] when it raises) and
    [base64.b64encode(b).decode('utf-8')]. *)
Record Runtime := {
  py_str : pyval -> string;
  exn_str : pyexn -> string;
  sha256_hex : string -> string;
  json_loads : list byte -> option pyval;
  b64encode : list byte -> string;
}.

(** A stored document is a JSON object. A collection maps document ids to
    documents. *)
Definition document := list (string * pyval).

(** [Database]: [self.collections] and [self.next_ids]. [self.locks] is
    never reassigned after [__init__]. The persisted snapshot that
    [save_to_file] rewrites is not part of the model. *)
Record Database := {
  collections : pydict (pydict document);
  next_ids : pydict Z;
}.

Definition locks : pydict unit :=
  [(VStr "Player", tt); (VStr "Developer", tt); (VStr "Game", tt)].

(** [Database.__init__] without a data file. *)
Definition empty_database : Database :=
  {| collections := [(VStr "Player", []); (VStr "Developer", []); (VStr "Game", [])];
     next_ids := [(VStr "Player", 1%Z); (VStr "Developer", 1%Z); (VStr "Game", 1%Z)] |}.

(** The inner loop of [query] and [delete]:
    [if key not in doc or doc[key] != value: match = False]. *)
Definition doc_matches (filters : list (string * pyval)) (doc : document) : bool :=
  forallb (fun '(key, value) =>
             match sd_find key doc with
             | Some x => py_eq x value
             | None => false
             end) filters.

(** [for key, value in filters.items()] is only reached when there is a
    document to test; [filters] must then be a dict. *)
Definition select (filters : pyval) (docs : pydict document)
    : outcome (pydict document) :=
  match docs with
  | [] => Ret []
  | _ =>
      match filters with
      | VDict f => Ret (filter (fun entry => doc_matches f entry.2) docs)
      | _ => Raise AttributeError
      end
  end.

(** [{"id": doc_id, **data}] *)
Definition new_document (doc_id : Z) (data : pyval) : outcome document :=
  match data with
  | VDict d =>
      Ret (fold_left (fun doc '(k, v) => sd_set k v doc) d [("id", VInt doc_id)])
  | _ => Raise TypeError
  end.

(** [Database.create] *)
Definition create (collection : pyval) (data : pyval) (db : Database)
    : outcome pyval * Database :=
  match pd_getitem locks collection with
  | Raise e => (Raise e, db)
  | Ret _ =>
      match pd_getitem (next_ids db) collection with
      | Raise e => (Raise e, db)
      | Ret doc_id =>
          let db1 := {| collections := collections db;
                        next_ids := pd_set collection (doc_id + 1)%Z (next_ids db) |} in
          match new_document doc_id data with
          | Raise e => (Raise e, db1)
          | Ret doc =>
              match pd_getitem (collections db1) collection with
              | Raise e => (Raise e, db1)
              | Ret docs =>
                  (Ret (VDict doc),
                   {| collections :=
                        pd_set collection (pd_set (VInt doc_id) doc docs)
                          (collections db1);
                      next_ids := next_ids db1 |})
              end
          end
      end
  end.

(** [Database.query] *)
Definition query (collection : pyval) (filters : pyval) (db : Database)
    : outcome pyval :=
  match pd_getitem locks collection with
  | Raise e => Raise e
  | Ret _ =>
      match pd_getitem (collections db) collection with
      | Raise e => Raise e
      | Ret docs =>
          match select filters docs with
          | Raise e => Raise e
          | Ret results => Ret (VList (map (fun entry => VDict entry.2) results))
          end
      end
  end.

(** [Database.delete] *)
Definition delete (collection : pyval) (filters : pyval) (db : Database)
    : outcome pyval * Database :=
  match pd_getitem locks collection with
  | Raise e => (Raise e, db)
  | Ret _ =>
      match pd_getitem (collections db) collection with
      | Raise e => (Raise e, db)
      | Ret docs =>
          match select filters docs with
          | Raise e => (Raise e, db)
          | Ret hits =>
              let to_delete := map fst hits in
              let results := map (fun entry => VDict entry.2) hits in
              let docs' := fold_left (fun c doc_id => pd_del doc_id c) to_delete docs in
              (Ret (VDict [("success", VBool true); ("data", VList results)]),
               {| collections := pd_set collection docs' (collections db);
                  next_ids := next_ids db |})
          end
      end
  end.

Section Server.
Variable rt : Runtime.

(** The body of the [try] block of [DBServer.process_request]. *)
Definition process_request_body (request : pyval) (db : Database)
    : outcome pyval * Database :=
  match py_get request "collection" with
  | Raise e => (Raise e, db)
  | Ret collection =>
  match py_get request "action" with
  | Raise e => (Raise e, db)
  | Ret action =>
  match py_get_default request "data" (VDict []) with
  | Raise e => (Raise e, db)
  | Ret data =>
  match pd_contains collection (collections db) with
  | Raise e => (Raise e, db)
  | Ret false =>
      (Ret (VDict [("success", VBool false);
                   ("error", VStr ("Invalid collection: " ++ py_str rt collection))]),
       db)
  | Ret true =>
      if py_eq action (VStr "CREATE") then create collection data db
      else if py_eq action (VStr "DELETE") then
        match py_get_default data "filter" (VDict []) with
        | Raise e => (Raise e, db)
        | Ret filters => delete collection filters db
        end
      else if py_eq action (VStr "QUERY") then
        match py_get_default data "filter" (VDict []) with
        | Raise e => (Raise e, db)
        | Ret filters => (query collection filters db, db)
        end
      else
        (Ret (VDict [("success", VBool false);
                     ("error", VStr ("Invalid action: " ++ py_str rt action))]),
         db)
  end end end end.

(** [DBServer.process_request]: whatever the body raises becomes an error
    reply; the changes made before the exception stay. *)
Definition process_request (request : pyval) (db : Database) : pyval * Database :=
  match process_request_body request db with
  | (Ret response, db') => (response, db')
  | (Raise e, db') =>
      (VDict [("success", VBool false); ("error", VStr (exn_str rt e))], db')
  end.

End Server.

End Db.

(** ** The lobby ([server/main_server.py]) *)

Module Lobby.
Import Py Db.

(** A connection ([client_sock]) is known by a number. *)
Definition conn := nat.

(** A room is the dict built by [create_room]; its keys never change. *)
Record Room := {
  host : pyval;
  game_name : pyval;
  version : pyval;
  visibility : pyval;
  members : list pyval;
  room_max : pyval;
  room_min : pyval;
  status : string;
}.

Definition set_members (l : list pyval) (r : Room) : Room :=
  {| host := host r; game_name := game_name r; version := version r;
     visibility := visibility r; members := l; room_max := room_max r;
     room_min := room_min r; status := status r |}.

Definition set_host (h : pyval) (r : Room) : Room :=
  {| host := h; game_name := game_name r; version := version r;
     visibility := visibility r; members := members r; room_max := room_max r;
     room_min := room_min r; status := status r |}.

Definition set_status (st : string) (r : Room) : Room :=
  {| host := host r; game_name := game_name r; version := version r;
     visibility := visibility r; members := members r; room_max := room_max r;
     room_min := room_min r; status := st |}.

(** An entry of [self.games]: the port of the match process. The entry's
    ['members'] is the room's own list object and ['process'] is the handle
    of the process listening on that port. *)
Record Game := { port : Z }.

(** [MainServer]'s fields. The locks are not state: a [with lock:] block is
    one step of the model. *)
Record MainServer := {
  online_players : pydict conn;
  online_developers : pydict conn;
  next_room_id : Z;
  rooms : pydict Room;
  next_game_port : Z;
  games : pydict Game;
}.

(** [MainServer.__init__] *)
Definition init_server : MainServer :=
  {| online_players := []; online_developers := [];
     next_room_id := 1; rooms := [];
     next_game_port := 44848; games := [] |}.

(** A directory tree on disk. *)
Inductive node :=
| File (content : list byte)
| Dir (entries : list (string * node)).

(** What the lobby reaches through [self.db] and the file system: the
    datastore process, the state of the path to it ([None]: calls go
    through; [Some e]: connecting raises [e]), and what the operating
    system finds at [games/<name>/<version>]. *)
Record Backend := {
  store : Database;
  db_link : option pyexn;
  disk : string -> string -> option node;
}.

(** The lobby process and its surroundings. [popen name version port] is
    what [subprocess.Popen] does for that match: [None] when the process
    starts, [Some e] when it raises [e]. [sent] lists, oldest first, the
    messages written to connections. *)
Record World := {
  lobby : MainServer;
  backend : Backend;
  popen : string -> string -> Z -> option pyexn;
  sent : list (conn * pyval);
}.

Definition with_lobby (f : MainServer -> MainServer) (w : World) : World :=
  {| lobby := f (lobby w); backend := backend w; popen := popen w; sent := sent w |}.

Definition with_backend (b : Backend) (w : World) : World :=
  {| lobby := lobby w; backend := b; popen := popen w; sent := sent w |}.

Definition with_sent (l : list (conn * pyval)) (w : World) : World :=
  {| lobby := lobby w; backend := backend w; popen := popen w; sent := l |}.

Definition set_online_players (d : pydict conn) (s : MainServer) : MainServer :=
  {| online_players := d; online_developers := online_developers s;
     next_room_id := next_room_id s; rooms := rooms s;
     next_game_port := next_game_port s; games := games s |}.

Definition set_online_developers (d : pydict conn) (s : MainServer) : MainServer :=
  {| online_players := online_players s; online_developers := d;
     next_room_id := next_room_id s; rooms := rooms s;
     next_game_port := next_game_port s; games := games s |}.

Definition set_next_room_id (n : Z) (s : MainServer) : MainServer :=
  {| online_players := online_players s; online_developers := online_developers s;
     next_room_id := n; rooms := rooms s;
     next_game_port := next_game_port s; games := games s |}.

Definition set_rooms (d : pydict Room) (s : MainServer) : MainServer :=
  {| online_players := online_players s; online_developers := online_developers s;
     next_room_id := next_room_id s; rooms := d;
     next_game_port := next_game_port s; games := games s |}.

Definition set_next_game_port (n : Z) (s : MainServer) : MainServer :=
  {| online_players := online_players s; online_developers := online_developers s;
     next_room_id := next_room_id s; rooms := rooms s;
     next_game_port := n; games := games s |}.

Definition set_games (d : pydict Game) (s : MainServer) : MainServer :=
  {| online_players := online_players s; online_developers := online_developers s;
     next_room_id := next_room_id s; rooms := rooms s;
     next_game_port := next_game_port s; games := d |}.

(** *** Handlers as state transformers that may raise *)

Definition M (A : Type) : Type := World -> outcome A * World.

Definition ret {A : Type} (a : A) : M A := fun w => (Ret a, w).

Definition raise {A : Type} (e : pyexn) : M A := fun w => (Raise e, w).

Definition bind {A B : Type} (m : M A) (k : A -> M B) : M B :=
  fun w =>
    match m w with
    | (Ret a, w') => k a w'
    | (Raise e, w') => (Raise e, w')
    end.

Definition lift {A : Type} (o : outcome A) : M A := fun w => (o, w).

Definition get_lobby : M MainServer := fun w => (Ret (lobby w), w).

Definition update_lobby (f : MainServer -> MainServer) : M unit :=
  fun w => (Ret tt, with_lobby f w).

Notation "x <- m ;; k" := (bind m (fun x => k))
  (at level 100, m at next level, right associativity).
Notation "m ;;; k" := (bind m (fun _ => k))
  (at level 100, right associativity).

(** A reply [{'success': False, 'error': msg}]. *)
Definition failure (msg : string) : pyval :=
  VDict [("success", VBool false); ("error", VStr msg)].

(** *** Directory trees *)

(** The node a relative path leads to. *)
Fixpoint lookup_path (n : node) (p : list string) : option node :=
  match p with
  | [] => Some n
  | name :: rest =>
      match n with
      | Dir entries =>
          match sd_find name entries with
          | Some child => lookup_path child rest
          | None => None
          end
      | File _ => None
      end
  end.

(** A file name has no ["/"] in it. *)
Fixpoint no_slash (s : string) : bool :=
  match s with
  | EmptyString => true
  | String c s' => negb (Ascii.eqb c "/") && no_slash s'
  end.

Fixpoint distinct_names (l : list string) : bool :=
  match l with
  | [] => true
  | x :: l' => negb (existsb (String.eqb x) l') && distinct_names l'
  end.

(** A tree as a file system holds it: in every directory the names are
    distinct and free of ["/"]. *)
Fixpoint wf_node (n : node) : bool :=
  match n with
  | File _ => true
  | Dir entries =>
      distinct_names (map fst entries)
      && forallb (fun entry => no_slash entry.1 && wf_node entry.2) entries
  end.

Section Handlers.
Variable rt : Runtime.

(** The developer-side package handlers write and delete files and records;
    the mechanics of packaging are outside the lobby core. They act on the
    [Backend] only and are left unspecified. *)
Variable upload_game : pyval -> Backend -> outcome pyval * Backend.
Variable update_game : pyval -> Backend -> outcome pyval * Backend.
Variable remove_game : pyval -> Backend -> outcome pyval * Backend.

Definition on_backend (f : Backend -> outcome pyval * Backend) : M pyval :=
  fun w => let '(r, b) := f (backend w) in (r, with_backend b w).

(** [DBClient.send_request]: one connection per call; any exception becomes
    an error reply. A call that connects is answered by the datastore's
    [process_request]. *)
Definition db_send_request (request : pyval) : M pyval :=
  fun w =>
    let b := backend w in
    match db_link b with
    | Some e => (Ret (failure (exn_str rt e)), w)
    | None =>
        let '(response, db') := Db.process_request rt request (store b) in
        (Ret response,
         with_backend {| store := db'; db_link := db_link b; disk := disk b |} w)
    end.

Definition db_request (collection : pyval) (action : string) (data : pyval) : pyval :=
  VDict [("collection", collection); ("action", VStr action); ("data", data)].

(** [register] *)
Definition register (request : pyval) : M pyval :=
  name <- lift (py_get request "name") ;;
  password <- lift (py_get request "password") ;;
  role <- lift (py_get request "role") ;;
  existing <- db_send_request
    (db_request role "QUERY" (VDict [("filter", VDict [("userName", name)])])) ;;
  first <- lift (py_getitem_0 existing) ;;
  if truthy first then ret (failure "Username already registered")
  else
    pw <- lift (py_encode password) ;;
    let password_hash := sha256_hex rt pw in
    response <-
      (if py_eq role (VStr "Player") then
         r <- db_send_request
           (db_request role "CREATE"
              (VDict [("userName", name); ("passwordHash", VStr password_hash);
                      ("games_played", VList [])])) ;;
         ret (Some r)
       else if py_eq role (VStr "Developer") then
         r <- db_send_request
           (db_request role "CREATE"
              (VDict [("userName", name); ("passwordHash", VStr password_hash)])) ;;
         ret (Some r)
       else ret None) ;;
    match response with
    | None => raise UnboundLocalError
    | Some response =>
        if truthy response then ret (VDict [("success", VBool true)])
        else
          err <- lift (py_get_default response "error" (VStr "Registration failed")) ;;
          ret (VDict [("success", VBool false); ("error", err)])
    end.

(** [login] *)
Definition login (request : pyval) (client_sock : conn) : M pyval :=
  name <- lift (py_get request "name") ;;
  password <- lift (py_get request "password") ;;
  role <- lift (py_get request "role") ;;
  s <- get_lobby ;;
  online <- lift (pd_contains name (online_players s)) ;;
  if online : bool then ret (failure "User already online")
  else
    user <- db_send_request
      (db_request role "QUERY" (VDict [("filter", VDict [("userName", name)])])) ;;
    if negb (truthy user) then ret (failure "User not found")
    else
      pw <- lift (py_encode password) ;;
      let password_hash := sha256_hex rt pw in
      first <- lift (py_getitem_0 user) ;;
      stored <- lift (py_getitem_str first "passwordHash") ;;
      if negb (py_eq stored (VStr password_hash)) then ret (failure "Invalid password")
      else
        (if py_eq role (VStr "Player") then
           update_lobby (fun s => set_online_players (pd_set name client_sock (online_players s)) s)
         else if py_eq role (VStr "Developer") then
           update_lobby (fun s => set_online_developers (pd_set name client_sock (online_developers s)) s)
         else ret tt) ;;;
        ret (VDict [("success", VBool true); ("data", user)]).

(** [logout]. A stored connection object is always true. *)
Definition logout (request : pyval) : M pyval :=
  name <- lift (py_get request "name") ;;
  role <- lift (py_get request "role") ;;
  s <- get_lobby ;;
  if py_eq role (VStr "Player") then
    _ <- lift (pd_getitem (online_players s) name) ;;
    update_lobby (fun s => set_online_players (pd_del name (online_players s)) s) ;;;
    ret (VDict [("success", VBool true)])
  else if py_eq role (VStr "Developer") then
    _ <- lift (pd_getitem (online_developers s) name) ;;
    update_lobby (fun s => set_online_developers (pd_del name (online_developers s)) s) ;;;
    ret (VDict [("success", VBool true)])
  else ret (VDict [("success", VBool false)]).

(** [list_games]: the whole body is inside [try]. *)
Definition list_games (request : pyval) : M pyval :=
  fun w =>
    match
      (author <- lift (py_get request "developer_name") ;;
       let filt := if truthy author then VDict [("developer_name", author)]
                   else VDict [] in
       games <- db_send_request
         (db_request (VStr "Game") "QUERY" (VDict [("filter", filt)])) ;;
       ret (VDict [("success", VBool true); ("data", games)])) w
    with
    | (Ret response, w') => (Ret response, w')
    | (Raise _, w') => (Ret (VDict [("success", VBool false)]), w')
    end.

(** [list_players] *)
Definition list_players : M pyval :=
  s <- get_lobby ;;
  let players := map fst (online_players s) in
  ret (VDict [("success", VBool true); ("players", VList players)]).

(** *** Game packages on disk *)

(** [open(game_path / "game_config.json")] and [json.load]. *)
Definition load_config (game_dir : option node) : M pyval :=
  match game_dir with
  | Some (Dir entries) =>
      match sd_find "game_config.json" entries with
      | Some (File content) =>
          match json_loads rt content with
          | Some config => ret config
          | None => raise ValueError
          end
      | _ => raise FileError
      end
  | _ => raise FileError
  end.

(** The regular files at and below a node, each with its path relative to
    the start: what [rglob('*')] yields and [is_file()] keeps. The order of
    the walk only fixes the order of the keys of the reply. *)
Fixpoint tree_files (prefix : list string) (n : node)
    : list (list string * list byte) :=
  match n with
  | File content => [(prefix, content)]
  | Dir entries =>
      concat (map (fun entry => tree_files (prefix ++ [entry.1]) entry.2) entries)
  end.

(** [str(relative_path)]: the components joined by ["/"]. *)
Fixpoint path_str (p : list string) : string :=
  match p with
  | [] => "."
  | [name] => name
  | name :: rest => name ++ "/" ++ path_str rest
  end.

(** [str] of a path is the first name followed by the rest, each name after
    a ["/"]. *)
Definition tail_str (rest : list string) : string :=
  match rest with
  | [] => ""
  | _ => "/" ++ path_str rest
  end.

(** [file_path.name] *)
Definition path_name (p : list string) : string := List.last p "".

(** One turn of the [for file_path in game_path.rglob('*')] loop of
    [download_game], on a path that [is_file()]. *)
Definition add_file (files : list (string * pyval))
    (found : list string * list byte) : list (string * pyval) :=
  let '(relative_path, content) := found in
  if String.eqb (path_name relative_path) "game_server.py" then files
  else sd_set (path_str relative_path) (VStr (b64encode rt content)) files.

(** The whole loop. *)
Definition collect_files (found : list (list string * list byte))
    : list (string * pyval) :=
  fold_left add_file found [].

(** [download_game] *)
Definition download_game (request : pyval) : M pyval :=
  game_name <- lift (py_get request "game_name") ;;
  version <- lift (py_get request "version") ;;
  name <- lift (py_path_part game_name) ;;
  ver <- lift (py_path_part version) ;;
  fun w =>
    let game_path := disk (backend w) name ver in
    (config <- load_config game_path ;;
     let files := collect_files
                    (match game_path with
                     | Some (Dir entries) => tree_files [] (Dir entries)
                     | _ => []
                     end) in
     ret (VDict [("success", VBool true); ("game_data", config);
                 ("files", VDict files)])) w.

(** *** Rooms *)

(** [create_room] *)
Definition create_room (request : pyval) : M pyval :=
  room_info <- lift (py_get request "room_info") ;;
  host <- lift (py_getitem_str room_info "host") ;;
  room_visibility <- lift (py_getitem_str room_info "visibility") ;;
  game_name <- lift (py_getitem_str room_info "game_name") ;;
  version <- lift (py_getitem_str room_info "version") ;;
  name <- lift (py_path_part game_name) ;;
  ver <- lift (py_path_part version) ;;
  config <- (fun w => load_config (disk (backend w) name ver) w) ;;
  s <- get_lobby ;;
  let room_id := next_room_id s in
  update_lobby (set_next_room_id (room_id + 1)%Z) ;;;
  max_players <- lift (py_getitem_str config "max_players") ;;
  min_players <- lift (py_getitem_str config "min_players") ;;
  update_lobby (fun s =>
    set_rooms (pd_set (VInt room_id)
                 {| host := host; game_name := game_name; version := version;
                    visibility := room_visibility; members := [host];
                    room_max := max_players; room_min := min_players;
                    status := "idle" |} (rooms s)) s) ;;;
  ret (VDict [("success", VBool true); ("roomId", VInt room_id)]).

(** [list_rooms] *)
Definition list_rooms : M pyval :=
  s <- get_lobby ;;
  let rooms :=
    map (fun '(room_id, room) =>
           VDict [("roomId", room_id); ("host", host room);
                  ("game_name", game_name room); ("version", version room);
                  ("visibility", visibility room);
                  ("members", VList (members room));
                  ("memberCount", VInt (Z.of_nat (length (members room))));
                  ("room_max", room_max room); ("room_min", room_min room);
                  ("status", VStr (status room))])
        (rooms s) in
  ret (VDict [("success", VBool true); ("rooms", VList rooms)]).

(** [join_room] *)
Definition join_room (message : pyval) : M pyval :=
  player_name <- lift (py_get message "player") ;;
  room_id <- lift (py_get message "roomId") ;;
  s <- get_lobby ;;
  room <- lift (pd_getitem (rooms s) room_id) ;;
  limit <- lift (py_int (room_max room)) ;;
  if (limit <=? Z.of_nat (length (members room)))%Z then ret (failure "Room is full")
  else
    (if negb (list_contains player_name (members room)) then
       update_lobby (fun s =>
         set_rooms (pd_set room_id (set_members (members room ++ [player_name]) room)
                      (rooms s)) s)
     else ret tt) ;;;
    ret (VDict [("success", VBool true); ("message", VStr "Joined room")]).

(** [leave_room] *)
Definition leave_room (message : pyval) : M pyval :=
  player_name <- lift (py_get message "player") ;;
  room_id <- lift (py_get message "roomId") ;;
  s <- get_lobby ;;
  known <- lift (pd_contains room_id (rooms s)) ;;
  if negb known then ret (failure "Room not found")
  else
    room <- lift (pd_getitem (rooms s) room_id) ;;
    (if list_contains player_name (members room) then
       let room1 := set_members (list_remove player_name (members room)) room in
       match members room1 with
       | [] => update_lobby (fun s => set_rooms (pd_del room_id (rooms s)) s)
       | first :: _ =>
           if py_eq player_name (host room1) then
             update_lobby (fun s => set_rooms (pd_set room_id (set_host first room1) (rooms s)) s)
           else
             update_lobby (fun s => set_rooms (pd_set room_id room1 (rooms s)) s)
       end
     else ret tt) ;;;
    ret (VDict [("success", VBool true); ("message", VStr "Left room")]).

(** *** Matches *)

(** The block of [start_game] under [with self.room_lock:]: the three
    guards, then the port allocation and the transition to ['playing'], as
    one step. It answers either the reply of a failed guard or the room and
    the allocated port. *)
Definition start_game_locked (room_id player_name : pyval) : M (pyval + Room * Z) :=
  s <- get_lobby ;;
  room <- lift (pd_getitem (rooms s) room_id) ;;
  if negb (py_eq player_name (host room)) then
    ret (inl (failure ("Only host can start the game" ++ nl)))
  else
    need <- lift (py_int (room_min room)) ;;
    if (Z.of_nat (length (members room)) <? need)%Z then
      ret (inl (failure ("Need at least " ++ py_str rt (room_min room)
                         ++ " players to start" ++ nl)))
    else if String.eqb (status room) "playing" then
      ret (inl (failure "Game is starting, please wait"))
    else
      let game_port := next_game_port s in
      update_lobby (set_next_game_port (game_port + 1)%Z) ;;;
      let room' := set_status "playing" room in
      update_lobby (fun s => set_rooms (pd_set room_id room' (rooms s)) s) ;;;
      ret (inr (room', game_port)).

(** The world after the critical section of a start that passed its
    guards. *)
Definition started (room_id : pyval) (room : Room) (w : World) : World :=
  with_lobby (fun s => set_rooms (pd_set room_id (set_status "playing" room) (rooms s)) s)
    (with_lobby (set_next_game_port (next_game_port (lobby w) + 1)%Z) w).

(** [notify_room_members]: a member without a connection in
    [online_players] is skipped. *)
Definition notify_room_members (room_id : pyval) (message : pyval) : M unit :=
  fun w =>
    let s := lobby w in
    match pd_find room_id (rooms s) with
    | None => (Ret tt, w)
    | Some room =>
        let pushes :=
          omap (fun member =>
                  match pd_getitem (online_players s) member with
                  | Ret sock => Some (sock, message)
                  | Raise _ => None
                  end) (members room) in
        (Ret tt, with_sent (sent w ++ pushes) w)
    end.

(** [cleanup_game], run by the waiting thread when the match process has
    exited. *)
Definition cleanup_game (room_id : pyval) : M unit :=
  update_lobby (fun s => set_games (pd_del room_id (games s)) s) ;;;
  update_lobby (fun s =>
    match pd_find room_id (rooms s) with
    | Some room => set_rooms (pd_set room_id (set_status "idle" room) (rooms s)) s
    | None => s
    end).

Definition lobby_host : string := "140.113.17.11".

(** [start_game] *)
Definition start_game (message : pyval) : M pyval :=
  room_id <- lift (py_get message "roomId") ;;
  player_name <- lift (py_get message "player_name") ;;
  game_name <- lift (py_get message "game_name") ;;
  version <- lift (py_get message "version") ;;
  checked <- start_game_locked room_id player_name ;;
  match checked with
  | inl refusal => ret refusal
  | inr (room, game_port) =>
      name <- lift (py_path_part game_name) ;;
      ver <- lift (py_path_part version) ;;
      fun w =>
        match popen w name ver game_port with
        | None =>
            (update_lobby (fun s =>
               set_games (pd_set room_id {| port := game_port |} (games s)) s) ;;;
             notify_room_members room_id
               (VDict [("action", VStr "GAME_STARTING");
                       ("gameStarter", player_name);
                       ("gamePort", VInt game_port);
                       ("gameHost", VStr lobby_host);
                       ("roomId", room_id)]) ;;;
             ret (VDict [("success", VBool true);
                         ("gamePort", VInt game_port);
                         ("gameHost", VStr lobby_host);
                         ("message", VStr "Game server started")])) w
        | Some e =>
            (update_lobby (fun s =>
               match pd_find room_id (rooms s) with
               | Some r => set_rooms (pd_set room_id (set_status "idle" r) (rooms s)) s
               | None => s
               end) ;;;
             ret (failure ("Failed to start game server: " ++ exn_str rt e))) w
        end
  end.

(** *** The dispatcher and the serving loop *)

(** [process_request] *)
Definition process_request (request : pyval) (client_sock : conn) : M pyval :=
  action <- lift (py_get request "action") ;;
  request_id <- lift (py_get request "requestId") ;;
  response <-
    (if py_eq action (VStr "REGISTER") then register request
     else if py_eq action (VStr "LOGIN") then login request client_sock
     else if py_eq action (VStr "LOGOUT") then logout request
     else if py_eq action (VStr "UPLOAD_GAME") then on_backend (upload_game request)
     else if py_eq action (VStr "UPDATE_GAME") then on_backend (update_game request)
     else if py_eq action (VStr "REMOVE_GAME") then on_backend (remove_game request)
     else if py_eq action (VStr "LIST_GAMES") then list_games request
     else if py_eq action (VStr "LIST_PLAYERS") then list_players
     else if py_eq action (VStr "DOWNLOAD_GAME") then download_game request
     else if py_eq action (VStr "CREATE_ROOM") then create_room request
     else if py_eq action (VStr "JOIN_ROOM") then join_room request
     else if py_eq action (VStr "LIST_ROOMS") then list_rooms
     else if py_eq action (VStr "LEAVE_ROOM") then leave_room request
     else if py_eq action (VStr "START_GAME") then start_game request
     else ret (VDict [("status", VStr "error"); ("message", VStr "Unknown action")])) ;;
  if truthy request_id then lift (py_setitem response "requestId" request_id)
  else ret response.

(** How a serving loop ended: [recv_message] returned nothing, or an
    exception left [handle_client]. Either way the [finally] block has run
    and the connection is closed. *)
Inductive loop_end :=
| Eof
| Crashed (e : pyexn).

(** The [finally] block of [handle_client]: [current_user in d] raises
    [TypeError] for an unhashable [current_user], which [handle_client]
    reports below. *)
Definition forget_user (current_user : pyval) (s : MainServer) : MainServer :=
  if truthy current_user then
    let s1 := set_online_players (pd_del current_user (online_players s)) s in
    set_online_developers (pd_del current_user (online_developers s1)) s1
  else s.

(** The [while True] loop of [handle_client]. [incoming] is what the
    successive calls of [recv_message] give: a decoded request, or an
    exception; after the last one the peer has closed and [recv_message]
    returns [None]. The loop returns [current_user] as it stands when the
    loop is left. *)
Fixpoint serve (client_sock : conn) (incoming : list (outcome pyval))
    (current_user : pyval) (w : World) : loop_end * pyval * World :=
  match incoming with
  | [] => (Eof, current_user, w)
  | Raise e :: _ => (Crashed e, current_user, w)
  | Ret request :: rest =>
      if negb (truthy request) then (Eof, current_user, w)
      else
        match process_request request client_sock w with
        | (Raise e, w1) => (Crashed e, current_user, w1)
        | (Ret response, w1) =>
            match py_get request "action" with
            | Raise e => (Crashed e, current_user, w1)
            | Ret action =>
                let logged_in := py_eq action (VStr "LOGIN") && truthy response in
                match (if logged_in then py_get response "userName"
                       else Ret current_user) with
                | Raise e => (Crashed e, current_user, w1)
                | Ret current_user' =>
                    serve client_sock rest current_user'
                      (with_sent (sent w1 ++ [(client_sock, response)]) w1)
                end
            end
        end
  end.

(** [handle_client] *)
Definition handle_client (client_sock : conn) (incoming : list (outcome pyval))
    (w : World) : loop_end * World :=
  let '(ending, current_user, w') := serve client_sock incoming VNone w in
  if truthy current_user && negb (hashable current_user)
  then (Crashed TypeError, w')
  else (ending, with_lobby (forget_user current_user) w').

(** The actions [process_request] knows. *)
Definition lobby_actions : list string :=
  ["REGISTER"; "LOGIN"; "LOGOUT"; "UPLOAD_GAME"; "UPDATE_GAME"; "REMOVE_GAME";
   "LIST_GAMES"; "LIST_PLAYERS"; "DOWNLOAD_GAME"; "CREATE_ROOM"; "JOIN_ROOM";
   "LIST_ROOMS"; "LEAVE_ROOM"; "START_GAME"].

(** The reply of [process_request] to an action it does not know, before
    and after the correlation id is added. *)
Definition unknown_action_reply (request_id : pyval) : pyval :=
  VDict ([("status", VStr "error"); ("message", VStr "Unknown action")]
         ++ (if truthy request_id then [("requestId", request_id)] else [])).

(** *** Runs of the lobby *)

(** What happens to the lobby, one step at a time: a worker thread
    dispatches a request received on some connection, or the thread waiting
    for a match process sees it exit and cleans up. A step runs its handler
    from start to end, so a run is the lobby with its requests handled one
    after the other; handlers that interleave are the subject of the
    machine of threads further down. *)
Inductive event :=
| Request (client_sock : conn) (request : pyval)
| GameEnded (room_id : pyval).

Definition step (e : event) (w : World) : outcome pyval * World :=
  match e with
  | Request client_sock request => process_request request client_sock w
  | GameEnded room_id =>
      let '(_, w') := cleanup_game room_id w in (Ret VNone, w')
  end.

(** A run: the events in order, each with what it returned or raised. *)
Fixpoint run (es : list event) (w : World) : list (event * outcome pyval) * World :=
  match es with
  | [] => ([], w)
  | e :: es' =>
      let '(r, w1) := step e w in
      let '(log, w2) := run es' w1 in
      ((e, r) :: log, w2)
  end.

(** The port a reply grants: the ['gamePort'] of a reply with a true
    ['success']. *)
Definition reply_port (reply : outcome pyval) : option Z :=
  match reply with
  | Ret (VDict d) =>
      match sd_find "success" d, sd_find "gamePort" d with
      | Some ok, Some (VInt p) => if truthy ok then Some p else None
      | _, _ => None
      end
  | _ => None
  end.

(** The port granted by a step of a run: that of the reply to a
    [START_GAME] request. *)
Definition granted_port (entry : event * outcome pyval) : option Z :=
  match entry with
  | (Request _ request, reply) =>
      match py_get request "action" with
      | Ret action =>
          if py_eq action (VStr "START_GAME") then reply_port reply else None
      | Raise _ => None
      end
  | (GameEnded _, _) => None
  end.

End Handlers.

(** *** The port counter, for stating its properties *)

(** A computation that leaves [next_game_port] alone. *)
Definition keeps_port {A : Type} (m : M A) : Prop :=
  forall w r w', m w = (r, w') ->
    next_game_port (lobby w') = next_game_port (lobby w).

(** What a step may do to the counter: never lower it; and a reply that
    grants a port grants the counter's value and leaves the counter one
    above it. *)
Definition port_step (w : World) (reply : outcome pyval) (w' : World) : Prop :=
  (next_game_port (lobby w) <= next_game_port (lobby w'))%Z /\
  forall p, reply_port reply = Some p ->
    p = next_game_port (lobby w) /\ next_game_port (lobby w') = (p + 1)%Z.

End Lobby.

(** ** The correlation client ([PlayerClient] of [player/player.py]) *)

Module Correlation.
Import Py Db.

(** The fields of [PlayerClient] that the request path and the receiver
    thread share. [outbox] is what has been written to [self.sock]. *)
Record PlayerClient := {
  connected : bool;
  pending_requests : pydict pyval;
  player : pyval;
  message_queue : list pyval;
  outbox : list pyval;
}.

Definition set_pending (d : pydict pyval) (c : PlayerClient) : PlayerClient :=
  {| connected := connected c; pending_requests := d; player := player c;
     message_queue := message_queue c; outbox := outbox c |}.

Definition set_queue (q : list pyval) (c : PlayerClient) : PlayerClient :=
  {| connected := connected c; pending_requests := pending_requests c;
     player := player c; message_queue := q; outbox := outbox c |}.

Definition set_connected (b : bool) (c : PlayerClient) : PlayerClient :=
  {| connected := b; pending_requests := pending_requests c;
     player := player c; message_queue := message_queue c; outbox := outbox c |}.

Definition set_outbox (l : list pyval) (c : PlayerClient) : PlayerClient :=
  {| connected := connected c; pending_requests := pending_requests c;
     player := player c; message_queue := message_queue c; outbox := l |}.

(** One turn of the [while self.connected] loop of [receive_lobby_messages]
    on the decoded message [msg], after the [if not msg: break] test.
    [Raise] is an exception inside the [try]. *)
Definition receive_body (msg : pyval) (c : PlayerClient) : outcome PlayerClient :=
    match py_get msg "action" with
    | Raise e => Raise e
    | Ret msg_type =>
        match
          (if py_eq msg_type (VStr "GAME_STARTING") then
             match py_get msg "gameStarter" with
             | Raise e => Raise e
             | Ret starter =>
                 match py_getitem_str (player c) "userName" with
                 | Raise e => Raise e
                 | Ret me => Ret (negb (py_eq starter me))
                 end
             end
           else Ret false)
        with
        | Raise e => Raise e
        | Ret true => Ret (set_queue (message_queue c ++ [msg]) c)
        | Ret false =>
            match py_get msg "requestId" with
            | Raise e => Raise e
            | Ret request_id =>
                if truthy request_id then
                  if hashable request_id then
                    Ret (set_pending (pd_set request_id msg (pending_requests c)) c)
                  else Raise TypeError
                else Ret c
            end
        end
    end.

(** The receiver thread working through the messages that have arrived. It
    stops for good at a falsy message or at the first exception, and
    [finally] clears [connected]. *)
Fixpoint receive (msgs : list pyval) (c : PlayerClient) : PlayerClient :=
  match msgs with
  | [] => c
  | msg :: rest =>
      if connected c then
        if negb (truthy msg) then set_connected false c
        else
          match receive_body msg c with
          | Ret c' => receive rest c'
          | Raise _ => set_connected false c
          end
      else c
  end.

(** [timeout = 5], in seconds. *)
Definition timeout : Q := 5.

(** One pass through the head of the waiting loop as the requesting thread
    lives it: the messages the receiver thread has handled since the last
    pass, and the value [time.time()] returns. *)
Record tick := { arrivals : list pyval; now : Q }.

Definition timeout_reply : pyval :=
  VDict [("success", VBool false); ("error", VStr "Request timeout")].

(** The [while time.time() - start_time < timeout] loop. [None]: the clock
    readings supplied do not reach the end of the wait. *)
Fixpoint wait_reply (request_id : string) (start_time : Q) (ticks : list tick)
    (c : PlayerClient) : option pyval * PlayerClient :=
  match ticks with
  | [] => (None, c)
  | t :: rest =>
      let c1 := receive (arrivals t) c in
      if Qlt_le_dec (now t - start_time) timeout then
        match pd_find (VStr request_id) (pending_requests c1) with
        | Some response =>
            (Some response,
             set_pending (pd_del (VStr request_id) (pending_requests c1)) c1)
        | None => wait_reply request_id start_time rest c1
        end
      else (Some timeout_reply, c1)
  end.

(** The message would be stored under the correlation id [request_id]. *)
Definition answers (request_id : string) (msg : pyval) : bool :=
  match py_get msg "requestId" with
  | Ret v => py_eq v (VStr request_id)
  | Raise _ => false
  end.

(** What the receiver thread alone makes of the client over some passes. *)
Definition received (ticks : list tick) (c : PlayerClient) : PlayerClient :=
  fold_left (fun c t => receive (arrivals t) c) ticks c.

Section Client.
Variable rt : Runtime.

(** [send_request]. [request_id] is [str(uuid.uuid4())]; [send_fault] is
    the exception [send_message] raises, if any; [start_time] is the first
    clock reading. *)
Definition send_request (request : list (string * pyval)) (request_id : string)
    (send_fault : option pyexn) (start_time : Q) (ticks : list tick)
    (c : PlayerClient) : option pyval * PlayerClient :=
  let request := sd_set "requestId" (VStr request_id) request in
  match send_fault with
  | Some e => (Some (VDict [("success", VBool false); ("error", VStr (exn_str rt e))]), c)
  | None =>
      wait_reply request_id start_time ticks
        (set_outbox (outbox c ++ [VDict request]) c)
  end.
End Client.

End Correlation.

(** ** A small installation, for worked examples *)

Module Scenario.
Import Py Db Lobby Correlation.

(** A runtime for the examples. [str] is given on the scalars; the hash and
    the base64 text are stand-ins that keep their argument readable; every
    non-empty file parses to the manifest of the one installed game. *)
Definition sample_manifest : pyval :=
  VDict [("name", VStr "Duel_25"); ("version", VStr "1.0.0");
         ("min_players", VInt 2); ("max_players", VInt 2)].

Definition sample_runtime : Runtime :=
  {| py_str := fun v =>
       match v with
       | VNone => "None"
       | VBool true => "True"
       | VBool false => "False"
       | VInt z => pretty z
       | VStr s => s
       | _ => "<object>"
       end;
     exn_str := fun e =>
       match e with
       | OSError msg => msg
       | KeyError _ => "KeyError"
       | IndexError => "list index out of range"
       | _ => "error"
       end;
     sha256_hex := fun s => ("sha256(" ++ s ++ ")")%string;
     json_loads := fun b =>
       match b with
       | [] => None
       | _ => Some sample_manifest
       end;
     b64encode := string_of_list_byte |}.

(** Package handlers that accept everything and touch nothing. *)
Definition accept_package (request : pyval) (b : Backend) : outcome pyval * Backend :=
  (Ret (VDict [("success", VBool true)]), b).

Definition alice : document :=
  [("id", VInt 1); ("userName", VStr "alice");
   ("passwordHash", VStr "sha256(pw)"); ("games_played", VList [])].

Definition dev1 : document :=
  [("id", VInt 1); ("userName", VStr "dev1"); ("passwordHash", VStr "sha256(pw)")].

(** A datastore with one player and one developer. *)
Definition sample_store : Database :=
  {| collections := [(VStr "Player", [(VInt 1, alice)]);
                     (VStr "Developer", [(VInt 1, dev1)]);
                     (VStr "Game", [])];
     next_ids := [(VStr "Player", 2%Z); (VStr "Developer", 2%Z); (VStr "Game", 1%Z)] |}.

(** The install directory of Duel_25 1.0.0: the manifest, the two programs,
    and a folder with one more file and one more [game_server.py]. *)
Definition duel_dir : node :=
  Dir [("game_config.json", File [x7b; x7d]);
       ("game_server.py", File [x73; x72; x76]);
       ("game_client.py", File [x63; x6c; x69]);
       ("assets", Dir [("board.txt", File [x62; x6f]);
                       ("game_server.py", File [x78])])].

Definition sample_disk (name ver : string) : option node :=
  if String.eqb name "Duel_25" && String.eqb ver "1.0.0" then Some duel_dir
  else None.

Definition sample_world : World :=
  {| lobby := init_server;
     backend := {| store := sample_store; db_link := None; disk := sample_disk |};
     popen := fun _ _ _ => None;
     sent := [] |}.

Definition sample_room : Room :=
  {| host := VStr "alice"; game_name := VStr "Duel_25"; version := VStr "1.0.0";
     visibility := VStr "Public"; members := [VStr "alice"; VStr "bob"];
     room_max := VInt 2; room_min := VInt 2; status := "idle" |}.

(** The same world with alice and bob connected and in room 1. *)
Definition world_with_room : World :=
  with_lobby (fun s =>
    set_rooms [(VInt 1, sample_room)]
      (set_next_room_id 2
         (set_online_players [(VStr "alice", 1); (VStr "bob", 2)] s)))
    sample_world.

Definition login_request (name role : string) : pyval :=
  VDict [("action", VStr "LOGIN"); ("name", VStr name);
         ("password", VStr "pw"); ("role", VStr role);
         ("requestId", VStr "r1")].

Definition serve_one (client_sock : conn) (request : pyval) (w : World)
    : loop_end * World :=
  handle_client sample_runtime accept_package accept_package accept_package
    client_sock [Ret request] w.

(** The host's [START_GAME] for room 1. *)
Definition start_request : list (string * pyval) :=
  [("action", VStr "START_GAME"); ("roomId", VInt 1);
   ("player_name", VStr "alice"); ("game_name", VStr "Duel_25");
   ("version", VStr "1.0.0")].

Definition register_request : list (string * pyval) :=
  [("action", VStr "REGISTER"); ("name", VStr "carol");
   ("password", VStr "pw"); ("role", VStr "Player")].

Definition download_request : list (string * pyval) :=
  [("action", VStr "DOWNLOAD_GAME"); ("game_name", VStr "Duel_25");
   ("version", VStr "1.0.0")].

Definition join_request : list (string * pyval) :=
  [("action", VStr "JOIN_ROOM"); ("player", VStr "carol"); ("roomId", VInt 1)].

Definition ping_request : list (string * pyval) :=
  [("action", VStr "PING"); ("requestId", VStr "r9")].

(** A client with one stored reply, waiting for another. The receiver
    handles a reply to some other request during the first pass. *)
Definition waiting_client : PlayerClient :=
  {| connected := true;
     pending_requests := [(VStr "r0", VDict [("success", VBool true); ("requestId", VStr "r0")])];
     player := VDict [("userName", VStr "alice")];
     message_queue := [];
     outbox := [] |}.

Definition quiet_passes : list tick :=
  [ {| arrivals := [VDict [("success", VBool true); ("requestId", VStr "r2")]];
       now := 101 |};
    {| arrivals := []; now := 103 |} ].

End Scenario.

(** ** Views of the lobby state, for stating what handlers keep *)

Module LobbyViews.
Import Py Db Lobby.

(** A dict as Python holds it: its keys are hashable and no two of them are
    equal. *)
Fixpoint pd_wf {V : Type} (d : pydict V) : bool :=
  match d with
  | [] => true
  | (k, _) :: d' =>
      hashable k && negb (existsb (fun entry => py_eq k entry.1) d') && pd_wf d'
  end.

(** A computation that leaves a part [f] of the lobby's fields alone. *)
Definition keeps {A X : Type} (f : MainServer -> X) (m : M A) : Prop :=
  forall w r w', m w = (r, w') -> f (lobby w') = f (lobby w).

(** The fields the room and match handlers work on. *)
Definition room_state (s : MainServer) : Z * pydict Room * Z * pydict Game :=
  (next_room_id s, rooms s, next_game_port s, games s).

(** The fields the session handlers work on. *)
Definition session_state (s : MainServer) : pydict conn * pydict conn :=
  (online_players s, online_developers s).

(** A room has a member, and no more members than [room_max] allows; a
    room whose [room_max] is below one, or is not a number, holds its host
    only. *)
Definition room_ok (r : Room) : bool :=
  match members r with
  | [] => false
  | _ =>
      match py_int (room_max r) with
      | Ret limit => (Z.of_nat (length (members r)) <=? Z.max 1 limit)%Z
      | Raise _ => length (members r) =? 1
      end
  end.


(** The room id a reply to [CREATE_ROOM] carries. *)
Definition created_room (entry : event * outcome pyval) : option Z :=
  match entry with
  | (Request _ request, Ret (VDict d)) =>
      match py_get request "action" with
      | Ret action =>
          if py_eq action (VStr "CREATE_ROOM") then
            match sd_find "success" d, sd_find "roomId" d with
            | Some ok, Some (VInt id) => if truthy ok then Some id else None
            | _, _ => None
            end
          else None
      | Raise _ => None
      end
  | _ => None
  end.

(** The room that [leave_room] stores back when members remain. *)
Definition room_after_leave (player_name : pyval) (room : Room)
    (first : pyval) (remaining : list pyval) : Room :=
  if py_eq player_name (host room)
  then set_host first (set_members remaining room)
  else set_members remaining room.

(** The room a [START_GAME] by [player_name] for [room_id] gets past the
    three guards of [start_game] with, if it does. *)
Definition passes_guards (room_id player_name : pyval) (s : MainServer)
    : option Room :=
  match pd_getitem (rooms s) room_id with
  | Ret room =>
      if py_eq player_name (host room)
         && match py_int (room_min room) with
            | Ret need => (need <=? Z.of_nat (length (members room)))%Z
            | Raise _ => false
            end
         && negb (String.eqb (status room) "playing")
      then Some room else None
  | Raise _ => None
  end.

(** The push [start_game] hands to [notify_room_members]. *)
Definition game_starting (room_id player_name : pyval) (game_port : Z) : pyval :=
  VDict [("action", VStr "GAME_STARTING");
         ("gameStarter", player_name);
         ("gamePort", VInt game_port);
         ("gameHost", VStr lobby_host);
         ("roomId", room_id)].

(** One copy of [message] for every member of [room] that has a connection
    in [online_players], in the order of the members. *)
Definition pushes (s : MainServer) (room : Room) (message : pyval)
    : list (conn * pyval) :=
  omap (fun member =>
          match pd_getitem (online_players s) member with
          | Ret sock => Some (sock, message)
          | Raise _ => None
          end) (members room).

End LobbyViews.

(** ** More sample requests and worlds *)

Module MoreScenario.
Import Py Db Lobby Correlation Scenario.

(** bob leaves room 1. *)
Definition leave_request : list (string * pyval) :=
  [("action", VStr "LEAVE_ROOM"); ("player", VStr "bob"); ("roomId", VInt 1)].

(** alice logs out. *)
Definition logout_request : list (string * pyval) :=
  [("action", VStr "LOGOUT"); ("name", VStr "alice"); ("role", VStr "Player")].

(** The host's [START_GAME] for room 1 without a game name. *)
Definition nameless_start_request : list (string * pyval) :=
  [("action", VStr "START_GAME"); ("roomId", VInt 1);
   ("player_name", VStr "alice"); ("version", VStr "1.0.0")].

(** The world of [world_with_room] on a machine where no process can be
    started. *)
Definition world_without_launch : World :=
  {| lobby := lobby world_with_room;
     backend := backend world_with_room;
     popen := fun _ _ _ => Some (OSError "cannot fork");
     sent := [] |}.

(** A client with one stored reply and a first pass one second after the
    request was sent. *)
Definition early_pass : list tick := [ {| arrivals := []; now := 101 |} ].

(** Room 1 with alice alone in it: one seat is left. *)
Definition open_room : Room := set_members [VStr "alice"] sample_room.

Definition lobby_with_open_room : MainServer :=
  set_rooms [(VInt 1, open_room)] init_server.

End MoreScenario.

(** ** Worker threads, one access to the shared state at a time *)

(** [MainServer.start] serves every connection on a thread of its own, so
    the handlers of two requests may run interleaved. This machine runs the
    two pieces of code whose interleaving matters for a room: the block of
    [start_game] under [with self.room_lock:] and [join_room], which takes
    no lock. A step of a thread is one statement of the source, the read
    and the write of [self.next_game_port += 1] being two steps. A step
    reads or writes at most one of the fields that a thread of this machine
    ever changes ([members], [status], [next_game_port]), and a write is a
    single operation of the interpreter ([list.append], an item
    assignment), so nothing can happen in the middle of a step that the
    machine does not show. *)
Module Threads.
Import Py Db Lobby.

(** The two kinds of request, with what [message.get] has read from the
    message. *)
Inductive request :=
| StartGame (room_id player_name : pyval)
| JoinRoom (player_name room_id : pyval).

(** Where a thread stands, with its local variables. [room] in
    [start_game] is a reference to the dict stored in [self.rooms]: the
    machine reads the room through [room_id] each time, and no thread of
    the machine removes a room. *)
Inductive pc :=
| SgAcquire (room_id player_name : pyval)
| SgLookup (room_id player_name : pyval)
| SgHost (room_id player_name : pyval)
| SgMembers (room_id : pyval)
| SgStatus (room_id : pyval)
| SgReadPort (room_id : pyval)
| SgBump (room_id : pyval) (game_port : Z)
| SgStore (room_id : pyval) (game_port current : Z)
| SgSetStatus (room_id : pyval) (game_port : Z)
| SgRelease (room_id : pyval) (result : outcome (pyval + Room * Z))
| SgDone (room_id : pyval) (result : outcome (pyval + Room * Z))
| JoinTest (player_name room_id : pyval)
| JoinMember (player_name room_id : pyval)
| JoinAppend (player_name room_id : pyval)
| JoinDone (result : outcome pyval).

Definition enter (r : request) : pc :=
  match r with
  | StartGame room_id player_name => SgAcquire room_id player_name
  | JoinRoom player_name room_id => JoinTest player_name room_id
  end.

(** The lobby's fields, the thread that holds [room_lock] if any, and the
    threads. *)
Record machine := {
  shared : MainServer;
  room_lock : option nat;
  pool : list pc;
}.

Definition boot (requests : list request) (s : MainServer) : machine :=
  {| shared := s; room_lock := None; pool := map enter requests |}.

Definition goto (t : nat) (p : pc) (m : machine) : machine :=
  {| shared := shared m; room_lock := room_lock m; pool := <[t := p]> (pool m) |}.

Definition store (s : MainServer) (m : machine) : machine :=
  {| shared := s; room_lock := room_lock m; pool := pool m |}.

Definition set_room_lock (holder : option nat) (m : machine) : machine :=
  {| shared := shared m; room_lock := holder; pool := pool m |}.

(** The thread is inside the [with self.room_lock:] block. *)
Definition in_block (p : pc) : bool :=
  match p with
  | SgLookup _ _ | SgHost _ _ | SgMembers _ | SgStatus _ | SgReadPort _
  | SgBump _ _ | SgStore _ _ _ | SgSetStatus _ _ | SgRelease _ _ => true
  | _ => false
  end.

(** The thread has got past the three guards and has set the room
    ['playing']: the room it did so for. *)
Definition passed (p : pc) : option pyval :=
  match p with
  | SgRelease room_id (Ret (inr _)) | SgDone room_id (Ret (inr _)) => Some room_id
  | _ => None
  end.

Definition joined : pyval :=
  VDict [("success", VBool true); ("message", VStr "Joined room")].

Section Machine.
Variable rt : Runtime.

(** One step of thread [t]. A thread that waits for the lock, and a thread
    that has returned, do nothing. An exception or a [return] inside the
    [with] block leaves the block first, which releases the lock. *)
Definition step (t : nat) (m : machine) : machine :=
  let s := shared m in
  match pool m !! t with
  | None => m
  | Some (SgAcquire room_id player_name) =>
      match room_lock m with
      | Some _ => m
      | None => set_room_lock (Some t) (goto t (SgLookup room_id player_name) m)
      end
  | Some (SgLookup room_id player_name) =>
      match pd_getitem (rooms s) room_id with
      | Raise e => goto t (SgRelease room_id (Raise e)) m
      | Ret _ => goto t (SgHost room_id player_name) m
      end
  | Some (SgHost room_id player_name) =>
      match pd_getitem (rooms s) room_id with
      | Raise e => goto t (SgRelease room_id (Raise e)) m
      | Ret room =>
          if negb (py_eq player_name (host room)) then
            goto t (SgRelease room_id
                      (Ret (inl (failure ("Only host can start the game" ++ nl))))) m
          else goto t (SgMembers room_id) m
      end
  | Some (SgMembers room_id) =>
      match pd_getitem (rooms s) room_id with
      | Raise e => goto t (SgRelease room_id (Raise e)) m
      | Ret room =>
          match py_int (room_min room) with
          | Raise e => goto t (SgRelease room_id (Raise e)) m
          | Ret need =>
              if (Z.of_nat (length (members room)) <? need)%Z then
                goto t (SgRelease room_id
                          (Ret (inl (failure ("Need at least "
                                              ++ py_str rt (room_min room)
                                              ++ " players to start" ++ nl))))) m
              else goto t (SgStatus room_id) m
          end
      end
  | Some (SgStatus room_id) =>
      match pd_getitem (rooms s) room_id with
      | Raise e => goto t (SgRelease room_id (Raise e)) m
      | Ret room =>
          if String.eqb (status room) "playing" then
            goto t (SgRelease room_id
                      (Ret (inl (failure "Game is starting, please wait")))) m
          else goto t (SgReadPort room_id) m
      end
  | Some (SgReadPort room_id) => goto t (SgBump room_id (next_game_port s)) m
  | Some (SgBump room_id game_port) =>
      goto t (SgStore room_id game_port (next_game_port s)) m
  | Some (SgStore room_id game_port current) =>
      store (set_next_game_port (current + 1)%Z s)
        (goto t (SgSetStatus room_id game_port) m)
  | Some (SgSetStatus room_id game_port) =>
      match pd_getitem (rooms s) room_id with
      | Raise e => goto t (SgRelease room_id (Raise e)) m
      | Ret room =>
          let room' := set_status "playing" room in
          store (set_rooms (pd_set room_id room' (rooms s)) s)
            (goto t (SgRelease room_id (Ret (inr (room', game_port)))) m)
      end
  | Some (SgRelease room_id result) =>
      set_room_lock None (goto t (SgDone room_id result) m)
  | Some (SgDone _ _) => m
  | Some (JoinTest player_name room_id) =>
      match pd_getitem (rooms s) room_id with
      | Raise e => goto t (JoinDone (Raise e)) m
      | Ret room =>
          match py_int (room_max room) with
          | Raise e => goto t (JoinDone (Raise e)) m
          | Ret limit =>
              if (limit <=? Z.of_nat (length (members room)))%Z then
                goto t (JoinDone (Ret (failure "Room is full"))) m
              else goto t (JoinMember player_name room_id) m
          end
      end
  | Some (JoinMember player_name room_id) =>
      match pd_getitem (rooms s) room_id with
      | Raise e => goto t (JoinDone (Raise e)) m
      | Ret room =>
          if negb (list_contains player_name (members room)) then
            goto t (JoinAppend player_name room_id) m
          else goto t (JoinDone (Ret joined)) m
      end
  | Some (JoinAppend player_name room_id) =>
      match pd_getitem (rooms s) room_id with
      | Raise e => goto t (JoinDone (Raise e)) m
      | Ret room =>
          store (set_rooms (pd_set room_id
                              (set_members (members room ++ [player_name]) room)
                              (rooms s)) s)
            (goto t (JoinDone (Ret joined)) m)
      end
  | Some (JoinDone _) => m
  end.

(** The machine under a schedule: the threads step in the order given. *)
Definition exec (schedule : list nat) (m : machine) : machine :=
  fold_left (fun m t => step t m) schedule m.

End Machine.

(** The thread has found the room not ['playing'] and has not yet set it
    so: the room. *)
Definition about_to_set (p : pc) : option pyval :=
  match p with
  | SgReadPort room_id | SgBump room_id _ | SgStore room_id _ _
  | SgSetStatus room_id _ => Some room_id
  | _ => None
  end.

(** What holds of the machine at every moment of every schedule: a thread
    inside the block holds the lock; the room of a thread that got past the
    guards is ['playing']; the room of a thread between the third guard and
    the assignment is not; and no two threads got past the guards for the
    same room. *)
Record invariant (m : machine) : Prop := {
  inv_lock : forall t p,
    pool m !! t = Some p -> in_block p = true -> room_lock m = Some t;
  inv_passed : forall t p k,
    pool m !! t = Some p -> passed p = Some k ->
    hashable k = true /\
    exists room, pd_find k (rooms (shared m)) = Some room /\ status room = "playing";
  inv_about : forall t p k,
    pool m !! t = Some p -> about_to_set p = Some k ->
    hashable k = true /\
    exists room, pd_find k (rooms (shared m)) = Some room /\ status room <> "playing";
  inv_once : forall t t' p p' k k',
    t <> t' -> pool m !! t = Some p -> pool m !! t' = Some p' ->
    passed p = Some k -> passed p' = Some k' -> py_eq k k' = false;
}.

End Threads.

(** * Properties *)

(** ** Properties of the framing layer *)

Module FramingProps.
Import Framing.


Lemma CHUNK_SIZE_N : N.of_nat CHUNK_SIZE = 65536%N.
Proof. vm_compute. reflexivity. Qed.

Lemma CHUNK_SIZE_pos : 0 < CHUNK_SIZE.
Proof.
  assert (H := CHUNK_SIZE_N). destruct CHUNK_SIZE; [discriminate | lia].
Qed.

Lemma to_N_byte_of_N (x : N) : Byte.to_N (byte_of_N x) = (x mod 256)%N.
Proof.
  unfold byte_of_N. destruct (Byte.of_N (x mod 256)) as [b|] eqn:E.
  - by apply Byte.to_of_N.
  - apply Byte.of_N_None_iff in E.
    assert (x mod 256 < 256)%N by (apply N.mod_lt; lia). lia.
Qed.

Lemma length_pack_u32 (n : nat) : length (pack_u32 n) = 4.
Proof. reflexivity. Qed.

Lemma unpack_pack_u32 (n : nat) :
  (N.of_nat n < 4294967296)%N -> unpack_u32 (pack_u32 n) = Some n.
Proof.
  intros Hn. unfold unpack_u32, pack_u32. rewrite !to_N_byte_of_N.
  f_equal. rewrite <- (Nat2N.id n) at 5. f_equal.
  generalize dependent (N.of_nat n). intros m Hm.
  zify. Z.to_euclidean_division_equations. lia.
Qed.

Lemma unpack_pack_chunk (n : nat) :
  n <= CHUNK_SIZE -> unpack_u32 (pack_u32 n) = Some n.
Proof.
  intros Hn. apply unpack_pack_u32. assert (H := CHUNK_SIZE_N). lia.
Qed.

(** [recv_exact] on a connection that still holds [n] bytes returns exactly
    those bytes, however the transport cuts them into packets. *)
Lemma recv_exact_loop_enough (fuel : nat) :
  forall (buf : list byte) (sc : list nat) (n : nat) (data : list byte),
    length data <= n ->
    n - length data <= fuel ->
    n - length data <= length buf ->
    exists sc',
      recv_exact_loop fuel (Sock buf sc) n data
      = (Some (Some (data ++ take (n - length data) buf)),
         Sock (drop (n - length data) buf) sc').
Proof.
  induction fuel as [|fuel IH]; intros buf sc n data Hle Hfuel Hbuf; simpl.
  - case_decide; [lia|]. replace (n - length data) with 0 by lia.
    rewrite take_0, drop_0, app_nil_r. eauto.
  - case_decide as Hlt.
    + set (want := n - length data) in *.
      set (k := match sc with [] => want | k :: _ => Nat.min want (S k) end).
      assert (Hk : 0 < k /\ k <= want) by (subst k; destruct sc; lia).
      unfold recv. simpl. fold k.
      destruct (take k buf) as [|b pk] eqn:Epk.
      { exfalso. apply (f_equal length) in Epk. rewrite length_take in Epk.
        simpl in Epk. lia. }
      rewrite <- Epk. clear Epk b pk.
      assert (Hlen : length (take k buf) = k) by (rewrite length_take; lia).
      destruct (IH (drop k buf) (tail sc) n (data ++ take k buf)) as [sc' E].
      * rewrite length_app. lia.
      * rewrite length_app. lia.
      * rewrite length_app, length_drop. lia.
      * exists sc'. rewrite E, length_app, Hlen, drop_drop, <- app_assoc.
        replace (n - (length data + k)) with (want - k) by lia.
        replace (k + (want - k)) with want by lia.
        do 3 f_equal.
        rewrite <- (take_drop k buf) at 3.
        rewrite take_app_ge by lia. by rewrite Hlen.
    + replace (n - length data) with 0 by lia.
      rewrite take_0, drop_0, app_nil_r. eauto.
Qed.

Lemma recv_exact_enough (buf : list byte) (sc : list nat) (n : nat) :
  n <= length buf ->
  exists sc',
    recv_exact (Sock buf sc) n = (Some (Some (take n buf)), Sock (drop n buf) sc').
Proof.
  intros Hn. unfold recv_exact.
  destruct (recv_exact_loop_enough n buf sc n []) as [sc' E]; simpl; try lia.
  rewrite E. simpl. rewrite Nat.sub_0_r. eauto.
Qed.

(** A closed connection: [recv_exact] returns [None]. *)
Lemma recv_exact_closed (sc : list nat) (n : nat) :
  0 < n -> fst (recv_exact (Sock [] sc) n) = Some None.
Proof.
  intros Hn. unfold recv_exact. destruct n as [|n]; [lia|].
  cbn [recv_exact_loop]. case_decide as H; [|simpl in H; lia].
  unfold recv. cbn [inbuf]. by rewrite take_nil.
Qed.

(** Reading a length prefix. *)
Lemma recv_exact_prefix (n : nat) (body : list byte) (sc : list nat) :
  exists sc',
    recv_exact (Sock (pack_u32 n ++ body) sc) 4
    = (Some (Some (pack_u32 n)), Sock body sc').
Proof.
  destruct (recv_exact_enough (pack_u32 n ++ body) sc 4) as [sc' E];
    [rewrite length_app, length_pack_u32; lia|].
  exists sc'. rewrite E.
  rewrite (take_app_length' (pack_u32 n)) by done.
  by rewrite (drop_app_length' (pack_u32 n)) by done.
Qed.

(** The end marker closes the message. *)
Lemma recv_loop_end_marker (fuel : nat) (rest : list byte) (sc : list nat)
    (chunks : list (list byte)) :
  exists sc',
    recv_loop (S fuel) (Sock (pack_u32 0 ++ rest) sc) chunks
    = (Payload (concat chunks), Sock rest sc').
Proof.
  cbn [recv_loop].
  destruct (recv_exact_prefix 0 rest sc) as [sc' E]. rewrite E.
  exists sc'. reflexivity.
Qed.

(** What the sending loop writes, read back by the receiving loop. *)
Lemma send_recv_loop (fuel : nat) :
  forall (data : list byte) (offset : nat) (wire : list byte),
    length data - offset <= fuel ->
    exists frames,
      send_loop fuel data offset wire = Some (wire ++ frames) /\
      forall (rest : list byte) (sc : list nat) (chunks : list (list byte))
             (fuel' : nat),
        length frames < fuel' ->
        exists sc',
          recv_loop fuel' (Sock (frames ++ rest) sc) chunks
          = (Payload (concat chunks ++ drop offset data), Sock rest sc').
Proof.
  assert (Hend : forall data offset wire fuel,
    ~ offset < length data ->
    exists frames,
      send_loop fuel data offset wire = Some (wire ++ frames) /\
      forall rest sc chunks fuel',
        length frames < fuel' ->
        exists sc',
          recv_loop fuel' (Sock (frames ++ rest) sc) chunks
          = (Payload (concat chunks ++ drop offset data), Sock rest sc')).
  { intros data offset wire fuel0 Hge. exists (pack_u32 0). split.
    - destruct fuel0; cbn [send_loop]; by case_decide.
    - intros rest sc chunks [|fuel'] Hf; [lia|].
      destruct (recv_loop_end_marker fuel' rest sc chunks) as [sc' E].
      exists sc'. rewrite E, drop_ge by lia. by rewrite app_nil_r. }
  induction fuel as [|fuel IH]; intros data offset wire Hfuel.
  - apply Hend. lia.
  - destruct (decide (offset < length data)) as [Hlt|Hge]; [|by apply Hend].
    cbn [send_loop]. case_decide; [|done].
    set (cl := Nat.min CHUNK_SIZE (length data - offset)).
    set (chunk := take cl (drop offset data)).
    assert (Hcl : 0 < cl /\ cl <= CHUNK_SIZE /\ cl <= length data - offset)
      by (assert (H0 := CHUNK_SIZE_pos); subst cl; lia).
    assert (Hchunk : length chunk = cl)
      by (subst chunk; rewrite length_take, length_drop; lia).
    destruct (IH data (offset + cl) (wire ++ pack_u32 cl ++ chunk))
      as (frames & Esend & Hrecv); [lia|].
    exists (pack_u32 cl ++ chunk ++ frames). split.
    { rewrite Esend. by rewrite <- !app_assoc. }
    intros rest sc chunks [|fuel'] Hf; [lia|].
    cbn [recv_loop]. rewrite <- (app_assoc (pack_u32 cl)).
    destruct (recv_exact_prefix cl ((chunk ++ frames) ++ rest) sc) as [sc1 E1].
    rewrite E1. clear E1.
    replace (falsy_bytes (Some (pack_u32 cl))) with false by done.
    change (default [] (Some (pack_u32 cl))) with (pack_u32 cl).
    rewrite unpack_pack_chunk by lia.
    case_decide; [lia|]. case_decide; [lia|].
    rewrite <- app_assoc.
    destruct (recv_exact_enough (chunk ++ frames ++ rest) sc1 cl) as [sc2 E2];
      [rewrite length_app; lia|].
    rewrite E2. clear E2.
    rewrite (take_app_length' chunk) by done.
    rewrite (drop_app_length' chunk) by done.
    assert (Hne : falsy_bytes (Some chunk) = false)
      by (destruct chunk; [simpl in Hchunk; lia | done]).
    rewrite Hne. change (default [] (Some chunk)) with chunk.
    destruct (Hrecv rest sc2 (chunks ++ [chunk]) fuel') as [sc' E].
    { rewrite !length_app, length_pack_u32 in Hf. lia. }
    exists sc'. rewrite E. do 2 f_equal.
    rewrite concat_app. simpl. rewrite app_nil_r, <- app_assoc. f_equal.
    subst chunk. rewrite <- (take_drop cl (drop offset data)) at 2.
    by rewrite drop_drop.
Qed.

(** [send_message] always finishes, and the frames it writes decode to the
    bytes it was given, whatever follows them on the connection. *)
Lemma send_recv_frames (data rest : list byte) (sc : list nat) :
  exists wire sc',
    send_bytes data = Some wire /\
    recv_frames (Sock (wire ++ rest) sc) = (Payload data, Sock rest sc').
Proof.
  destruct (send_recv_loop (length data) data 0 []) as (frames & Es & Hr); [lia|].
  destruct (Hr rest sc [] (S (length (frames ++ rest)))) as [sc' E].
  { rewrite length_app. lia. }
  exists frames, sc'. split; [exact Es|]. exact E.
Qed.

Section CodecProperties.
Context {J : Type}.
Variable dumps : J -> list byte.
Variable loads : list byte -> option J.

(** C2. What [recv_message] returns for the byte stream [send_message]
    wrote for [v] is what [json.loads] makes of [json.dumps(v)], for every
    packet schedule of the transport and for messages of any length (one
    chunk or many); what followed the message stays on the connection. So
    the value comes back if and only if [json] itself gives it back. *)
Theorem send_recv_delivers_encoding (v : J) (rest : list byte) (sc : list nat) :
  exists wire sc',
    send_message dumps v = Some wire /\
    recv_message loads (Sock (wire ++ rest) sc)
    = (match loads (dumps v) with
       | Some u => Returned u
       | None => RaisedValueError
       end, Sock rest sc') /\
    (recv_message loads (Sock (wire ++ rest) sc) = (Returned v, Sock rest sc')
     <-> loads (dumps v) = Some v).
Proof.
  destruct (send_recv_frames (dumps v) rest sc) as (wire & sc' & Es & Er).
  exists wire, sc'. split; [exact Es|].
  unfold recv_message. rewrite Er. split; [by destruct (loads (dumps v))|].
  split; [|by intros ->].
  destruct (loads (dumps v)); [|done]. by intros [= ->].
Qed.

End CodecProperties.

(** The text [json.dumps] writes for the [GAME_OVER] message. *)
Lemma game_over_text :
  Json.text (Json.game_over 1 3 1)
  = ("{" ++ Json.quote ++ "type" ++ Json.quote ++ ": "
         ++ Json.quote ++ "GAME_OVER" ++ Json.quote ++ ", "
         ++ Json.quote ++ "winner" ++ Json.quote ++ ": 1, "
         ++ Json.quote ++ "scores" ++ Json.quote ++ ": {"
         ++ Json.quote ++ "1" ++ Json.quote ++ ": 3, "
         ++ Json.quote ++ "2" ++ Json.quote ++ ": 1}}")%string.
Proof. reflexivity. Qed.

(** Against C2 as worded. The scores of a Dots and Boxes match are a dict
    with the [int] keys [1] and [2]. [json.dumps] writes it, and the message
    around it, with the same bytes as the dict with the [str] keys ['1'] and
    ['2'], so [send_message] puts the same bytes on the connection for both:
    whatever the decoder, [recv_message] cannot return each of the two
    values for its own byte stream. *)
Theorem int_keyed_scores_not_returned :
  Json.game_over 1 3 1 <> Json.game_over_read 1 3 1 /\
  Json.dumps (Json.game_over 1 3 1) = Json.dumps (Json.game_over_read 1 3 1) /\
  send_message Json.dumps (Json.game_over 1 3 1)
  = send_message Json.dumps (Json.game_over_read 1 3 1) /\
  ~ exists loads : list byte -> option Json.value,
      forall (v : Json.value) (wire : list byte) (sc : list nat),
        send_message Json.dumps v = Some wire ->
        (recv_message loads (Sock wire sc)).1 = Returned v.
Proof.
  assert (Hdumps : Json.dumps (Json.game_over 1 3 1)
                   = Json.dumps (Json.game_over_read 1 3 1)) by reflexivity.
  split; [discriminate|]. split; [exact Hdumps|].
  split; [unfold send_message; by rewrite Hdumps|].
  intros [loads Hloads].
  destruct (send_recv_frames (Json.dumps (Json.game_over 1 3 1)) [] [])
    as (wire & _ & Hsent & _).
  pose proof (Hloads (Json.game_over 1 3 1) wire [] Hsent) as H1.
  assert (Hsent' : send_message Json.dumps (Json.game_over_read 1 3 1) = Some wire)
    by (unfold send_message; by rewrite <- Hdumps).
  pose proof (Hloads (Json.game_over_read 1 3 1) wire [] Hsent') as H2.
  rewrite H1 in H2. discriminate H2.
Qed.

(** A message of 70000 bytes travels as a chunk of 65536 bytes, a chunk of
    4464 bytes and the end marker, and is read back whole from a transport
    that delivers at most 10000 bytes per packet. *)
Example two_chunks_roundtrip :
  let data := replicate (N.to_nat 70000) x61 in
  (N.of_nat ∘ length <$> send_bytes data) = Some (4 + 65536 + 4 + 4464 + 4)%N /\
  (take 4 <$> send_bytes data) = Some [x00; x01; x00; x00] /\
  (take 4 ∘ drop (N.to_nat 65540) <$> send_bytes data)
  = Some [x00; x00; x11; x70] /\
  (let r := recv_frames (Sock (default [] (send_bytes data))
                           (replicate 20 (N.to_nat 9999))) in
   match fst r with
   | Payload got => N.of_nat (length got) = 70000%N /\ forallb (Byte.eqb x61) got = true
   | _ => False
   end).
Proof. vm_compute. repeat split; reflexivity. Qed.

End FramingProps.

(** ** Properties of the lobby *)

Module LobbyProps.
Import Py Db Lobby.

(** *** Facts about keys *)

Lemma py_eq_refl_hashable (k : pyval) : hashable k = true -> py_eq k k = true.
Proof.
  destruct k; simpl; try done; intros _.
  - by destruct b.
  - apply Z.eqb_refl.
  - apply String.eqb_refl.
Qed.

Lemma pd_find_set_eq {V : Type} (k : pyval) (v : V) (d : pydict V) :
  hashable k = true -> pd_find k (pd_set k v d) = Some v.
Proof.
  intros Hk. induction d as [|[k' w] d IH]; simpl.
  - by rewrite py_eq_refl_hashable.
  - destruct (py_eq k' k) eqn:E; simpl; rewrite E; done.
Qed.

(** Unfolding the handler combinators. *)
Ltac run := unfold bind, lift, ret, raise, get_lobby, update_lobby; cbn beta iota.

Lemma pd_find_set_same {V : Type} (k : pyval) (v v' : V) (d : pydict V) :
  pd_find k d = Some v -> pd_find k (pd_set k v' d) = Some v'.
Proof.
  induction d as [|[k0 w] d IH]; simpl; [done|].
  destruct (py_eq k0 k) eqn:E; simpl; rewrite E; auto.
Qed.

Lemma pd_getitem_Ret {V : Type} (d : pydict V) (k : pyval) (v : V) :
  pd_getitem d k = Ret v -> hashable k = true /\ pd_find k d = Some v.
Proof.
  unfold pd_getitem. destruct (hashable k); [|done].
  destruct (pd_find k d); [|done]. by intros [= ->].
Qed.

(** *** The port counter *)

Lemma keeps_ret {A : Type} (a : A) : keeps_port (ret a).
Proof. by intros w r w' [= _ <-]. Qed.

Lemma keeps_raise {A : Type} (e : pyexn) : keeps_port (@raise A e).
Proof. by intros w r w' [= _ <-]. Qed.

Lemma keeps_lift {A : Type} (o : outcome A) : keeps_port (lift o).
Proof. by intros w r w' [= _ <-]. Qed.

Lemma keeps_get_lobby : keeps_port get_lobby.
Proof. by intros w r w' [= _ <-]. Qed.

Lemma keeps_update_lobby (f : MainServer -> MainServer) :
  (forall s, next_game_port (f s) = next_game_port s) ->
  keeps_port (update_lobby f).
Proof. intros Hf w r w' [= _ <-]. apply Hf. Qed.

Lemma keeps_bind {A B : Type} (m : M A) (k : A -> M B) :
  keeps_port m -> (forall a, keeps_port (k a)) -> keeps_port (bind m k).
Proof.
  intros Hm Hk w r w' H. unfold bind in H.
  destruct (m w) as [[a|e] w1] eqn:E.
  - rewrite (Hk a _ _ _ H). eauto.
  - injection H as _ <-. eauto.
Qed.

(** A computation that first reads something off the world. *)
Lemma keeps_reading {A X : Type} (g : World -> X) (f : X -> M A) :
  (forall x, keeps_port (f x)) -> keeps_port (fun w => f (g w) w).
Proof. intros Hf w r w' H. by eapply Hf. Qed.

Lemma keeps_on_backend (f : Backend -> outcome pyval * Backend) :
  keeps_port (on_backend f).
Proof.
  intros w r w' H. unfold on_backend in H.
  destruct (f (backend w)) as [r0 b]. by injection H as _ <-.
Qed.

Lemma keeps_db_send_request (rt : Runtime) (request : pyval) :
  keeps_port (db_send_request rt request).
Proof.
  intros w r w' H. unfold db_send_request in H.
  destruct (db_link (backend w)).
  - by injection H as _ <-.
  - destruct (Db.process_request rt request (store (backend w))).
    by injection H as _ <-.
Qed.

Ltac keeps :=
  repeat first
    [ apply keeps_ret | apply keeps_raise | apply keeps_lift
    | apply keeps_get_lobby | apply keeps_db_send_request
    | apply keeps_on_backend
    | apply keeps_update_lobby; intros ?; reflexivity
    | apply keeps_bind; [|intros ?]
    | match goal with
      | |- keeps_port (if ?b then _ else _) => destruct b
      | |- keeps_port (match ?x with _ => _ end) => destruct x
      end ].

Section Ports.
Variable rt : Runtime.
Variables upload_game update_game remove_game : pyval -> Backend -> outcome pyval * Backend.

Lemma keeps_register request : keeps_port (register rt request).
Proof. unfold register. keeps. Qed.

Lemma keeps_login request client_sock : keeps_port (login rt request client_sock).
Proof. unfold login. keeps. Qed.

Lemma keeps_logout request : keeps_port (logout request).
Proof. unfold logout. keeps. Qed.

Lemma keeps_list_games request : keeps_port (list_games rt request).
Proof.
  intros w r w' H. unfold list_games in H.
  match type of H with
  | context [?m w] =>
      assert (Hm : keeps_port m) by keeps;
      destruct (m w) as [[a|e] w1] eqn:E
  end; injection H as _ <-; eauto.
Qed.

Lemma keeps_list_players : keeps_port list_players.
Proof. unfold list_players. keeps. Qed.

Lemma keeps_load_config game_dir : keeps_port (load_config rt game_dir).
Proof. unfold load_config. keeps. Qed.

Lemma keeps_download_game request : keeps_port (download_game rt request).
Proof.
  unfold download_game.
  apply keeps_bind; [apply keeps_lift | intros game_name].
  apply keeps_bind; [apply keeps_lift | intros version].
  apply keeps_bind; [apply keeps_lift | intros name].
  apply keeps_bind; [apply keeps_lift | intros ver].
  apply (keeps_reading (fun w => disk (backend w) name ver)
           (fun game_path =>
              bind (load_config rt game_path) (fun config =>
                ret (VDict [("success", VBool true); ("game_data", config);
                            ("files", VDict (collect_files rt
                               match game_path with
                               | Some (Dir entries) => tree_files [] (Dir entries)
                               | _ => []
                               end))])))).
  intros game_path.
  apply keeps_bind; [apply keeps_load_config | intros config; apply keeps_ret].
Qed.

Lemma keeps_create_room request : keeps_port (create_room rt request).
Proof.
  unfold create_room.
  do 5 (apply keeps_bind; [apply keeps_lift | intros ?]).
  apply keeps_bind; [apply keeps_lift | intros name].
  apply keeps_bind; [apply keeps_lift | intros ver].
  apply keeps_bind; [|intros config; keeps].
  apply (keeps_reading (fun w => disk (backend w) name ver) (load_config rt)).
  apply keeps_load_config.
Qed.

Lemma keeps_list_rooms : keeps_port list_rooms.
Proof. unfold list_rooms. keeps. Qed.

Lemma keeps_join_room message : keeps_port (join_room message).
Proof. unfold join_room. keeps. Qed.

Lemma keeps_leave_room message : keeps_port (leave_room message).
Proof. unfold leave_room. keeps. Qed.

Lemma keeps_cleanup_game room_id : keeps_port (cleanup_game room_id).
Proof.
  unfold cleanup_game. keeps.
  apply keeps_update_lobby. intros s.
  by destruct (pd_find room_id (rooms s)).
Qed.

Lemma keeps_notify room_id message : keeps_port (notify_room_members room_id message).
Proof.
  intros w r w' H. unfold notify_room_members in H.
  destruct (pd_find room_id (rooms (lobby w))); by injection H as _ <-.
Qed.

Lemma port_step_keeps (m : M pyval) (w : World) (r : outcome pyval) (w' : World) :
  keeps_port m -> m w = (r, w') -> reply_port r = None -> port_step w r w'.
Proof.
  intros Hm H Hr. split; [rewrite (Hm _ _ _ H); lia|].
  intros p Hp. congruence.
Qed.

Lemma reply_port_failure (msg : string) : reply_port (Ret (failure msg)) = None.
Proof. reflexivity. Qed.

Lemma start_game_locked_port (room_id player_name : pyval) (w : World)
    (r : outcome (pyval + Room * Z)) (w' : World) :
  start_game_locked rt room_id player_name w = (r, w') ->
  (w' = w /\ (exists e, r = Raise e)) \/
  (w' = w /\ (exists msg, r = Ret (inl (failure msg)))) \/
  (exists room, r = Ret (inr (room, next_game_port (lobby w))) /\
     next_game_port (lobby w') = (next_game_port (lobby w) + 1)%Z).
Proof.
  unfold start_game_locked. run. intros H.
  destruct (pd_getitem (rooms (lobby w)) room_id) as [room|e];
    [|injection H as <- <-; left; eauto].
  destruct (negb (py_eq player_name (host room)));
    [injection H as <- <-; right; left; eauto|].
  destruct (py_int (room_min room)) as [need|e];
    [|injection H as <- <-; left; eauto].
  destruct (Z.of_nat (length (members room)) <? need)%Z;
    [injection H as <- <-; right; left; eauto|].
  destruct (String.eqb (status room) "playing");
    [injection H as <- <-; right; left; eauto|].
  injection H as <- <-. right; right. eexists. split; reflexivity.
Qed.

Lemma start_game_port (message : pyval) (w : World) (r : outcome pyval) (w' : World) :
  start_game rt message w = (r, w') -> port_step w r w'.
Proof.
  unfold start_game. run. intros H.
  destruct (py_get message "roomId") as [room_id|e];
    [|injection H as <- <-; split; [lia|done]].
  destruct (py_get message "player_name") as [player_name|e];
    [|injection H as <- <-; split; [lia|done]].
  destruct (py_get message "game_name") as [game_name|e];
    [|injection H as <- <-; split; [lia|done]].
  destruct (py_get message "version") as [version|e];
    [|injection H as <- <-; split; [lia|done]].
  destruct (start_game_locked rt room_id player_name w) as [r1 w1] eqn:E.
  apply start_game_locked_port in E.
  destruct E as [[-> [e ->]] | [[-> [msg ->]] | (room & -> & Hnext)]].
  - injection H as <- <-. split; [lia|done].
  - injection H as <- <-. split; [lia|done].
  - destruct (py_path_part game_name) as [name|e];
      [|injection H as <- <-; split; [lia|done]].
    destruct (py_path_part version) as [ver|e];
      [|injection H as <- <-; split; [lia|done]].
    destruct (popen w1 name ver (next_game_port (lobby w))) as [e|].
    + cbn in H. injection H as <- <-. split; [|done].
      cbn. destruct (pd_find room_id (rooms (lobby w1))); cbn; lia.
    + cbn in H. unfold notify_room_members in H. cbn in H.
      destruct (pd_find room_id (rooms (lobby w1)));
        injection H as <- <-; unfold port_step; cbn; (split; [lia|]);
        intros p [= <-]; (split; [done|lia]).
Qed.

Lemma sd_find_set_ne {V : Type} (k k' : string) (v : V) (d : list (string * V)) :
  k <> k' -> sd_find k' (sd_set k v d) = sd_find k' d.
Proof.
  intros Hne. induction d as [|[k0 w] d IH]; simpl.
  - destruct (String.eqb_spec k k'); done.
  - destruct (String.eqb_spec k0 k) as [->|]; simpl.
    + by destruct (String.eqb_spec k k').
    + by rewrite IH.
Qed.

Lemma reply_port_setitem (response reply' : pyval) (request_id : pyval) :
  py_setitem response "requestId" request_id = Ret reply' ->
  reply_port (Ret reply') = reply_port (Ret response).
Proof.
  destruct response; try done. intros [= <-]. cbn.
  by rewrite !sd_find_set_ne.
Qed.

(** Adding the correlation id to a reply does not change the port it
    grants, nor the world. *)
Lemma finish_reply_port (request_id response : pyval) (w : World)
    (r : outcome pyval) (w' : World) :
  (if truthy request_id then lift (py_setitem response "requestId" request_id)
   else ret response) w = (r, w') ->
  w' = w /\ (forall p, reply_port r = Some p -> reply_port (Ret response) = Some p).
Proof.
  destruct (truthy request_id); run; intros [= <- <-]; (split; [done|]); [|done].
  intros p. destruct (py_setitem response "requestId" request_id) eqn:E; [|done].
  by rewrite (reply_port_setitem _ _ _ E).
Qed.

Abbreviation process_request := (process_request rt upload_game update_game remove_game).
Abbreviation step := (step rt upload_game update_game remove_game).
Abbreviation run := (run rt upload_game update_game remove_game).

Lemma keeps_port_step (m : M pyval) (w : World) (r : outcome pyval) (w' : World) :
  keeps_port m -> m w = (r, w') ->
  (next_game_port (lobby w) <= next_game_port (lobby w'))%Z.
Proof. intros Hm H. rewrite (Hm _ _ _ H). lia. Qed.

(** One step of a run and the counter. *)
Lemma step_port (e : event) (w : World) (r : outcome pyval) (w' : World) :
  step e w = (r, w') ->
  (next_game_port (lobby w) <= next_game_port (lobby w'))%Z /\
  forall p, granted_port (e, r) = Some p ->
    p = next_game_port (lobby w) /\ next_game_port (lobby w') = (p + 1)%Z.
Proof.
  destruct e as [client_sock request | room_id]; cbn [Lobby.step granted_port].
  - unfold Lobby.process_request.
    unfold bind at 1. unfold lift at 1.
    destruct (py_get request "action") as [action|e];
      [|intros [= <- <-]; split; [lia|done]].
    unfold bind at 1. unfold lift at 1.
    destruct (py_get request "requestId") as [request_id|e];
      [|intros [= <- <-]; split; [lia|by destruct (py_eq _ _)]].
    unfold bind at 1.
    match goal with
    | |- context [match ?d w with _ => _ end] => set (dispatch := d)
    end.
    assert (Hd : forall r1 w1, dispatch w = (r1, w1) ->
              (next_game_port (lobby w) <= next_game_port (lobby w1))%Z /\
              (py_eq action (VStr "START_GAME") = true -> port_step w r1 w1)).
    { intros r1 w1. subst dispatch.
      destruct action as [| | |a| |]; cbn [py_eq];
        try (intros [= <- <-]; split; [lia|done]).
      repeat match goal with
             | |- context [String.eqb a ?lit] =>
                 destruct (String.eqb_spec a lit) as [->|?]
             end;
        try (intros [= <- <-]; split; [lia|done]);
        try (intros H1; split; [|done]; revert H1; apply keeps_port_step;
             first [ apply keeps_register | apply keeps_login
                   | apply keeps_logout | apply keeps_on_backend
                   | apply keeps_list_games | apply keeps_list_players
                   | apply keeps_download_game | apply keeps_create_room
                   | apply keeps_join_room | apply keeps_list_rooms
                   | apply keeps_leave_room ]).
      intros H1. apply start_game_port in H1. split; [apply H1 | done]. }
    destruct (dispatch w) as [[response|e] w1] eqn:E.
    + intros H. destruct (Hd _ _ eq_refl) as [Hle Hstart].
      apply finish_reply_port in H. destruct H as [-> Hp].
      split; [done|]. intros p.
      destruct (py_eq action (VStr "START_GAME")); [|done].
      intros Hr. apply Hp in Hr. by apply Hstart.
    + intros [= <- <-]. destruct (Hd _ _ eq_refl) as [Hle _].
      split; [done|]. intros p. cbn.
      by destruct (py_eq action (VStr "START_GAME")).
  - destruct (cleanup_game room_id w) as [r0 w1] eqn:E. intros [= <- <-].
    split; [|done]. rewrite (keeps_cleanup_game _ _ _ _ E). lia.
Qed.

(** C6. In every run of the lobby, from any state and whatever else
    happens between them (other requests, rooms created and left, matches
    ending), the ports granted by successful [START_GAME] replies, read in
    the order of the run, increase strictly and start at the counter's
    value: no two grants carry the same port. *)
Theorem match_ports_never_repeat (es : list event) (w : World) :
  let ports := omap granted_port (run es w).1 in
  StronglySorted Z.lt ports /\
  Forall (fun p => (next_game_port (lobby w) <= p)%Z) ports /\
  NoDup ports /\
  (next_game_port (lobby w) <= next_game_port (lobby (run es w).2))%Z.
Proof.
  cbn zeta.
  assert (H : forall es w,
    StronglySorted Z.lt (omap granted_port (run es w).1) /\
    Forall (fun p => (next_game_port (lobby w) <= p)%Z)
      (omap granted_port (run es w).1) /\
    (next_game_port (lobby w) <= next_game_port (lobby (run es w).2))%Z).
  { clear es w. induction es as [|e es IH]; intros w.
    - cbn. repeat split; [constructor | constructor | lia].
    - cbn [Lobby.run].
      destruct (step e w) as [r w1] eqn:E.
      destruct (step_port _ _ _ _ E) as [Hle Hgrant].
      specialize (IH w1). destruct (run es w1) as [log w2].
      cbn [fst snd] in IH |- *.
      destruct IH as (Hsorted & Hlow & Hend).
      change (omap granted_port ((e, r) :: log))
        with (match granted_port (e, r) with
              | Some y => y :: omap granted_port log
              | None => omap granted_port log
              end).
      destruct (granted_port (e, r)) as [p|] eqn:Ep.
      + destruct (Hgrant p eq_refl) as [-> Hnext].
        split; [|split; [|lia]].
        * constructor; [done|].
          eapply Forall_impl; [exact Hlow|]. cbn. intros q Hq. lia.
        * constructor; [lia|].
          eapply Forall_impl; [exact Hlow|]. cbn. intros q Hq. lia.
      + split; [done|]. split; [|lia].
        eapply Forall_impl; [exact Hlow|]. cbn. intros q Hq. lia. }
  destruct (H es w) as (Hs & Hl & He). repeat split; try done.
  clear Hl He. induction Hs as [|p ps Hs IH Hall]; constructor; [|done].
  intros Hin. rewrite Forall_forall in Hall. specialize (Hall _ Hin). lia.
Qed.

End Ports.

(** *** Registration *)

Lemma with_backend_same (w : World) :
  with_backend {| store := store (backend w); db_link := db_link (backend w);
                  disk := disk (backend w) |} w = w.
Proof. by destruct w as [s [db l d] po se]. Qed.

Lemma with_lobby_forget_none (w : World) : with_lobby (forget_user VNone) w = w.
Proof. by destruct w as [[] b po se]. Qed.

Section Register.
Variable rt : Runtime.
Variables upload_game update_game remove_game : pyval -> Backend -> outcome pyval * Backend.

(** A query that the datastore answers is answered to the lobby as it
    is, and changes nothing. *)
Lemma db_query_answer (role filters : pyval) (w : World) (answer : pyval) :
  db_link (backend w) = None ->
  Db.query role filters (store (backend w)) = Ret answer ->
  db_send_request rt (db_request role "QUERY" (VDict [("filter", filters)])) w
  = (Ret answer, w).
Proof.
  intros Hlink Hquery. unfold db_send_request. rewrite Hlink.
  unfold Db.process_request, process_request_body, db_request. cbn.
  assert (Hc : pd_contains role (collections (store (backend w))) = Ret true).
  { unfold query in Hquery.
    destruct (pd_getitem locks role) eqn:El; [|done].
    destruct (pd_getitem (collections (store (backend w))) role) eqn:Ec; [|done].
    apply pd_getitem_Ret in Ec. destruct Ec as [Hh Hf].
    unfold pd_contains. rewrite Hh, Hf. done. }
  rewrite Hc, Hquery. destruct w as [s [db l d] po se]. cbn in *. by subst.
Qed.

(** C9. A [REGISTER] request for a name the datastore has no record of
    (the store is reachable and its query for that name in the role's
    collection comes back empty) makes [register] raise [IndexError] at
    [existing[0]]. Nothing is stored and no reply is produced; the exception
    leaves [process_request] and [handle_client], whose loop ends there
    with the requests that follow unread. *)
Theorem register_fresh_raises (m : list (string * pyval)) (w : World)
    (client_sock : conn) (rest : list (outcome pyval)) :
  let name := default VNone (sd_find "name" m) in
  let role := default VNone (sd_find "role" m) in
  sd_find "action" m = Some (VStr "REGISTER") ->
  db_link (backend w) = None ->
  Db.query role (VDict [("userName", name)]) (store (backend w)) = Ret (VList []) ->
  register rt (VDict m) w = (Raise IndexError, w) /\
  process_request rt upload_game update_game remove_game (VDict m) client_sock w
  = (Raise IndexError, w) /\
  handle_client rt upload_game update_game remove_game client_sock
    (Ret (VDict m) :: rest) w
  = (Crashed IndexError, w).
Proof.
  intros name role Haction Hlink Hquery.
  assert (Hreg : register rt (VDict m) w = (Raise IndexError, w)).
  { unfold register. run. cbn [py_get py_get_default].
    fold name role. rewrite (db_query_answer _ _ _ _ Hlink Hquery). reflexivity. }
  assert (Hproc : process_request rt upload_game update_game remove_game
                    (VDict m) client_sock w = (Raise IndexError, w)).
  { unfold process_request. run. cbn [py_get py_get_default].
    rewrite Haction.
    change (default VNone (Some (VStr "REGISTER"))) with (VStr "REGISTER").
    change (py_eq (VStr "REGISTER") (VStr "REGISTER")) with true.
    cbn iota. rewrite Hreg. reflexivity. }
  repeat split; [exact Hreg | exact Hproc |].
  unfold handle_client. cbn [serve].
  assert (Htruthy : truthy (VDict m) = true) by (by destruct m).
  rewrite Htruthy. cbn [negb]. rewrite Hproc. cbn.
  by rewrite with_lobby_forget_none.
Qed.
End Register.

(** *** Downloading a package *)

(** Induction over a directory tree. *)
Lemma node_induction (P : node -> Prop) :
  (forall content, P (File content)) ->
  (forall entries, Forall (fun entry => P entry.2) entries -> P (Dir entries)) ->
  forall n, P n.
Proof.
  intros HF HD.
  fix IH 1. intros [content|entries]; [apply HF|].
  apply HD. induction entries as [|[name child] entries IHe]; constructor.
  - apply IH.
  - apply IHe.
Qed.

Lemma sd_find_Some_elem {V : Type} (key : string) (v : V) (d : list (string * V)) :
  sd_find key d = Some v -> (key, v) ∈ d.
Proof.
  induction d as [|[k w] d IH]; simpl; [done|].
  destruct (String.eqb_spec k key) as [->|].
  - intros [= ->]. left.
  - intros H. right. auto.
Qed.

Lemma distinct_names_find {V : Type} (key : string) (v : V) (d : list (string * V)) :
  distinct_names (map fst d) = true -> (key, v) ∈ d -> sd_find key d = Some v.
Proof.
  induction d as [|[k w] d IH]; simpl; [by intros _ ?%elem_of_nil|].
  intros [Hnot Hd]%andb_true_iff Hin.
  apply elem_of_cons in Hin. destruct Hin as [[= -> ->]|Hin].
  - by rewrite String.eqb_refl.
  - destruct (String.eqb_spec k key) as [->|]; [|auto].
    exfalso. apply negb_true_iff in Hnot.
    assert (existsb (String.eqb key) (map fst d) = true); [|congruence].
    apply existsb_exists. exists key. split; [|apply String.eqb_refl].
    apply list_elem_of_In, list_elem_of_fmap. by exists (key, v).
Qed.

(** The files the walk finds are the files the paths lead to. *)
Lemma tree_files_lookup (n : node) :
  wf_node n = true ->
  forall prefix p content,
    (p, content) ∈ tree_files prefix n <->
    exists q, p = prefix ++ q /\ lookup_path n q = Some (File content).
Proof.
  induction n as [c|entries IH] using node_induction; intros Hwf prefix p content.
  - simpl. rewrite list_elem_of_singleton. split.
    + intros [= -> ->]. exists []. by rewrite app_nil_r.
    + intros (q & -> & Hq). destruct q; [|done].
      injection Hq as ->. by rewrite app_nil_r.
  - cbn [wf_node] in Hwf. apply andb_true_iff in Hwf as [Hnames Hall].
    rewrite forallb_forall in Hall. rewrite Forall_forall in IH.
    cbn [tree_files]. rewrite list_elem_of_In, in_concat. split.
    + intros (l & Hl & Hin). apply in_map_iff in Hl as ([name child] & <- & He).
      apply list_elem_of_In in He, Hin.
      pose proof (Hall _ (proj1 (list_elem_of_In _ _) He)) as [_ Hc]%andb_true_iff.
      apply (IH _ He Hc) in Hin as (q & -> & Hq). cbn in *.
      exists (name :: q). split; [by rewrite <- app_assoc|].
      cbn. by rewrite (distinct_names_find _ _ _ Hnames He).
    + intros (q & -> & Hq). destruct q as [|name q]; [done|]. cbn in Hq.
      destruct (sd_find name entries) as [child|] eqn:Ef; [|done].
      apply sd_find_Some_elem in Ef.
      pose proof (Hall _ (proj1 (list_elem_of_In _ _) Ef)) as [_ Hc]%andb_true_iff.
      exists (tree_files (prefix ++ [name]) child). split.
      * apply in_map_iff. exists (name, child). split; [done|].
        by apply list_elem_of_In.
      * apply list_elem_of_In. apply (IH _ Ef Hc). exists q.
        split; [by rewrite <- app_assoc | done].
Qed.

Lemma sd_find_key_eq {V : Type} (key : string) (v : V) (d : list (string * V)) :
  sd_find key d = Some v -> exists k, (k, v) ∈ d /\ k = key.
Proof. intros H. exists key. split; [by apply sd_find_Some_elem | done]. Qed.

(** Along a path that leads somewhere, no name has a ["/"]. *)
Lemma lookup_path_no_slash (n : node) :
  wf_node n = true ->
  forall q x, lookup_path n q = Some x -> Forall (fun name => no_slash name = true) q.
Proof.
  induction n as [c|entries IH] using node_induction; intros Hwf q x Hq.
  - destruct q; [constructor | done].
  - destruct q as [|name q]; [constructor|]. cbn in Hq.
    destruct (sd_find name entries) as [child|] eqn:Ef; [|done].
    apply sd_find_Some_elem in Ef.
    cbn [wf_node] in Hwf. apply andb_true_iff in Hwf as [_ Hall].
    rewrite forallb_forall in Hall.
    pose proof (Hall _ (proj1 (list_elem_of_In _ _) Ef)) as [Hn Hc]%andb_true_iff.
    rewrite Forall_forall in IH. constructor; [exact Hn|].
    exact (IH _ Ef Hc q x Hq).
Qed.

Lemma append_cons (c : ascii) (a s : string) :
  (String c a ++ s = String c (a ++ s))%string.
Proof. reflexivity. Qed.

Lemma append_empty_r (a : string) : (a ++ "" = a)%string.
Proof. induction a as [|c a IH]; [done|]. by rewrite append_cons, IH. Qed.

Lemma path_str_cons (name : string) (rest : list string) :
  path_str (name :: rest) = (name ++ tail_str rest)%string.
Proof. destruct rest; cbn; [by rewrite append_empty_r | done]. Qed.

Lemma name_then_slash (a b t1 t2 : string) :
  no_slash a = true -> no_slash b = true ->
  (t1 = "" \/ exists t, t1 = String "/" t) ->
  (t2 = "" \/ exists t, t2 = String "/" t) ->
  (a ++ t1 = b ++ t2)%string -> a = b /\ t1 = t2.
Proof.
  revert b. induction a as [|c a IH]; intros [|c' b] Ha Hb H1 H2 H;
    rewrite ?append_cons in H; change ("" ++ ?x)%string with x in H; cbn in Ha, Hb.
  - done.
  - exfalso. destruct H1 as [->|[t ->]]; [done|]. injection H as <- _.
    by rewrite Ascii.eqb_refl in Hb.
  - exfalso. destruct H2 as [->|[t ->]]; [done|]. injection H as -> _.
    by rewrite Ascii.eqb_refl in Ha.
  - injection H as -> H.
    apply andb_true_iff in Ha as [_ Ha]. apply andb_true_iff in Hb as [_ Hb].
    destruct (IH b Ha Hb H1 H2 H) as [-> ->]. done.
Qed.

Lemma tail_str_shape (rest : list string) :
  tail_str rest = "" \/ exists t, tail_str rest = String "/" t.
Proof. destruct rest; [by left | right; by eexists]. Qed.

(** Two paths with the same [str] are the same path. *)
Lemma path_str_inj (p q : list string) :
  p <> [] -> q <> [] ->
  Forall (fun name => no_slash name = true) p ->
  Forall (fun name => no_slash name = true) q ->
  path_str p = path_str q -> p = q.
Proof.
  revert q. induction p as [|a p IH]; intros [|b q] Hp Hq Fp Fq H; try done.
  rewrite !path_str_cons in H.
  apply Forall_cons in Fp as [Ha Fp]. apply Forall_cons in Fq as [Hb Fq].
  destruct (name_then_slash _ _ _ _ Ha Hb (tail_str_shape p) (tail_str_shape q) H)
    as [-> Ht].
  f_equal. destruct p as [|a' p], q as [|b' q]; try done.
  apply IH; try done. cbn [tail_str] in Ht. by injection Ht.
Qed.

Lemma sd_find_set {V : Type} (k key : string) (v : V) (d : list (string * V)) :
  sd_find key (sd_set k v d) = if String.eqb k key then Some v else sd_find key d.
Proof.
  induction d as [|[k0 w] d IH]; cbn; [done|].
  destruct (String.eqb_spec k0 k) as [->|Hne]; cbn.
  - by destruct (String.eqb k key).
  - rewrite IH. destruct (String.eqb_spec k key) as [->|]; [|done].
    by destruct (String.eqb_spec k0 key).
Qed.

Section Download.
Variable rt : Runtime.

Lemma collect_files_fold (found : list (list string * list byte)) :
  collect_files rt found = fold_left (add_file rt) found [].
Proof. reflexivity. Qed.

(** Every key of the reply comes from a file that is not the server
    program. *)
Lemma fold_add_file_sound (found : list (list string * list byte)) :
  forall acc key v,
    sd_find key (fold_left (add_file rt) found acc) = Some v ->
    sd_find key acc = Some v \/
    exists p c, (p, c) ∈ found /\ key = path_str p /\
      path_name p <> "game_server.py" /\ v = VStr (b64encode rt c).
Proof.
  induction found as [|[p c] found IH]; intros acc key v H; cbn in H; [by left|].
  apply IH in H as [H|(p' & c' & Hin & Hrest)].
  - destruct (String.eqb_spec (path_name p) "game_server.py") as [|Hname];
      [by left|].
    rewrite sd_find_set in H.
    destruct (String.eqb_spec (path_str p) key) as [<-|]; [|by left].
    injection H as <-. right. exists p, c. repeat split; [left | done].
  - right. exists p', c'. split; [by right | done].
Qed.

(** Every file that is not the server program is in the reply, under the
    [str] of its path. *)
Lemma fold_add_file_complete (p : list string) (c : list byte)
    (found : list (list string * list byte)) :
  path_name p <> "game_server.py" ->
  forall acc,
    (forall p' c', (p', c') ∈ found -> path_str p' = path_str p -> c' = c) ->
    (p, c) ∈ found \/ sd_find (path_str p) acc = Some (VStr (b64encode rt c)) ->
    sd_find (path_str p) (fold_left (add_file rt) found acc)
    = Some (VStr (b64encode rt c)).
Proof.
  intros Hname. induction found as [|[p' c'] found IH]; intros acc Hfun H; cbn.
  - destruct H as [H|H]; [by apply elem_of_nil in H | done].
  - apply IH.
    + intros p2 c2 Hin. apply Hfun. by right.
    + destruct H as [H|H].
      * apply elem_of_cons in H as [[= <- <-]|H]; [|by left].
        right. destruct (String.eqb_spec (path_name p) "game_server.py"); [done|].
        by rewrite sd_find_set, String.eqb_refl.
      * right.
        destruct (String.eqb_spec (path_name p') "game_server.py"); [done|].
        rewrite sd_find_set.
        destruct (String.eqb_spec (path_str p') (path_str p)) as [E|]; [|done].
        by rewrite (Hfun p' c' (ltac:(left)) E).
Qed.
(** C10. For a [DOWNLOAD_GAME] request that names an installed package (its
    directory exists and holds a [game_config.json] that parses), the reply
    is a success whose ['files'] map has, under the [str] of its relative
    path, the base64 text of every regular file below the directory whose
    name is not [game_server.py]; it has nothing else; and no path whose
    last name is [game_server.py] is a key of it. *)
Theorem download_game_files (m : list (string * pyval)) (w : World)
    (name ver : string) (entries : list (string * node))
    (content : list byte) (config : pyval) :
  sd_find "game_name" m = Some (VStr name) ->
  sd_find "version" m = Some (VStr ver) ->
  disk (backend w) name ver = Some (Dir entries) ->
  wf_node (Dir entries) = true ->
  sd_find "game_config.json" entries = Some (File content) ->
  json_loads rt content = Some config ->
  exists files,
    download_game rt (VDict m) w
    = (Ret (VDict [("success", VBool true); ("game_data", config);
                   ("files", VDict files)]), w) /\
    (forall p c,
       lookup_path (Dir entries) p = Some (File c) ->
       path_name p <> "game_server.py" ->
       sd_find (path_str p) files = Some (VStr (b64encode rt c))) /\
    (forall key v,
       sd_find key files = Some v ->
       exists p c, key = path_str p /\
         lookup_path (Dir entries) p = Some (File c) /\
         path_name p <> "game_server.py" /\
         v = VStr (b64encode rt c)) /\
    (forall p,
       p <> [] -> Forall (fun part => no_slash part = true) p ->
       path_name p = "game_server.py" ->
       sd_find (path_str p) files = None).
Proof.
  intros Hname Hver Hdisk Hwf Hconfig Hjson.
  set (root := Dir entries) in *.
  assert (Hfound : forall p c,
            (p, c) ∈ tree_files [] root <-> lookup_path root p = Some (File c)).
  { intros p c. rewrite (tree_files_lookup root Hwf [] p c). split.
    - by intros (q & -> & Hq).
    - intros H. by exists p. }
  assert (Hsound : forall key v,
            sd_find key (collect_files rt (tree_files [] root)) = Some v ->
            exists p c, key = path_str p /\ lookup_path root p = Some (File c) /\
              path_name p <> "game_server.py" /\ v = VStr (b64encode rt c)).
  { intros key v H. rewrite collect_files_fold in H.
    apply fold_add_file_sound in H as [H|(p & c & Hin & -> & Hn & ->)]; [done|].
    exists p, c. by rewrite <- Hfound. }
  assert (Hpath : forall p c, lookup_path root p = Some (File c) ->
            p <> [] /\ Forall (fun part => no_slash part = true) p).
  { intros p c H. split; [by intros -> | by eapply lookup_path_no_slash]. }
  exists (collect_files rt (tree_files [] root)). split; [|split; [|split]].
  - unfold download_game. run. cbn [py_get py_get_default].
    rewrite Hname, Hver. cbn. rewrite Hdisk. subst root. cbn.
    rewrite Hconfig, Hjson. reflexivity.
  - intros p c Hp Hn. rewrite collect_files_fold.
    apply fold_add_file_complete; [done| |left; by apply Hfound].
    intros p' c' Hin Heq. apply Hfound in Hin.
    destruct (Hpath _ _ Hp) as [Hp1 Hp2]. destruct (Hpath _ _ Hin) as [Hq1 Hq2].
    assert (p' = p) as -> by (by apply path_str_inj). congruence.
  - exact Hsound.
  - intros p Hp1 Hp2 Hn.
    destruct (sd_find (path_str p) (collect_files rt (tree_files [] root)))
      as [v|] eqn:E; [|done].
    exfalso. apply Hsound in E as (q & c & Heq & Hq & Hqn & _).
    destruct (Hpath _ _ Hq) as [Hq1 Hq2].
    assert (p = q) as -> by (by apply path_str_inj). done.
Qed.
End Download.

(** *** Unknown actions *)

Section UnknownAction.
Variable rt : Runtime.
Variables upload_game update_game remove_game : pyval -> Backend -> outcome pyval * Backend.

(** C8, as the code has it. A request whose action is none of the fourteen
    the dispatcher knows is answered [{'status': 'error', 'message':
    'Unknown action'}], with the request's ['requestId'] added when it is
    true. The reply has neither a ['success'] nor an ['error'] key. Nothing
    changes, and the serving loop goes on to the next request. *)
Theorem unknown_action_envelope (m : list (string * pyval)) (client_sock : conn)
    (w : World) (rest : list (outcome pyval)) :
  let action := default VNone (sd_find "action" m) in
  let request_id := default VNone (sd_find "requestId" m) in
  let reply := unknown_action_reply request_id in
  forallb (fun known => negb (py_eq action (VStr known))) lobby_actions = true ->
  m <> [] ->
  process_request rt upload_game update_game remove_game (VDict m) client_sock w
  = (Ret reply, w) /\
  py_get reply "success" = Ret VNone /\
  py_get reply "error" = Ret VNone /\
  py_get reply "message" = Ret (VStr "Unknown action") /\
  serve rt upload_game update_game remove_game client_sock
    (Ret (VDict m) :: rest) VNone w
  = serve rt upload_game update_game remove_game client_sock rest VNone
      (with_sent (sent w ++ [(client_sock, reply)]) w).
Proof.
  intros action request_id reply Hunknown Hm.
  cbn [forallb lobby_actions] in Hunknown.
  repeat (apply andb_true_iff in Hunknown as [?%negb_true_iff Hunknown]).
  assert (Hproc : process_request rt upload_game update_game remove_game
                    (VDict m) client_sock w = (Ret reply, w)).
  { unfold process_request. run. cbn [py_get py_get_default].
    fold action request_id.
    repeat match goal with H : py_eq action _ = false |- _ => rewrite H; clear H end.
    subst reply. unfold unknown_action_reply.
    destruct (truthy request_id); reflexivity. }
  assert (Hkeys : forall key, key <> "status" -> key <> "message" ->
            key <> "requestId" -> py_get reply key = Ret VNone).
  { intros key Ka Kb Kc. subst reply. unfold unknown_action_reply.
    destruct (truthy request_id); cbn [py_get py_get_default sd_find app];
      repeat match goal with
             | |- context [String.eqb ?a key] => destruct (String.eqb_spec a key)
             end; try congruence; reflexivity. }
  split; [exact Hproc|]. split; [by apply Hkeys|]. split; [by apply Hkeys|].
  split.
  { subst reply. unfold unknown_action_reply. by destruct (truthy request_id). }
  cbn [serve]. assert (truthy (VDict m) = true) as -> by (by destruct m).
  cbn [negb]. rewrite Hproc. cbn [py_get py_get_default]. fold action.
  assert (py_eq action (VStr "LOGIN") = false) as -> by done.
  reflexivity.
Qed.
End UnknownAction.

(** *** Disconnects *)

Section Disconnect.
Variable rt : Runtime.
Variables upload_game update_game remove_game : pyval -> Backend -> outcome pyval * Backend.

(** No reply of [login] has a ['userName'] key. *)
Lemma login_reply_shape (request : pyval) (client_sock : conn) (w : World)
    (response : pyval) (w' : World) :
  login rt request client_sock w = (Ret response, w') ->
  exists d, response = VDict d /\ sd_find "userName" d = None.
Proof.
  unfold login. run. intros H.
  repeat match type of H with
         | context [match ?x with _ => _ end] => destruct x eqn:?
         | context [if ?b then _ else _] => destruct b eqn:?
         end;
    try discriminate;
    injection H as <- <-; eexists; split; reflexivity.
Qed.

(** The reply to a [LOGIN] request, as [process_request] returns it, has no
    ['userName'] either. *)
Lemma login_reply_user_name (m : list (string * pyval)) (client_sock : conn)
    (w : World) (response : pyval) (w' : World) :
  py_eq (default VNone (sd_find "action" m)) (VStr "LOGIN") = true ->
  process_request rt upload_game update_game remove_game (VDict m) client_sock w
  = (Ret response, w') ->
  py_get response "userName" = Ret VNone.
Proof.
  intros Haction. unfold process_request. run. cbn [py_get py_get_default].
  destruct (default VNone (sd_find "action" m)) as [| | |a| |]; try done.
  cbn [py_eq] in Haction. apply String.eqb_eq in Haction as ->.
  change (py_eq (VStr "LOGIN") (VStr "REGISTER")) with false.
  change (py_eq (VStr "LOGIN") (VStr "LOGIN")) with true. cbn iota.
  destruct (login rt (VDict m) client_sock w) as [[r|e] w1] eqn:E; [|done].
  apply login_reply_shape in E as (d & -> & Hd).
  destruct (truthy (default VNone (sd_find "requestId" m))); intros [= <- <-]; cbn.
  - by rewrite sd_find_set_ne, Hd.
  - by rewrite Hd.
Qed.

(** Whatever a connection sends, [current_user] is still [None] when its
    serving loop is left. *)
Lemma serve_current_user (client_sock : conn) (incoming : list (outcome pyval)) :
  forall w,
    (serve rt upload_game update_game remove_game client_sock incoming VNone w).1.2
    = VNone.
Proof.
  induction incoming as [|[request|e] incoming IH]; intros w; cbn [serve]; try done.
  destruct (truthy request); cbn [negb]; [|done].
  destruct (process_request rt upload_game update_game remove_game request
              client_sock w) as [[response|e] w1] eqn:E; [|done].
  destruct request as [| | | | |m]; try done.
  cbn [py_get py_get_default].
  destruct (py_eq (default VNone (sd_find "action" m)) (VStr "LOGIN")) eqn:Ea;
    cbn [andb]; [|apply IH].
  destruct (truthy response); [|apply IH].
  rewrite (login_reply_user_name _ _ _ _ _ Ea E). apply IH.
Qed.

(** X1. So the [finally] block of [handle_client] never removes a session:
    whatever the connection sent, the lobby is left as the last request
    left it. *)
Lemma handle_client_forgets_nobody (client_sock : conn)
    (incoming : list (outcome pyval)) (w : World) :
  let served := serve rt upload_game update_game remove_game client_sock incoming VNone w in
  handle_client rt upload_game update_game remove_game client_sock incoming w
  = (served.1.1, served.2).
Proof.
  cbn zeta. unfold handle_client.
  pose proof (serve_current_user client_sock incoming w) as Hu.
  destruct (serve rt upload_game update_game remove_game client_sock incoming VNone w)
    as [[ending cu] w1].
  cbn in Hu |- *. subst cu. cbn. by rewrite with_lobby_forget_none.
Qed.
End Disconnect.

(** *** Joining a room *)

(** [join_room] on a room id that is not in [self.rooms] raises. *)
Lemma join_room_absent (m : list (string * pyval)) (w : World) :
  let room_id := default VNone (sd_find "roomId" m) in
  hashable room_id = true ->
  pd_find room_id (rooms (lobby w)) = None ->
  join_room (VDict m) w = (Raise (KeyError room_id), w).
Proof.
  intros room_id Hh Hf. unfold join_room. run. cbn [py_get py_get_default].
  fold room_id. unfold pd_getitem. by rewrite Hh, Hf.
Qed.

(** X2. The three cases of [join_room] on a room that exists, in the order
    the code tests them: a room with [room_max] members or more answers
    "Room is full"; otherwise a player already in [members] gets the success
    reply and nothing changes; otherwise the player is appended to
    [members] and gets the success reply. *)
Lemma join_room_present (m : list (string * pyval)) (w : World) (room : Room)
    (limit : Z) :
  let room_id := default VNone (sd_find "roomId" m) in
  let player_name := default VNone (sd_find "player" m) in
  let joined := VDict [("success", VBool true); ("message", VStr "Joined room")] in
  pd_getitem (rooms (lobby w)) room_id = Ret room ->
  py_int (room_max room) = Ret limit ->
  ((limit <= Z.of_nat (length (members room)))%Z ->
     join_room (VDict m) w = (Ret (failure "Room is full"), w)) /\
  ((Z.of_nat (length (members room)) < limit)%Z ->
     list_contains player_name (members room) = true ->
     join_room (VDict m) w = (Ret joined, w)) /\
  ((Z.of_nat (length (members room)) < limit)%Z ->
     list_contains player_name (members room) = false ->
     join_room (VDict m) w
     = (Ret joined,
        with_lobby (fun s =>
          set_rooms (pd_set room_id
                       (set_members (members room ++ [player_name]) room)
                       (rooms s)) s) w)).
Proof.
  intros room_id player_name joined Hroom Hlimit.
  assert (Hrun : join_room (VDict m) w
            = (if (limit <=? Z.of_nat (length (members room)))%Z
               then ret (failure "Room is full")
               else bind
                      (if negb (list_contains player_name (members room)) then
                         update_lobby (fun s =>
                           set_rooms (pd_set room_id
                                        (set_members (members room ++ [player_name]) room)
                                        (rooms s)) s)
                       else ret tt)
                      (fun _ => ret joined)) w).
  { unfold join_room. run. cbn [py_get py_get_default].
    fold room_id player_name. by rewrite Hroom, Hlimit. }
  rewrite Hrun. split; [|split].
  - intros Hfull. apply Z.leb_le in Hfull. by rewrite Hfull.
  - intros Hroom_left Hmember. apply Z.leb_gt in Hroom_left.
    by rewrite Hroom_left, Hmember.
  - intros Hroom_left Hnew. apply Z.leb_gt in Hroom_left.
    by rewrite Hroom_left, Hnew.
Qed.

(** *** Logging in *)

(** X3. A name bound in [online_players] cannot log in, whatever role the
    request names: the reply is "User already online" and nothing
    changes. *)
Lemma login_refused_while_player_online (rt : Runtime) (m : list (string * pyval))
    (client_sock : conn) (w : World) :
  pd_contains (default VNone (sd_find "name" m)) (online_players (lobby w)) = Ret true ->
  login rt (VDict m) client_sock w = (Ret (failure "User already online"), w).
Proof.
  intros H. unfold login. run. cbn [py_get py_get_default]. by rewrite H.
Qed.

End LobbyProps.

(** ** The lobby on the sample installation *)

Module LobbyCases.
Import Py Db Lobby Scenario LobbyProps.

(** C1. Alice logs in on connection 7 and the connection ends. The reply to
    [LOGIN] has no ['userName'] key, so [current_user] stays [None] and the
    [finally] block removes nobody: alice is still in [online_players],
    bound to the closed connection, and her next login, on connection 8, is
    refused with "User already online". *)
Theorem disconnect_after_login_keeps_session :
  let request := login_request "alice" "Player" in
  let after := serve_one 7 request sample_world in
  after.1 = Eof /\
  py_get (default VNone (snd <$> head (sent after.2))) "success" = Ret (VBool true) /\
  py_get (default VNone (snd <$> head (sent after.2))) "userName" = Ret VNone /\
  pd_find (VStr "alice") (online_players (lobby after.2)) = Some 7 /\
  login sample_runtime request 8 after.2
  = (Ret (failure "User already online"), after.2).
Proof. vm_compute. repeat split; reflexivity. Qed.

(** C4. A [JOIN_ROOM] for room 7, which does not exist, raises [KeyError]
    at [self.rooms[room_id]]: no reply is written and the serving loop of
    that connection ends. [leave_room] on the same input answers
    "Room not found". *)
Theorem join_absent_room_raises :
  let request := VDict [("action", VStr "JOIN_ROOM"); ("player", VStr "bob");
                        ("roomId", VInt 7); ("requestId", VStr "r2")] in
  pd_find (VInt 7) (rooms (lobby world_with_room)) = None /\
  join_room request world_with_room = (Raise (KeyError (VInt 7)), world_with_room) /\
  (serve_one 3 request world_with_room).1 = Crashed (KeyError (VInt 7)) /\
  sent (serve_one 3 request world_with_room).2 = [] /\
  leave_room request world_with_room
  = (Ret (failure "Room not found"), world_with_room).
Proof. vm_compute. repeat split; reflexivity. Qed.

(** C5. The developer dev1 is online on connection 1. A second [LOGIN] of
    dev1 as Developer, from connection 2, succeeds and rebinds the name to
    connection 2: [login] looks for the name in [online_players] only. *)
Theorem developer_logs_in_twice :
  let request := login_request "dev1" "Developer" in
  let once := (login sample_runtime request 1 sample_world).2 in
  let twice := login sample_runtime request 2 once in
  online_developers (lobby once) = [(VStr "dev1", 1)] /\
  online_players (lobby once) = [] /\
  pd_contains (VStr "dev1") (online_developers (lobby once)) = Ret true /\
  twice.1 = Ret (VDict [("success", VBool true); ("data", VList [VDict dev1])]) /\
  online_developers (lobby twice.2) = [(VStr "dev1", 2)].
Proof. vm_compute. repeat split; reflexivity. Qed.

Lemma register_fresh_raises_witness :
  Db.query (VStr "Player") (VDict [("userName", VStr "carol")]) sample_store
  = Ret (VList []) /\
  register sample_runtime (VDict register_request) sample_world
  = (Raise IndexError, sample_world) /\
  serve_one 5 (VDict register_request) sample_world
  = (Crashed IndexError, sample_world).
Proof.
  split; [reflexivity|].
  destruct (register_fresh_raises sample_runtime accept_package accept_package
              accept_package register_request sample_world 5 []
              eq_refl eq_refl eq_refl) as (Hreg & _ & Hloop).
  split; [exact Hreg | exact Hloop].
Defined.

Lemma download_game_files_witness :
  exists files,
    download_game sample_runtime (VDict download_request) sample_world
    = (Ret (VDict [("success", VBool true); ("game_data", sample_manifest);
                   ("files", VDict files)]), sample_world) /\
    sd_find "game_client.py" files = Some (VStr "cli") /\
    sd_find "assets/board.txt" files = Some (VStr "bo") /\
    sd_find "game_server.py" files = None /\
    sd_find "assets/game_server.py" files = None.
Proof.
  destruct (download_game_files sample_runtime download_request sample_world
              "Duel_25" "1.0.0"
              [("game_config.json", File [x7b; x7d]);
               ("game_server.py", File [x73; x72; x76]);
               ("game_client.py", File [x63; x6c; x69]);
               ("assets", Dir [("board.txt", File [x62; x6f]);
                               ("game_server.py", File [x78])])]
              [x7b; x7d] sample_manifest
              eq_refl eq_refl eq_refl eq_refl eq_refl eq_refl)
    as (files & Hreply & Hin & _ & Hout).
  exists files. split; [exact Hreply|].
  split; [exact (Hin ["game_client.py"] [x63; x6c; x69] eq_refl ltac:(discriminate))|].
  split; [exact (Hin ["assets"; "board.txt"] [x62; x6f] eq_refl ltac:(discriminate))|].
  split.
  - apply (Hout ["game_server.py"]); [discriminate | by repeat constructor | reflexivity].
  - apply (Hout ["assets"; "game_server.py"]);
      [discriminate | by repeat constructor | reflexivity].
Defined.

Lemma unknown_action_envelope_witness :
  process_request sample_runtime accept_package accept_package accept_package
    (VDict ping_request) 3 sample_world
  = (Ret (VDict [("status", VStr "error"); ("message", VStr "Unknown action");
                 ("requestId", VStr "r9")]), sample_world) /\
  py_get (unknown_action_reply (VStr "r9")) "success" = Ret VNone /\
  py_get (unknown_action_reply (VStr "r9")) "error" = Ret VNone.
Proof.
  destruct (unknown_action_envelope sample_runtime accept_package accept_package
              accept_package ping_request 3 sample_world []
              eq_refl ltac:(discriminate)) as (Hreply & Hs & He & _).
  split; [exact Hreply|]. split; [exact Hs | exact He].
Defined.

Lemma join_room_present_witness :
  pd_getitem (rooms (lobby world_with_room)) (VInt 1) = Ret sample_room /\
  join_room (VDict join_request) world_with_room
  = (Ret (failure "Room is full"), world_with_room).
Proof.
  split; [reflexivity|].
  destruct (join_room_present join_request world_with_room sample_room 2
              eq_refl eq_refl) as [Hfull _].
  exact (Hfull ltac:(vm_compute; discriminate)).
Defined.

Lemma login_refused_while_player_online_witness :
  login sample_runtime (login_request "alice" "Developer") 9 world_with_room
  = (Ret (failure "User already online"), world_with_room).
Proof.
  exact (login_refused_while_player_online sample_runtime
           [("action", VStr "LOGIN"); ("name", VStr "alice");
            ("password", VStr "pw"); ("role", VStr "Developer");
            ("requestId", VStr "r1")] 9 world_with_room eq_refl).
Defined.

End LobbyCases.

(** ** Properties of the correlation client *)

Module CorrelationProps.
Import Py Db Correlation Scenario.

Lemma py_eq_str (v : pyval) (s : string) : py_eq v (VStr s) = true -> v = VStr s.
Proof. destruct v; try done. cbn. by intros ->%String.eqb_eq. Qed.

Lemma py_eq_str_l (v : pyval) (s : string) : py_eq (VStr s) v = true -> v = VStr s.
Proof. destruct v; try done. cbn. by intros ->%String.eqb_eq. Qed.

(** Storing under another key does not touch the entry of a [str] key. *)
Lemma pd_find_set_other {V : Type} (key : pyval) (s : string) (v : V) (d : pydict V) :
  py_eq key (VStr s) = false ->
  pd_find (VStr s) (pd_set key v d) = pd_find (VStr s) d.
Proof.
  intros Hne. induction d as [|[k0 w] d IH]; cbn.
  - by rewrite Hne.
  - destruct (py_eq k0 key) eqn:E0; cbn.
    + destruct (py_eq k0 (VStr s)) eqn:E1; [|done].
      apply py_eq_str in E1 as ->. apply py_eq_str_l in E0 as ->.
      cbn in Hne. by rewrite String.eqb_refl in Hne.
    + by rewrite IH.
Qed.

(** A message that does not answer [request_id] leaves its entry alone. *)
Lemma receive_body_other (request_id : string) (msg : pyval) (c c' : PlayerClient) :
  answers request_id msg = false ->
  receive_body msg c = Ret c' ->
  pd_find (VStr request_id) (pending_requests c')
  = pd_find (VStr request_id) (pending_requests c).
Proof.
  unfold answers, receive_body. intros Ha H.
  destruct (py_get msg "action") as [msg_type|]; [|done].
  destruct (if py_eq msg_type (VStr "GAME_STARTING") then _ else _) as [[|]|];
    [by injection H as <- | | done].
  destruct (py_get msg "requestId") as [id|]; [|done].
  destruct (truthy id); [|by injection H as <-].
  destruct (hashable id); [|done]. injection H as <-. cbn.
  by apply pd_find_set_other.
Qed.

Lemma receive_other (request_id : string) (msgs : list pyval) :
  forall c,
    Forall (fun msg => answers request_id msg = false) msgs ->
    pd_find (VStr request_id) (pending_requests (receive msgs c))
    = pd_find (VStr request_id) (pending_requests c).
Proof.
  induction msgs as [|msg msgs IH]; intros c Hall; cbn [receive]; [done|].
  apply Forall_cons in Hall as [Hmsg Hall].
  destruct (connected c); [|done]. destruct (truthy msg); cbn [negb]; [|done].
  destruct (receive_body msg c) as [c'|] eqn:E; [|done].
  rewrite (IH c' Hall). by eapply receive_body_other.
Qed.

Section Timeout.
Variable rt : Runtime.

(** C7. A request is sent ([send_message] does not raise) under a
    correlation id that has no entry in [pending_requests] and that no
    message handled by the receiver thread carries. The clock readings taken
    at the head of the waiting loop stay less than 5 seconds after
    [start_time] over the passes [before], and the next one, [last], is at
    least 5 seconds after it. Then [send_request] returns the value
    [{'success': False, 'error': 'Request timeout'}] at that pass (no
    exception), and the client is exactly what the receiver thread alone
    made of it over these passes: the wait has written nothing to
    [pending_requests]. *)
Theorem send_request_timeout (request : list (string * pyval)) (request_id : string)
    (start_time : Q) (before : list tick) (last : tick) (after : list tick)
    (c : PlayerClient) :
  let sent := set_outbox
                (outbox c ++ [VDict (sd_set "requestId" (VStr request_id) request)]) c in
  pd_find (VStr request_id) (pending_requests c) = None ->
  Forall (fun t => Forall (fun msg => answers request_id msg = false) (arrivals t))
    (before ++ [last]) ->
  Forall (fun t => (now t - start_time < timeout)%Q) before ->
  (timeout <= now last - start_time)%Q ->
  send_request rt request request_id None start_time (before ++ last :: after) c
  = (Some timeout_reply, received (before ++ [last]) sent) /\
  pending_requests (received (before ++ [last]) sent)
  = pending_requests (received (before ++ [last]) c) /\
  (Forall (fun t => arrivals t = []) (before ++ [last]) ->
   pending_requests (received (before ++ [last]) sent) = pending_requests c).
Proof.
  intros sent Hfresh Hquiet Hearly Hlate. unfold send_request. fold sent.
  assert (Hsent : pd_find (VStr request_id) (pending_requests sent) = None) by done.
  split; [|split].
  - clearbody sent. clear Hfresh c. revert sent Hsent Hquiet Hearly.
    induction before as [|t before IH]; intros c Hsent Hquiet Hearly.
    + cbn. destruct (Qlt_le_dec (now last - start_time) timeout) as [Hlt|_];
        [|done].
      exfalso. by apply (Qlt_not_le _ _ Hlt).
    + cbn [app wait_reply]. apply Forall_cons in Hearly as [Ht Hearly].
      cbn [app] in Hquiet. apply Forall_cons in Hquiet as [Hq Hquiet].
      destruct (Qlt_le_dec (now t - start_time) timeout) as [_|Hle];
        [|exfalso; by apply (Qlt_not_le _ _ Ht)].
      rewrite (receive_other _ _ _ Hq), Hsent.
      rewrite IH; [done| |done..]. by rewrite (receive_other _ _ _ Hq).
  - unfold received. subst sent. generalize (before ++ [last]). intros ticks.
    generalize (outbox c ++ [VDict (sd_set "requestId" (VStr request_id) request)]).
    intros out. clear. revert c.
    assert (Hbody : forall msg c c1, receive_body msg c = Ret c1 ->
              receive_body msg (set_outbox out c) = Ret (set_outbox out c1)).
    { intros msg c c1. unfold receive_body. cbn.
      destruct (py_get msg "action"); [|done].
      destruct (if py_eq a (VStr "GAME_STARTING") then _ else _) as [[|]|];
        [by intros [= <-] | | done].
      destruct (py_get msg "requestId"); [|done].
      destruct (truthy a0); [|by intros [= <-]].
      destruct (hashable a0); [|done]. by intros [= <-]. }
    assert (Hfail : forall msg c e, receive_body msg c = Raise e ->
              receive_body msg (set_outbox out c) = Raise e).
    { intros msg c e. unfold receive_body. cbn.
      destruct (py_get msg "action"); [|done].
      destruct (if py_eq a (VStr "GAME_STARTING") then _ else _) as [[|]|];
        [done | | done].
      destruct (py_get msg "requestId"); [|done].
      destruct (truthy a0); [|done]. by destruct (hashable a0). }
    assert (Hrecv : forall msgs c,
              receive msgs (set_outbox out c) = set_outbox out (receive msgs c)).
    { induction msgs as [|msg msgs IH]; intros c; cbn [receive]; [done|].
      change (connected (set_outbox out c)) with (connected c).
      destruct (connected c); [|done]. destruct (truthy msg); cbn [negb]; [|done].
      destruct (receive_body msg c) as [c1|e] eqn:E.
      - by rewrite (Hbody _ _ _ E), IH.
      - by rewrite (Hfail _ _ _ E). }
    induction ticks as [|t ticks IH]; intros c; cbn [fold_left]; [done|].
    by rewrite Hrecv, IH.
  - intros Hsilent.
    assert (Hidle : forall ticks c0,
              Forall (fun t => arrivals t = []) ticks -> received ticks c0 = c0).
    { induction ticks as [|t ticks IH]; intros c0 Hall; [done|].
      apply Forall_cons in Hall as [Ht Hall]. unfold received in *.
      cbn [fold_left]. rewrite Ht. cbn [receive]. by apply IH. }
    by rewrite (Hidle _ _ Hsilent).
Qed.
End Timeout.

Lemma send_request_timeout_witness :
  send_request sample_runtime [("action", VStr "LIST_ROOMS")] "r1" None 100
    (quiet_passes ++ {| arrivals := []; now := 105 |} :: []) waiting_client
  = (Some timeout_reply,
     received (quiet_passes ++ [{| arrivals := []; now := 105 |}])
       (set_outbox [VDict [("action", VStr "LIST_ROOMS"); ("requestId", VStr "r1")]]
          waiting_client)) /\
  pd_find (VStr "r0")
    (pending_requests
       (received (quiet_passes ++ [{| arrivals := []; now := 105 |}])
          (set_outbox [VDict [("action", VStr "LIST_ROOMS"); ("requestId", VStr "r1")]]
             waiting_client)))
  = Some (VDict [("success", VBool true); ("requestId", VStr "r0")]).
Proof.
  destruct (send_request_timeout sample_runtime
              [("action", VStr "LIST_ROOMS")] "r1" 100 quiet_passes
              {| arrivals := []; now := 105 |} [] waiting_client)
    as (Hreply & _ & _).
  - reflexivity.
  - repeat constructor.
  - repeat constructor.
  - vm_compute. discriminate.
  - split; [exact Hreply | reflexivity].
Defined.

End CorrelationProps.

(** ** The framing layer at its edges *)

Module FramingEdges.
Import Framing FramingProps.

(** [recv_exact] on a connection that holds fewer bytes than asked for and
    is then closed reads what is there and returns [None]. *)
Lemma recv_exact_loop_short (fuel : nat) :
  forall (buf : list byte) (sc : list nat) (n : nat) (data : list byte),
    length buf < n - length data ->
    length buf < fuel ->
    exists sc',
      recv_exact_loop fuel (Sock buf sc) n data = (Some None, Sock [] sc').
Proof.
  induction fuel as [|fuel IH]; intros buf sc n data Hshort Hfuel; [lia|].
  cbn [recv_exact_loop]. case_decide as Hlt; [|lia].
  set (want := n - length data) in *.
  set (k := match sc with [] => want | k :: _ => Nat.min want (S k) end).
  assert (Hk : 0 < k /\ k <= want) by (subst k; destruct sc; lia).
  unfold recv. cbn [inbuf sched]. fold k.
  destruct (take k buf) as [|b pk] eqn:Epk.
  - exists (tail sc). destruct buf as [|b0 buf]; [by rewrite drop_nil|].
    destruct k; [lia | done].
  - assert (Hne : 0 < length (take k buf)) by (rewrite Epk; cbn; lia).
    rewrite <- Epk. clear Epk b pk.
    assert (Hlen : length (take k buf) = Nat.min k (length buf))
      by apply length_take.
    destruct (IH (drop k buf) (tail sc) n (data ++ take k buf)) as [sc' E].
    + rewrite length_app, length_drop. lia.
    + rewrite length_drop. lia.
    + exists sc'. exact E.
Qed.

Lemma recv_exact_short (buf : list byte) (sc : list nat) (n : nat) :
  length buf < n ->
  exists sc', recv_exact (Sock buf sc) n = (Some None, Sock [] sc').
Proof.
  intros Hn. unfold recv_exact.
  apply recv_exact_loop_short; cbn; lia.
Qed.

(** What [recv_exact] does, in full: the next [n] bytes when they are
    there, [None] and an emptied connection when they are not. *)
Lemma recv_exact_cases (buf : list byte) (sc : list nat) (n : nat) :
  exists sc',
    recv_exact (Sock buf sc) n
    = if decide (n <= length buf)
      then (Some (Some (take n buf)), Sock (drop n buf) sc')
      else (Some None, Sock [] sc').
Proof.
  case_decide.
  - by apply recv_exact_enough.
  - apply recv_exact_short. lia.
Qed.

Lemma unpack_u32_four (b : list byte) : length b = 4 -> is_Some (unpack_u32 b).
Proof.
  destruct b as [|b3 [|b2 [|b1 [|b0 [|]]]]]; done.
Qed.

(** X4. [recv_message] ends on every finite stream: the receiving loop,
    which may take one turn per byte of the stream and one more, never
    needs more. It returns a payload, returns [None], or raises
    [ValueError]. *)
Theorem recv_frames_never_stuck (buf : list byte) (sc : list nat) :
  (recv_frames (Sock buf sc)).1 <> OutOfFuel.
Proof.
  unfold recv_frames. cbn [inbuf].
  assert (H : forall fuel buf sc chunks,
            length buf < fuel -> (recv_loop fuel (Sock buf sc) chunks).1 <> OutOfFuel).
  { clear. induction fuel as [|fuel IH]; intros buf sc chunks Hfuel; [lia|].
    cbn [recv_loop].
    destruct (recv_exact_cases buf sc 4) as [sc1 E1]. rewrite E1. clear E1.
    case_decide as H4; [|done].
    assert (Hhdr : length (take 4 buf) = 4) by (rewrite length_take; lia).
    replace (falsy_bytes (Some (take 4 buf))) with false
      by (destruct (take 4 buf); [done | done]).
    change (default [] (Some (take 4 buf))) with (take 4 buf).
    destruct (unpack_u32_four _ Hhdr) as [cl ->].
    case_decide; [done|]. case_decide; [done|].
    destruct (recv_exact_cases (drop 4 buf) sc1 cl) as [sc2 E2]. rewrite E2.
    clear E2. case_decide as Hcl; [|done].
    assert (Hchunk : length (take cl (drop 4 buf)) = cl)
      by (rewrite length_take; lia).
    replace (falsy_bytes (Some (take cl (drop 4 buf)))) with false
      by (destruct (take cl (drop 4 buf)); [cbn in Hchunk; lia | done]).
    apply IH. rewrite !length_drop. lia. }
  apply H. lia.
Qed.

(** A message cut short: the frames of the sending loop, truncated anywhere
    before their end, make the receiving loop return [None]. *)
Lemma send_loop_truncated (fuel : nat) :
  forall (data : list byte) (offset : nat) (wire : list byte),
    length data - offset <= fuel ->
    exists frames,
      send_loop fuel data offset wire = Some (wire ++ frames) /\
      forall (k : nat) (sc : list nat) (chunks : list (list byte)) (fuel' : nat),
        k < length frames -> k < fuel' ->
        (recv_loop fuel' (Sock (take k frames) sc) chunks).1 = NoMessage.
Proof.
  assert (Hhdr : forall n k sc chunks fuel' (tl : list byte),
            k < 4 ->
            (recv_loop (S fuel') (Sock (take k (pack_u32 n ++ tl)) sc) chunks).1
            = NoMessage).
  { intros n k sc chunks fuel' tl Hk. cbn [recv_loop].
    destruct (recv_exact_short (take k (pack_u32 n ++ tl)) sc 4) as [sc' E].
    { rewrite length_take. lia. }
    by rewrite E. }
  induction fuel as [|fuel IH]; intros data offset wire Hfuel.
  - exists (pack_u32 0). cbn [send_loop]. case_decide; [lia|]. split; [done|].
    intros k sc chunks [|fuel'] Hk Hf; [lia|].
    rewrite <- (app_nil_r (pack_u32 0)). apply Hhdr. by rewrite length_pack_u32 in Hk.
  - cbn [send_loop]. case_decide as Hlt.
    + set (cl := Nat.min CHUNK_SIZE (length data - offset)).
      set (chunk := take cl (drop offset data)).
      assert (Hcl : 0 < cl /\ cl <= CHUNK_SIZE /\ cl <= length data - offset)
        by (assert (H0 := CHUNK_SIZE_pos); subst cl; lia).
      assert (Hchunk : length chunk = cl)
        by (subst chunk; rewrite length_take, length_drop; lia).
      destruct (IH data (offset + cl) (wire ++ pack_u32 cl ++ chunk))
        as (frames & Esend & Hcut); [lia|].
      exists (pack_u32 cl ++ chunk ++ frames). split.
      { rewrite Esend. by rewrite <- !app_assoc. }
      intros k sc chunks [|fuel'] Hk Hf; [lia|].
      destruct (decide (k < 4)) as [Hk4|Hk4]; [by apply Hhdr|].
      rewrite !length_app, length_pack_u32 in Hk.
      rewrite take_app_ge by (rewrite length_pack_u32; lia).
      rewrite length_pack_u32. cbn [recv_loop].
      destruct (recv_exact_prefix cl (take (k - 4) (chunk ++ frames)) sc)
        as [sc1 E1].
      rewrite E1. clear E1.
      replace (falsy_bytes (Some (pack_u32 cl))) with false by done.
      change (default [] (Some (pack_u32 cl))) with (pack_u32 cl).
      rewrite unpack_pack_chunk by lia.
      case_decide; [lia|]. case_decide; [lia|].
      destruct (decide (k - 4 < cl)) as [Hin|Hin].
      * destruct (recv_exact_short (take (k - 4) (chunk ++ frames)) sc1 cl)
          as [sc2 E2]; [rewrite length_take; lia|].
        by rewrite E2.
      * rewrite take_app_ge by lia. rewrite Hchunk.
        destruct (recv_exact_enough (chunk ++ take (k - 4 - cl) frames) sc1 cl)
          as [sc2 E2]; [rewrite length_app; lia|].
        rewrite E2. clear E2.
        rewrite (take_app_length' chunk) by done.
        rewrite (drop_app_length' chunk) by done.
        assert (Hne : falsy_bytes (Some chunk) = false)
          by (destruct chunk; [simpl in Hchunk; lia | done]).
        rewrite Hne. change (default [] (Some chunk)) with chunk.
        apply Hcut; lia.
    + exists (pack_u32 0). split; [done|].
      intros k sc chunks [|fuel'] Hk Hf; [lia|].
      rewrite <- (app_nil_r (pack_u32 0)). apply Hhdr.
      by rewrite length_pack_u32 in Hk.
Qed.

Section Edges.
Context {J : Type}.
Variable dumps : J -> list byte.
Variable loads : list byte -> option J.

(** X5. A connection that closes in the middle of a message: for every
    message and every strict prefix of the bytes [send_message] writes for
    it, [recv_message] returns [None], whatever the packet schedule. It does
    not raise and does not return a partial message. *)
Theorem recv_truncated_returns_none (v : J) (k : nat) (sc : list nat) :
  exists wire,
    send_message dumps v = Some wire /\
    (k < length wire ->
     (recv_message loads (Sock (take k wire) sc)).1 = ReturnedNone).
Proof.
  unfold send_message, send_bytes.
  destruct (send_loop_truncated (length (dumps v)) (dumps v) 0 [])
    as (frames & Es & Hcut); [lia|].
  exists frames. split; [exact Es|]. intros Hk.
  unfold recv_message, recv_frames. cbn [inbuf].
  specialize (Hcut k sc [] (S (length (take k frames))) Hk).
  destruct (recv_loop _ _ _) as [r s']. cbn in Hcut.
  rewrite Hcut; [done|]. rewrite length_take. lia.
Qed.

(** X6. A length prefix above [CHUNK_SIZE] is refused: whatever follows it
    on the connection, [recv_message] raises [ValueError] without reading
    the chunk. *)
Theorem recv_rejects_oversized_chunk (n : nat) (body : list byte) (sc : list nat) :
  CHUNK_SIZE < n ->
  (N.of_nat n < 4294967296)%N ->
  (recv_frames (Sock (pack_u32 n ++ body) sc)).1 = InvalidChunk n /\
  inbuf (recv_frames (Sock (pack_u32 n ++ body) sc)).2 = body /\
  (recv_message loads (Sock (pack_u32 n ++ body) sc)).1 = RaisedValueError.
Proof.
  intros Hbig Hfit.
  assert (E : exists sc', recv_frames (Sock (pack_u32 n ++ body) sc)
                          = (InvalidChunk n, Sock body sc')).
  { unfold recv_frames. cbn [recv_loop].
    destruct (recv_exact_prefix n body sc) as [sc1 E1]. rewrite E1.
    replace (falsy_bytes (Some (pack_u32 n))) with false by done.
    change (default [] (Some (pack_u32 n))) with (pack_u32 n).
    rewrite unpack_pack_u32 by done.
    case_decide; [lia|]. case_decide; [|lia]. by exists sc1. }
  destruct E as [sc' E]. unfold recv_message. by rewrite E.
Qed.

(** X7. Two messages sent one after the other on a connection are
    received one after the other, each whole, by two calls of
    [recv_message]. *)
Theorem recv_two_messages (v1 v2 : J) (sc : list nat) :
  (forall v : J, loads (dumps v) = Some v) ->
  exists wire1 wire2 s1 s2,
    send_message dumps v1 = Some wire1 /\
    send_message dumps v2 = Some wire2 /\
    recv_message loads (Sock (wire1 ++ wire2) sc) = (Returned v1, s1) /\
    recv_message loads s1 = (Returned v2, s2) /\
    inbuf s2 = [].
Proof.
  intros Hcodec.
  destruct (send_recv_frames (dumps v2) [] []) as (wire2 & _ & Es2 & _).
  destruct (send_recv_frames (dumps v1) wire2 sc) as (wire1 & sc1 & Es1 & Er1).
  destruct (send_recv_frames (dumps v2) [] sc1) as (wire2' & sc2 & Es2' & Er2).
  assert (wire2' = wire2) as -> by congruence.
  exists wire1, wire2, (Sock wire2 sc1), (Sock [] sc2).
  rewrite app_nil_r in Er2.
  unfold send_message, recv_message. rewrite Er1, Er2, !Hcodec. done.
Qed.
End Edges.

Lemma recv_rejects_oversized_chunk_witness :
  CHUNK_SIZE < N.to_nat 65537 /\
  (recv_message loads_bool (Sock (pack_u32 (N.to_nat 65537) ++ [x74]) [])).1
  = RaisedValueError.
Proof.
  assert (Hbig : CHUNK_SIZE < N.to_nat 65537)
    by (assert (H := CHUNK_SIZE_N); lia).
  split; [exact Hbig|].
  apply (recv_rejects_oversized_chunk loads_bool (N.to_nat 65537) [x74] [] Hbig).
  lia.
Defined.

Lemma recv_two_messages_witness :
  exists wire1 wire2 s1 s2,
    send_message dumps_bool true = Some wire1 /\
    send_message dumps_bool false = Some wire2 /\
    recv_message loads_bool (Sock (wire1 ++ wire2) [0; 1; 2]) = (Returned true, s1) /\
    recv_message loads_bool s1 = (Returned false, s2) /\
    inbuf s2 = [].
Proof.
  apply (recv_two_messages dumps_bool loads_bool true false [0; 1; 2]).
  intros []; reflexivity.
Defined.

End FramingEdges.

(** ** More on the lobby *)

Module LobbyMore.
Import Py Db Lobby LobbyViews LobbyProps.

(** *** What a handler leaves alone *)

Lemma keeps_ret' {A X : Type} (f : MainServer -> X) (a : A) : keeps f (ret a).
Proof. by intros w r w' [= _ <-]. Qed.

Lemma keeps_raise' {A X : Type} (f : MainServer -> X) (e : pyexn) :
  keeps f (@raise A e).
Proof. by intros w r w' [= _ <-]. Qed.

Lemma keeps_lift' {A X : Type} (f : MainServer -> X) (o : outcome A) :
  keeps f (lift o).
Proof. by intros w r w' [= _ <-]. Qed.

Lemma keeps_get_lobby' {X : Type} (f : MainServer -> X) : keeps f get_lobby.
Proof. by intros w r w' [= _ <-]. Qed.

Lemma keeps_update_lobby' {X : Type} (f : MainServer -> X)
    (g : MainServer -> MainServer) :
  (forall s, f (g s) = f s) -> keeps f (update_lobby g).
Proof. intros Hg w r w' [= _ <-]. apply Hg. Qed.

Lemma keeps_bind' {A B X : Type} (f : MainServer -> X) (m : M A) (k : A -> M B) :
  keeps f m -> (forall a, keeps f (k a)) -> keeps f (bind m k).
Proof.
  intros Hm Hk w r w' H. unfold bind in H.
  destruct (m w) as [[a|e] w1] eqn:E.
  - rewrite (Hk a _ _ _ H). eauto.
  - injection H as _ <-. eauto.
Qed.

Lemma keeps_reading' {A X Y : Type} (f : MainServer -> X) (g : World -> Y)
    (h : Y -> M A) :
  (forall y, keeps f (h y)) -> keeps f (fun w => h (g w) w).
Proof. intros Hh w r w' H. by eapply Hh. Qed.

Lemma keeps_on_backend' {X : Type} (f : MainServer -> X)
    (h : Backend -> outcome pyval * Backend) :
  keeps f (on_backend h).
Proof.
  intros w r w' H. unfold on_backend in H.
  destruct (h (backend w)) as [r0 b]. by injection H as _ <-.
Qed.

Lemma keeps_db_send_request' {X : Type} (f : MainServer -> X) (rt : Runtime)
    (request : pyval) :
  keeps f (db_send_request rt request).
Proof.
  intros w r w' H. unfold db_send_request in H.
  destruct (db_link (backend w)).
  - by injection H as _ <-.
  - destruct (Db.process_request rt request (store (backend w))).
    by injection H as _ <-.
Qed.

Ltac keeps_auto :=
  repeat first
    [ apply keeps_ret' | apply keeps_raise' | apply keeps_lift'
    | apply keeps_get_lobby' | apply keeps_db_send_request'
    | apply keeps_on_backend'
    | apply keeps_update_lobby'; intros ?; reflexivity
    | apply keeps_bind'; [|intros ?]
    | match goal with
      | |- keeps _ (if ?b then _ else _) => destruct b
      | |- keeps _ (match ?x with _ => _ end) => destruct x
      end ].

Section Footprints.
Variable rt : Runtime.
Variables upload_game update_game remove_game : pyval -> Backend -> outcome pyval * Backend.

(** The session handlers leave rooms, matches and both counters alone. *)
Lemma register_keeps_lobby request : keeps (fun s => s) (register rt request).
Proof. unfold register. keeps_auto. Qed.

Lemma login_keeps_rooms request client_sock :
  keeps room_state (login rt request client_sock).
Proof. unfold login. keeps_auto. Qed.

Lemma logout_keeps_rooms request : keeps room_state (logout request).
Proof. unfold logout. keeps_auto. Qed.

Lemma list_games_keeps_lobby request : keeps (fun s => s) (list_games rt request).
Proof.
  intros w r w' H. unfold list_games in H.
  match type of H with
  | context [?m w] =>
      assert (Hm : keeps (fun s => s) m) by keeps_auto;
      destruct (m w) as [[a|e] w1] eqn:E
  end; injection H as _ <-; eauto.
Qed.

Lemma list_players_keeps_lobby : keeps (fun s => s) list_players.
Proof. unfold list_players. keeps_auto. Qed.

Lemma list_rooms_keeps_lobby : keeps (fun s => s) list_rooms.
Proof. unfold list_rooms. keeps_auto. Qed.

Lemma load_config_keeps_lobby game_dir : keeps (fun s => s) (load_config rt game_dir).
Proof. unfold load_config. keeps_auto. Qed.

Lemma download_game_keeps_lobby request :
  keeps (fun s => s) (download_game rt request).
Proof.
  unfold download_game.
  apply keeps_bind'; [apply keeps_lift' | intros game_name].
  apply keeps_bind'; [apply keeps_lift' | intros version].
  apply keeps_bind'; [apply keeps_lift' | intros name].
  apply keeps_bind'; [apply keeps_lift' | intros ver].
  intros w r w' H.
  match type of H with
  | bind ?m ?k w = _ =>
      assert (Hm : keeps (fun s => s) (bind m k))
        by (apply keeps_bind'; [apply load_config_keeps_lobby
                               | intros ?; apply keeps_ret'])
  end.
  exact (Hm _ _ _ H).
Qed.

(** The room handlers leave the sessions alone. *)
Lemma create_room_keeps_sessions request :
  keeps session_state (create_room rt request).
Proof.
  unfold create_room.
  do 7 (apply keeps_bind'; [apply keeps_lift' | intros ?]).
  apply keeps_bind'; [|intros config; keeps_auto].
  intros w r w' H. by rewrite (load_config_keeps_lobby _ _ _ _ H).
Qed.

Lemma join_room_keeps_sessions message : keeps session_state (join_room message).
Proof. unfold join_room. keeps_auto. Qed.

Lemma leave_room_keeps_sessions message : keeps session_state (leave_room message).
Proof. unfold leave_room. keeps_auto. Qed.

Lemma cleanup_game_keeps_sessions room_id : keeps session_state (cleanup_game room_id).
Proof.
  unfold cleanup_game. keeps_auto.
  apply keeps_update_lobby'. intros s. by destruct (pd_find room_id (rooms s)).
Qed.

End Footprints.

(** *** Dictionaries with distinct keys *)

Lemma py_eq_hashable_l (a b : pyval) :
  hashable b = true -> py_eq a b = true -> hashable a = true.
Proof. by destruct a, b. Qed.

Lemma py_eq_sym (a b : pyval) :
  hashable a = true -> hashable b = true -> py_eq a b = py_eq b a.
Proof.
  destruct a, b; cbn; try done; intros _ _;
    first [ apply Z.eqb_sym | apply String.eqb_sym
          | repeat match goal with x : bool |- _ => destruct x end; done ].
Qed.

Lemma py_eq_trans (a b c : pyval) :
  hashable b = true -> py_eq a b = true -> py_eq b c = true -> py_eq a c = true.
Proof.
  destruct a, b, c; cbn; try done; intros _;
    rewrite ?Z.eqb_eq, ?String.eqb_eq, ?Bool.eqb_true_iff; intros; subst;
    rewrite ?Z.eqb_refl, ?String.eqb_refl; try done;
    repeat match goal with b : bool |- _ => destruct b end; cbn in *; try done;
    try lia.
Qed.

(** Storing under one key does not change what another key finds. *)
Lemma pd_find_set_ne {V : Type} (key key' : pyval) (v : V) (d : pydict V) :
  hashable key = true -> hashable key' = true ->
  py_eq key key' = false ->
  pd_find key' (pd_set key v d) = pd_find key' d.
Proof.
  intros Hk Hk' Hne. induction d as [|[k0 w] d IH]; cbn.
  - by rewrite Hne.
  - destruct (py_eq k0 key) eqn:E0; cbn; [|by rewrite IH].
    destruct (py_eq k0 key') eqn:E1; [|done].
    exfalso. assert (py_eq key key' = true); [|congruence].
    apply (py_eq_trans _ k0); [by eapply py_eq_hashable_l | | done].
    rewrite py_eq_sym; [done | done | by eapply py_eq_hashable_l].
Qed.

Lemma existsb_key_false {V : Type} (k key : pyval) (d : pydict V) :
  hashable k = true -> hashable key = true ->
  existsb (fun entry => py_eq k entry.1) d = false ->
  py_eq k key = true -> pd_find key d = None.
Proof.
  intros Hk Hkey. induction d as [|[k0 w] d IH]; cbn; [done|].
  intros [Hk0 Hrest]%orb_false_iff Heq.
  destruct (py_eq k0 key) eqn:E; [|auto].
  exfalso. assert (py_eq k k0 = true); [|congruence].
  apply (py_eq_trans _ key); [done | done |].
  rewrite py_eq_sym; [done | done | by eapply py_eq_hashable_l].
Qed.

(** After [del d[key]] the key is gone. *)
Lemma pd_find_del_eq {V : Type} (key : pyval) (d : pydict V) :
  pd_wf d = true -> hashable key = true -> pd_find key (pd_del key d) = None.
Proof.
  intros Hwf Hkey. induction d as [|[k0 w] d IH]; cbn; [done|].
  cbn in Hwf. apply andb_true_iff in Hwf as [[Hh Hnot]%andb_true_iff Hwf].
  apply negb_true_iff in Hnot.
  destruct (py_eq k0 key) eqn:E.
  - exact (existsb_key_false k0 key d Hh Hkey Hnot E).
  - cbn. rewrite E. auto.
Qed.

(** [del d[key]] does not change what another key finds. *)
Lemma pd_find_del_ne {V : Type} (key key' : pyval) (d : pydict V) :
  hashable key = true -> hashable key' = true ->
  py_eq key key' = false ->
  pd_find key' (pd_del key d) = pd_find key' d.
Proof.
  intros Hk Hk' Hne. induction d as [|[k0 w] d IH]; cbn; [done|].
  destruct (py_eq k0 key) eqn:E0; cbn; [|by rewrite IH].
  destruct (py_eq k0 key') eqn:E1; [|done].
  exfalso. assert (py_eq key key' = true); [|congruence].
  apply (py_eq_trans _ k0); [by eapply py_eq_hashable_l | | done].
  rewrite py_eq_sym; [done | done | by eapply py_eq_hashable_l].
Qed.

Lemma existsb_pd_set {V : Type} (k key : pyval) (v : V) (d : pydict V) :
  py_eq k key = false ->
  existsb (fun entry => py_eq k entry.1) d = false ->
  existsb (fun entry => py_eq k entry.1) (pd_set key v d) = false.
Proof.
  intros Hne. induction d as [|[k0 w] d IH]; cbn.
  - by rewrite Hne.
  - intros [Hk0 Hrest]%orb_false_iff.
    destruct (py_eq k0 key); cbn; rewrite Hk0; cbn; auto.
Qed.

(** The dict operations keep the keys distinct. *)
Lemma pd_wf_set {V : Type} (key : pyval) (v : V) (d : pydict V) :
  hashable key = true -> pd_wf d = true -> pd_wf (pd_set key v d) = true.
Proof.
  intros Hkey. induction d as [|[k0 w] d IH]; cbn.
  - by rewrite Hkey.
  - intros [[Hh Hnot]%andb_true_iff Hwf]%andb_true_iff.
    destruct (py_eq k0 key) eqn:E; cbn.
    + by rewrite Hh, Hnot, Hwf.
    + rewrite Hh, (IH Hwf). apply negb_true_iff in Hnot.
      by rewrite (existsb_pd_set _ _ _ _ E Hnot).
Qed.

Lemma existsb_pd_del {V : Type} (k key : pyval) (d : pydict V) :
  existsb (fun entry => py_eq k entry.1) d = false ->
  existsb (fun entry => py_eq k entry.1) (pd_del key d) = false.
Proof.
  induction d as [|[k0 w] d IH]; cbn; [done|].
  intros [Hk0 Hrest]%orb_false_iff.
  destruct (py_eq k0 key); cbn; [done|]. rewrite Hk0. auto.
Qed.

Lemma pd_wf_del {V : Type} (key : pyval) (d : pydict V) :
  pd_wf d = true -> pd_wf (pd_del key d) = true.
Proof.
  induction d as [|[k0 w] d IH]; cbn; [done|].
  intros [[Hh Hnot]%andb_true_iff Hwf]%andb_true_iff.
  destruct (py_eq k0 key); cbn; [done|].
  rewrite Hh, (IH Hwf). apply negb_true_iff in Hnot.
  by rewrite (existsb_pd_del _ _ _ Hnot).
Qed.


(** *** Registration never succeeds *)

(** What the lobby gets back from a query with one filter: an error reply,
    which is a dict, or a list of documents that each have the filtered
    key. The store is not changed. *)
Lemma db_query_shape (rt : Runtime) (role : pyval) (key : string) (value : pyval)
    (w : World) (r : outcome pyval) (w' : World) :
  db_send_request rt
    (db_request role "QUERY" (VDict [("filter", VDict [(key, value)])])) w
  = (r, w') ->
  w' = w /\
  ((exists d, r = Ret (VDict d)) \/
   (exists docs, r = Ret (VList (map VDict docs)) /\
      Forall (fun doc => is_Some (sd_find key doc)) docs)).
Proof.
  unfold db_send_request.
  destruct (db_link (backend w)) as [e|] eqn:El.
  { intros [= <- <-]. split; [done|]. left. by eexists. }
  assert (Hsame : forall answer,
            (Ret answer,
             with_backend {| store := store (backend w); db_link := None;
                             disk := disk (backend w) |} w)
            = (r, w') ->
            w' = w /\ r = Ret answer).
  { intros answer [= <- <-]. split; [|done].
    destruct w as [s [db l d] po se]. cbn in *. by subst. }
  unfold Db.process_request, process_request_body, db_request. cbn.
  destruct (pd_contains role (collections (store (backend w)))) as [[|]|e].
  - unfold query.
    destruct (pd_getitem locks role) as [u|e].
    2:{ intros H. apply Hsame in H as [-> ->]. split; [done|]. left. by eexists. }
    destruct (pd_getitem (collections (store (backend w))) role) as [docs|e].
    2:{ intros H. apply Hsame in H as [-> ->]. split; [done|]. left. by eexists. }
    unfold select. destruct docs as [|doc0 docs].
    { intros H. apply Hsame in H as [-> ->]. split; [done|]. right.
      exists []. split; [done | constructor]. }
    intros H. apply Hsame in H as [-> ->]. split; [done|]. right.
    eexists. split; [by rewrite map_map|].
    apply Forall_forall. intros doc Hin.
    apply list_elem_of_fmap in Hin as ([k0 doc'] & -> & Hin).
    apply list_elem_of_filter in Hin as [Hmatch _]. cbn in Hmatch |- *.
    unfold doc_matches in Hmatch. cbn in Hmatch.
    destruct (sd_find key doc'); [by eexists | done].
  - intros H. apply Hsame in H as [-> ->]. split; [done|]. left. by eexists.
  - intros H. apply Hsame in H as [-> ->]. split; [done|]. left. by eexists.
Qed.

Lemma register_outcomes (rt : Runtime) (request : pyval) (w : World)
    (r : outcome pyval) (w' : World) :
  register rt request w = (r, w') ->
  w' = w /\
  (r = Ret (failure "Username already registered") \/ exists e, r = Raise e).
Proof.
  unfold register. run.
  destruct (py_get request "name") as [name|e];
    [|intros [= <- <-]; split; [done | right; by eexists]].
  destruct (py_get request "password") as [password|e];
    [|intros [= <- <-]; split; [done | right; by eexists]].
  destruct (py_get request "role") as [role|e];
    [|intros [= <- <-]; split; [done | right; by eexists]].
  destruct (db_send_request rt _ w) as [existing w1] eqn:E.
  apply db_query_shape in E as [-> Hshape].
  destruct Hshape as [[d ->] | (docs & -> & Hdocs)].
  - cbn. intros [= <- <-]. split; [done | right; by eexists].
  - destruct docs as [|doc docs].
    + cbn. intros [= <- <-]. split; [done | right; by eexists].
    + apply Forall_cons in Hdocs as [[v Hv] _].
      destruct doc as [|field doc]; [done|].
      cbn. intros [= <- <-]. split; [done | by left].
Qed.

(** X8. No [REGISTER] request ever creates an account. Whatever the request
    and whatever the state of the lobby and of the datastore, [register]
    either raises or answers "Username already registered"; it never
    answers [{'success': True}], and it leaves the lobby and the datastore
    as they were. *)
Theorem register_never_succeeds (rt : Runtime) (request : pyval) (w : World) :
  (register rt request w).2 = w /\
  ((register rt request w).1 = Ret (failure "Username already registered") \/
   exists e, (register rt request w).1 = Raise e).
Proof.
  destruct (register rt request w) as [r w'] eqn:E.
  by apply register_outcomes in E.
Qed.

(** *** The correlation id on replies *)

Section Echo.
Variable rt : Runtime.
Variables upload_game update_game remove_game : pyval -> Backend -> outcome pyval * Backend.

(** X9. Whatever the action, a reply that [process_request] returns to a
    request with a true ['requestId'] carries that same ['requestId'],
    unchanged. *)
Theorem reply_echoes_request_id (m : list (string * pyval)) (client_sock : conn)
    (w : World) (reply : pyval) (w' : World) :
  let request_id := default VNone (sd_find "requestId" m) in
  truthy request_id = true ->
  process_request rt upload_game update_game remove_game (VDict m) client_sock w
  = (Ret reply, w') ->
  py_get reply "requestId" = Ret request_id.
Proof.
  intros request_id Ht. unfold process_request. run.
  cbn [py_get py_get_default]. fold request_id. rewrite Ht.
  match goal with
  | |- context [match ?d w with _ => _ end] => destruct (d w) as [[response|e] w1]
  end; [|done].
  destruct response; try done. cbn. intros [= <- <-]. cbn.
  by rewrite sd_find_set, String.eqb_refl.
Qed.
End Echo.

(** *** Leaving a room *)

(** X10. [leave_room] on a room id that is not in [self.rooms] answers
    "Room not found"; for a player who is not in the room it answers
    "Left room" and changes nothing. For a member, the first occurrence of
    the name is removed; if nobody remains the room is deleted, and
    otherwise the room keeps its place with the remaining members in their
    order, and if the leaver was the host the first remaining member is
    the new host. No other room is touched, nor a session, a match or
    one of the two counters, and nothing is sent. *)
Theorem leave_room_cases (m : list (string * pyval)) (w : World) :
  let room_id := default VNone (sd_find "roomId" m) in
  let player_name := default VNone (sd_find "player" m) in
  let left := VDict [("success", VBool true); ("message", VStr "Left room")] in
  hashable room_id = true ->
  pd_wf (rooms (lobby w)) = true ->
  (pd_find room_id (rooms (lobby w)) = None ->
     leave_room (VDict m) w = (Ret (failure "Room not found"), w)) /\
  (forall room,
     pd_find room_id (rooms (lobby w)) = Some room ->
     (list_contains player_name (members room) = false ->
        leave_room (VDict m) w = (Ret left, w)) /\
     (list_contains player_name (members room) = true ->
        exists w',
          leave_room (VDict m) w = (Ret left, w') /\
          pd_find room_id (rooms (lobby w'))
          = match list_remove player_name (members room) with
            | [] => None
            | first :: rest =>
                Some (room_after_leave player_name room first (first :: rest))
            end /\
          (forall other, hashable other = true -> py_eq room_id other = false ->
             pd_find other (rooms (lobby w')) = pd_find other (rooms (lobby w))) /\
          session_state (lobby w') = session_state (lobby w) /\
          next_room_id (lobby w') = next_room_id (lobby w) /\
          next_game_port (lobby w') = next_game_port (lobby w) /\
          games (lobby w') = games (lobby w) /\
          sent w' = sent w)).
Proof.
  intros room_id player_name left Hh Hwf.
  assert (Hrun : leave_room (VDict m) w
            = (known <- lift (pd_contains room_id (rooms (lobby w))) ;;
               if negb known then ret (failure "Room not found")
               else
                 room <- lift (pd_getitem (rooms (lobby w)) room_id) ;;
                 (if list_contains player_name (members room) then
                    let room1 := set_members (list_remove player_name (members room)) room in
                    match members room1 with
                    | [] => update_lobby (fun s => set_rooms (pd_del room_id (rooms s)) s)
                    | first :: _ =>
                        if py_eq player_name (host room1) then
                          update_lobby (fun s => set_rooms (pd_set room_id (set_host first room1) (rooms s)) s)
                        else
                          update_lobby (fun s => set_rooms (pd_set room_id room1 (rooms s)) s)
                    end
                  else ret tt) ;;;
                 ret left) w) by done.
  rewrite Hrun. clear Hrun. unfold pd_contains, pd_getitem. rewrite Hh. run.
  split.
  - intros ->. done.
  - intros room ->. cbn. split.
    + by intros ->.
    + intros ->. cbn.
      destruct (list_remove player_name (members room)) as [|first rest] eqn:Er.
      * eexists. split; [reflexivity|]. cbn.
        split; [by apply pd_find_del_eq|].
        split; [|done]. intros other Ho Hne. by apply pd_find_del_ne.
      * unfold room_after_leave.
        destruct (py_eq player_name (host room)) eqn:Ehost;
          (eexists; split; [reflexivity|]); cbn;
          (split; [by apply pd_find_set_eq|]);
          (split; [|done]); intros other Ho Hne; by apply pd_find_set_ne.
Qed.

(** *** Rooms keep their shape *)








(** Running a handler on a hypothesis: split on every test it makes, an
    innermost one first. *)
Ltac exec H :=
  repeat (match type of H with
          | context [match ?x with _ => _ end] =>
              lazymatch x with
              | context [match _ with _ => _ end] => fail
              | _ => destruct x eqn:?
              end
          end;
          cbn beta iota in H).

Section RoomShape.
Variable rt : Runtime.
Variables upload_game update_game remove_game : pyval -> Backend -> outcome pyval * Backend.









End RoomShape.

(** *** Reasoning by action *)

Lemma py_eq_str_other (action : pyval) (a b : string) :
  py_eq action (VStr a) = true -> a <> b -> py_eq action (VStr b) = false.
Proof.
  destruct action; try done. cbn. intros ->%String.eqb_eq Hne.
  by apply String.eqb_neq.
Qed.

Section Dispatch.
Variable rt : Runtime.
Variables upload_game update_game remove_game : pyval -> Backend -> outcome pyval * Backend.

Abbreviation process_request := (process_request rt upload_game update_game remove_game).
Abbreviation step := (step rt upload_game update_game remove_game).
Abbreviation run := (run rt upload_game update_game remove_game).

(** A property of what a request does follows from the same property of
    the handler its action selects. *)
Lemma process_request_by (P : World -> outcome pyval -> World -> Prop)
    (request : pyval) (client_sock : conn) :
  (forall w e, P w (Raise e) w) ->
  (forall w response w1 request_id,
     P w (Ret response) w1 ->
     P w (py_setitem response "requestId" request_id) w1) ->
  (forall w, P w (Ret (VDict [("status", VStr "error");
                              ("message", VStr "Unknown action")])) w) ->
  (forall action w r b,
     py_get request "action" = Ret action ->
     py_eq action (VStr "UPLOAD_GAME") = true \/
     py_eq action (VStr "UPDATE_GAME") = true \/
     py_eq action (VStr "REMOVE_GAME") = true ->
     P w r (with_backend b w)) ->
  (forall (name : string) (handler : M pyval),
     In (name, handler)
       [("REGISTER", register rt request);
        ("LOGIN", login rt request client_sock);
        ("LOGOUT", logout request);
        ("LIST_GAMES", list_games rt request);
        ("LIST_PLAYERS", list_players);
        ("DOWNLOAD_GAME", download_game rt request);
        ("CREATE_ROOM", create_room rt request);
        ("JOIN_ROOM", join_room request);
        ("LIST_ROOMS", list_rooms);
        ("LEAVE_ROOM", leave_room request);
        ("START_GAME", start_game rt request)] ->
     forall action w r w',
       py_get request "action" = Ret action ->
       py_eq action (VStr name) = true ->
       handler w = (r, w') -> P w r w') ->
  forall w r w', process_request request client_sock w = (r, w') -> P w r w'.
Proof.
  intros Hraise Hfinish Hunknown Hpackage Hhandler w r w'.
  unfold Lobby.process_request.
  unfold bind at 1. unfold lift at 1.
  destruct (py_get request "action") as [action|e] eqn:Ea; [|by intros [= <- <-]].
  unfold bind at 1. unfold lift at 1.
  destruct (py_get request "requestId") as [request_id|e]; [|by intros [= <- <-]].
  unfold bind at 1.
  match goal with
  | |- context [match ?d w with _ => _ end] => set (dispatch := d)
  end.
  assert (Hd : forall r1 w1, dispatch w = (r1, w1) -> P w r1 w1).
  { intros r1 w1. subst dispatch.
    repeat match goal with
           | |- context [if py_eq action ?lit then _ else _] =>
               destruct (py_eq action lit) eqn:?
           end;
      try (match goal with
           | E : py_eq action (VStr ?name) = true |- ?h w = _ -> _ =>
               intros Hrun;
               apply (Hhandler name h ltac:(cbn; tauto) action w r1 w1 eq_refl E Hrun)
           end).
    - unfold on_backend. destruct (upload_game request (backend w)).
      intros [= <- <-]. apply (Hpackage action); [done | tauto].
    - unfold on_backend. destruct (update_game request (backend w)).
      intros [= <- <-]. apply (Hpackage action); [done | tauto].
    - unfold on_backend. destruct (remove_game request (backend w)).
      intros [= <- <-]. apply (Hpackage action); [done | tauto].
    - intros [= <- <-]. apply Hunknown. }
  destruct (dispatch w) as [[response|e] w1] eqn:E.
  - destruct (truthy request_id); run; intros [= <- <-]; [apply Hfinish|]; eauto.
  - intros [= <- <-]. eauto.
Qed.

Lemma notify_keeps_lobby room_id message :
  keeps (fun s => s) (notify_room_members room_id message).
Proof.
  intros w r w' H. unfold notify_room_members in H.
  destruct (pd_find room_id (rooms (lobby w))); by injection H as _ <-.
Qed.

Lemma start_game_keeps {X : Type} (f : MainServer -> X) message :
  (forall p s, f (set_next_game_port p s) = f s) ->
  (forall d s, f (set_rooms d s) = f s) ->
  (forall d s, f (set_games d s) = f s) ->
  keeps f (start_game rt message).
Proof.
  intros Hport Hrooms Hgames. unfold start_game.
  do 4 (apply keeps_bind'; [apply keeps_lift' | intros ?]).
  apply keeps_bind'.
  { unfold start_game_locked.
    repeat first
      [ apply keeps_ret' | apply keeps_lift' | apply keeps_get_lobby'
      | apply keeps_update_lobby'; intros ?; first [apply Hport | apply Hrooms]
      | apply keeps_bind'; [|intros ?]
      | match goal with
        | |- keeps _ (if ?b then _ else _) => destruct b
        end ]. }
  intros [refusal|[room game_port]]; [apply keeps_ret'|].
  do 2 (apply keeps_bind'; [apply keeps_lift' | intros ?]).
  intros w r w' H. destruct (popen w _ _ _).
  - revert H. apply keeps_bind'; [|intros ?; apply keeps_ret'].
    apply keeps_update_lobby'. intros s.
    destruct (pd_find _ (rooms s)); [apply Hrooms | done].
  - revert H. apply keeps_bind'; [by apply keeps_update_lobby'|intros ?].
    apply keeps_bind'; [|intros ?; apply keeps_ret'].
    intros w0 r0 w0' H0. by rewrite (notify_keeps_lobby _ _ _ _ _ H0).
Qed.

(** **** Room ids *)

Lemma create_room_next_id request w r w' :
  create_room rt request w = (r, w') ->
  (next_room_id (lobby w) <= next_room_id (lobby w'))%Z /\
  forall c id, created_room (Request c request, r) = Some id ->
    id = next_room_id (lobby w) /\ next_room_id (lobby w') = (id + 1)%Z.
Proof.
  unfold create_room. run. intros H.
  exec H;
    repeat match goal with
           | E : load_config _ _ _ = _ |- _ =>
               apply load_config_keeps_lobby in E; cbn beta in E
           end;
    injection H as <- <-;
    cbn [lobby with_lobby next_room_id set_next_room_id set_rooms];
    try match goal with E : lobby _ = lobby _ |- _ => rewrite E end;
    (split; [lia|]); intros c id; unfold created_room;
    (destruct (py_get request "action") as [action|]; [|done]);
    (destruct (py_eq action (VStr "CREATE_ROOM")); [|done]);
    cbn; try done.
  by intros [= <-].
Qed.

Lemma created_room_other c request action name r :
  py_get request "action" = Ret action ->
  py_eq action (VStr name) = true -> name <> "CREATE_ROOM" ->
  created_room (Request c request, r) = None.
Proof.
  intros Ea E Hne. unfold created_room. rewrite Ea.
  rewrite (py_eq_str_other _ _ _ E Hne). by destruct r as [[]|].
Qed.

Lemma created_room_setitem c request response request_id :
  created_room (Request c request, py_setitem response "requestId" request_id)
  = match response with
    | VDict _ => created_room (Request c request, Ret response)
    | _ => None
    end.
Proof.
  destruct response; try done. cbn. by rewrite !sd_find_set_ne.
Qed.

(** One step of a run and the room counter. *)
Lemma step_room_id (e : event) (w : World) (r : outcome pyval) (w' : World) :
  step e w = (r, w') ->
  (next_room_id (lobby w) <= next_room_id (lobby w'))%Z /\
  forall id, created_room (e, r) = Some id ->
    id = next_room_id (lobby w) /\ next_room_id (lobby w') = (id + 1)%Z.
Proof.
  destruct e as [c request|room_id]; cbn [Lobby.step].
  - revert w r w'. apply process_request_by.
    + intros w e. split; [lia|done].
    + intros w response w1 request_id [Hle Hid]. split; [done|].
      intros id. rewrite created_room_setitem. destruct response; try done.
      apply Hid.
    + intros w. split; [lia|]. intros id. unfold created_room.
      by destruct (py_get request "action") as [action|];
        [destruct (py_eq action (VStr "CREATE_ROOM"))|].
    + intros action w r b Ea Hpkg. split; [cbn; lia|]. intros id.
      destruct Hpkg as [E|[E|E]];
        by rewrite (created_room_other _ _ _ _ _ Ea E).
    + intros name handler Hin action w r w' Ea E Hrun.
      cbn in Hin.
      destruct Hin as [[= <- <-]|[[= <- <-]|[[= <- <-]|[[= <- <-]|[[= <- <-]|
        [[= <- <-]|[[= <- <-]|[[= <- <-]|[[= <- <-]|[[= <- <-]|[[= <- <-]|[]]]]]]]]]]]];
        try (rewrite (created_room_other _ _ _ _ _ Ea E ltac:(done));
             split; [|done]).
      * by rewrite (register_keeps_lobby rt _ _ _ _ Hrun).
      * pose proof (login_keeps_rooms rt _ _ _ _ _ Hrun) as [= -> _ _ _]. lia.
      * pose proof (logout_keeps_rooms _ _ _ _ Hrun) as [= -> _ _ _]. lia.
      * by rewrite (list_games_keeps_lobby rt _ _ _ _ Hrun).
      * by rewrite (list_players_keeps_lobby _ _ _ Hrun).
      * by rewrite (download_game_keeps_lobby rt _ _ _ _ Hrun).
      * destruct (create_room_next_id _ _ _ _ Hrun) as [Hle Hid]. eauto.
      * assert (Hk : keeps next_room_id (join_room request))
          by (unfold join_room; keeps_auto).
        rewrite (Hk _ _ _ Hrun). lia.
      * by rewrite (list_rooms_keeps_lobby _ _ _ Hrun).
      * assert (Hk : keeps next_room_id (leave_room request))
          by (unfold leave_room; keeps_auto).
        rewrite (Hk _ _ _ Hrun). lia.
      * rewrite (start_game_keeps next_room_id request
                   ltac:(done) ltac:(done) ltac:(done) _ _ _ Hrun). lia.
  - destruct (cleanup_game room_id w) as [r0 w1] eqn:E. intros [= <- <-].
    split; [|done].
    assert (Hk : keeps next_room_id (cleanup_game room_id)).
    { unfold cleanup_game. keeps_auto.
      apply keeps_update_lobby'. intros s. by destruct (pd_find room_id (rooms s)). }
    rewrite (Hk _ _ _ E). lia.
Qed.

(** X12. In every run of the lobby, from any state, the room ids carried
    by successful [CREATE_ROOM] replies, read in the order of the run,
    increase strictly and start at the counter's value: no two rooms ever
    get the same id, also after rooms have been deleted. *)
Theorem room_ids_never_repeat (es : list event) (w : World) :
  let ids := omap created_room (run es w).1 in
  StronglySorted Z.lt ids /\
  Forall (fun id => (next_room_id (lobby w) <= id)%Z) ids /\
  NoDup ids /\
  (next_room_id (lobby w) <= next_room_id (lobby (run es w).2))%Z.
Proof.
  cbn zeta.
  assert (H : forall es w,
    StronglySorted Z.lt (omap created_room (run es w).1) /\
    Forall (fun id => (next_room_id (lobby w) <= id)%Z)
      (omap created_room (run es w).1) /\
    (next_room_id (lobby w) <= next_room_id (lobby (run es w).2))%Z).
  { clear es w. induction es as [|e es IH]; intros w.
    - cbn. repeat split; [constructor | constructor | lia].
    - cbn [Lobby.run].
      destruct (step e w) as [r w1] eqn:E.
      destruct (step_room_id _ _ _ _ E) as [Hle Hgrant].
      specialize (IH w1). destruct (run es w1) as [log w2].
      cbn [fst snd] in IH |- *.
      destruct IH as (Hsorted & Hlow & Hend).
      change (omap created_room ((e, r) :: log))
        with (match created_room (e, r) with
              | Some y => y :: omap created_room log
              | None => omap created_room log
              end).
      destruct (created_room (e, r)) as [id|] eqn:Ep.
      + destruct (Hgrant id eq_refl) as [-> Hnext].
        split; [|split; [|lia]].
        * constructor; [done|].
          eapply Forall_impl; [exact Hlow|]. cbn. intros q Hq. lia.
        * constructor; [lia|].
          eapply Forall_impl; [exact Hlow|]. cbn. intros q Hq. lia.
      + split; [done|]. split; [|lia].
        eapply Forall_impl; [exact Hlow|]. cbn. intros q Hq. lia. }
  destruct (H es w) as (Hs & Hl & He). repeat split; try done.
  clear Hl He. induction Hs as [|p ps Hs IH Hall]; constructor; [|done].
  intros Hin. rewrite Forall_forall in Hall. specialize (Hall _ Hin). lia.
Qed.

(** **** Who may change what *)

(** X13. Only [LOGIN] and [LOGOUT] change who is online: a request with
    any other action, known or not, leaves [online_players] and
    [online_developers] as they were, whatever it returns or raises. *)
Theorem sessions_change_only_by_login_logout (request : pyval)
    (client_sock : conn) (action : pyval) (w : World) :
  py_get request "action" = Ret action ->
  py_eq action (VStr "LOGIN") = false ->
  py_eq action (VStr "LOGOUT") = false ->
  session_state (lobby (process_request request client_sock w).2)
  = session_state (lobby w).
Proof.
  intros Ea Hlogin Hlogout.
  destruct (process_request request client_sock w) as [r w'] eqn:E. cbn [snd].
  revert w r w' E. apply process_request_by; try done.
  intros name handler Hin action' w r w' Ea' E Hrun.
  assert (action' = action) as -> by congruence.
  cbn in Hin.
  destruct Hin as [[= <- <-]|[[= <- <-]|[[= <- <-]|[[= <- <-]|[[= <- <-]|
    [[= <- <-]|[[= <- <-]|[[= <- <-]|[[= <- <-]|[[= <- <-]|[[= <- <-]|[]]]]]]]]]]]];
    try congruence.
  - by rewrite (register_keeps_lobby rt _ _ _ _ Hrun).
  - by rewrite (list_games_keeps_lobby rt _ _ _ _ Hrun).
  - by rewrite (list_players_keeps_lobby _ _ _ Hrun).
  - by rewrite (download_game_keeps_lobby rt _ _ _ _ Hrun).
  - exact (create_room_keeps_sessions rt _ _ _ _ Hrun).
  - exact (join_room_keeps_sessions _ _ _ _ Hrun).
  - by rewrite (list_rooms_keeps_lobby _ _ _ Hrun).
  - exact (leave_room_keeps_sessions _ _ _ _ Hrun).
  - exact (start_game_keeps session_state request
             ltac:(done) ltac:(done) ltac:(done) _ _ _ Hrun).
Qed.

(** X14. Only [CREATE_ROOM], [JOIN_ROOM], [LEAVE_ROOM] and [START_GAME]
    change rooms, matches or the two counters: a request with any other
    action leaves [rooms], [games], [next_room_id] and [next_game_port] as
    they were, whatever it returns or raises. *)
Theorem rooms_change_only_by_room_actions (request : pyval)
    (client_sock : conn) (action : pyval) (w : World) :
  py_get request "action" = Ret action ->
  py_eq action (VStr "CREATE_ROOM") = false ->
  py_eq action (VStr "JOIN_ROOM") = false ->
  py_eq action (VStr "LEAVE_ROOM") = false ->
  py_eq action (VStr "START_GAME") = false ->
  room_state (lobby (process_request request client_sock w).2)
  = room_state (lobby w).
Proof.
  intros Ea Hcreate Hjoin Hleave Hstart.
  destruct (process_request request client_sock w) as [r w'] eqn:E. cbn [snd].
  revert w r w' E. apply process_request_by; try done.
  intros name handler Hin action' w r w' Ea' E Hrun.
  assert (action' = action) as -> by congruence.
  cbn in Hin.
  destruct Hin as [[= <- <-]|[[= <- <-]|[[= <- <-]|[[= <- <-]|[[= <- <-]|
    [[= <- <-]|[[= <- <-]|[[= <- <-]|[[= <- <-]|[[= <- <-]|[[= <- <-]|[]]]]]]]]]]]];
    try congruence.
  - by rewrite (register_keeps_lobby rt _ _ _ _ Hrun).
  - exact (login_keeps_rooms rt _ _ _ _ _ Hrun).
  - exact (logout_keeps_rooms _ _ _ _ Hrun).
  - by rewrite (list_games_keeps_lobby rt _ _ _ _ Hrun).
  - by rewrite (list_players_keeps_lobby _ _ _ Hrun).
  - by rewrite (download_game_keeps_lobby rt _ _ _ _ Hrun).
  - by rewrite (list_rooms_keeps_lobby _ _ _ Hrun).
Qed.

End Dispatch.

(** *** After the guards of [start_game] *)

Lemma pd_set_set {V : Type} (k : pyval) (v v' : V) (d : pydict V) :
  hashable k = true -> pd_set k v (pd_set k v' d) = pd_set k v d.
Proof.
  intros Hk. induction d as [|[k0 u] d IH]; cbn.
  - by rewrite py_eq_refl_hashable.
  - destruct (py_eq k0 k) eqn:E; cbn; rewrite E; [done | by rewrite IH].
Qed.


Lemma py_path_part_raises (v : pyval) (e : pyexn) :
  py_path_part v = Raise e -> e = TypeError.
Proof. destruct v; cbn; congruence. Qed.


Lemma passes_guards_inv room_id player_name s room :
  passes_guards room_id player_name s = Some room ->
  hashable room_id = true /\ pd_find room_id (rooms s) = Some room /\
  py_eq player_name (host room) = true /\
  (exists need, py_int (room_min room) = Ret need /\
     (Z.of_nat (length (members room)) <? need)%Z = false) /\
  String.eqb (status room) "playing" = false.
Proof.
  unfold passes_guards.
  destruct (pd_getitem (rooms s) room_id) as [room'|] eqn:Eg; [|done].
  apply pd_getitem_Ret in Eg as [Hh Hf].
  destruct (py_eq player_name (host room')) eqn:Eh; [|done].
  destruct (py_int (room_min room')) as [need|] eqn:En; [|done].
  destruct (need <=? Z.of_nat (length (members room')))%Z eqn:El; [|done].
  destruct (String.eqb (status room') "playing") eqn:Es; [done|].
  intros [= <-]. repeat split; try done.
  exists need. split; [done|]. apply Z.ltb_ge. by apply Z.leb_le.
Qed.

Section StartOutcome.
Variable rt : Runtime.

Lemma start_game_locked_passes room_id player_name w room :
  passes_guards room_id player_name (lobby w) = Some room ->
  start_game_locked rt room_id player_name w
  = (Ret (inr (set_status "playing" room, next_game_port (lobby w))),
     started room_id room w).
Proof.
  intros (Hh & Hf & Hhost & (need & Hneed & Hge) & Hidle)%passes_guards_inv.
  unfold start_game_locked, pd_getitem. run.
  by rewrite Hh, Hf, Hhost, Hneed, Hge, Hidle.
Qed.

Lemma start_game_locked_again room_id player_name w room :
  passes_guards room_id player_name (lobby w) = Some room ->
  start_game_locked rt room_id player_name (started room_id room w)
  = (Ret (inl (failure "Game is starting, please wait")), started room_id room w).
Proof.
  intros (Hh & Hf & Hhost & (need & Hneed & Hge) & Hidle)%passes_guards_inv.
  unfold start_game_locked, pd_getitem. run. rewrite Hh.
  unfold started at 1. cbn [lobby with_lobby rooms set_rooms set_next_game_port].
  rewrite (pd_find_set_eq _ _ _ Hh). cbn. by rewrite Hhost, Hneed, Hge.
Qed.

(** X15. A [START_GAME] that passes the three guards but whose
    ['game_name'] or ['version'] is not a string raises [TypeError] when the
    path of the match server is built, outside the [try]. By then the port
    has been taken and the room is ['playing'], and the exception undoes
    neither: in the state it leaves, a [START_GAME] for the room by its
    host is answered "Game is starting, please wait", whatever game it
    names. *)
Theorem start_game_bad_path_blocks_room (m m2 : list (string * pyval))
    (w : World) (room : Room) :
  let room_id := default VNone (sd_find "roomId" m) in
  let player_name := default VNone (sd_find "player_name" m) in
  let game_name := default VNone (sd_find "game_name" m) in
  let version := default VNone (sd_find "version" m) in
  passes_guards room_id player_name (lobby w) = Some room ->
  py_path_part game_name = Raise TypeError \/
  py_path_part version = Raise TypeError ->
  sd_find "roomId" m2 = sd_find "roomId" m ->
  sd_find "player_name" m2 = sd_find "player_name" m ->
  start_game rt (VDict m) w = (Raise TypeError, started room_id room w) /\
  next_game_port (lobby (started room_id room w)) = (next_game_port (lobby w) + 1)%Z /\
  pd_find room_id (rooms (lobby (started room_id room w)))
  = Some (set_status "playing" room) /\
  start_game rt (VDict m2) (started room_id room w)
  = (Ret (failure "Game is starting, please wait"), started room_id room w).
Proof.
  intros room_id player_name game_name version Hpass Hbad Hid Hname.
  assert (Hget : forall l key, py_get (VDict l) key = Ret (default VNone (sd_find key l)))
    by done.
  pose proof (start_game_locked_passes _ _ _ _ Hpass) as Hlocked.
  pose proof (start_game_locked_again _ _ _ _ Hpass) as Hagain.
  destruct (passes_guards_inv _ _ _ _ Hpass) as (Hh & Hf & _).
  split; [|split; [done|split]].
  - unfold start_game. unfold bind at 1 2 3 4 5. unfold lift at 1 2 3 4.
    rewrite !Hget. fold room_id player_name game_name version.
    rewrite Hlocked. run.
    destruct Hbad as [-> | Hv]; [done|].
    destruct (py_path_part game_name) eqn:Eg; [by rewrite Hv|].
    by rewrite (py_path_part_raises _ _ Eg).
  - unfold started. cbn. by apply pd_find_set_eq.
  - unfold start_game. unfold bind at 1 2 3 4 5. unfold lift at 1 2 3 4.
    rewrite !Hget, Hid, Hname. fold room_id player_name.
    by rewrite Hagain.
Qed.

(** X16. A [START_GAME] that passes the guards and whose match process
    cannot be launched answers "Failed to start game server: ..." with the
    text of the exception. The room is back to ['idle'] and otherwise as it
    was, no match is recorded and nobody is notified; the port handed out
    is not given back. *)
Theorem start_game_launch_failure (m : list (string * pyval)) (w : World)
    (room : Room) (name ver : string) (e : pyexn) :
  let room_id := default VNone (sd_find "roomId" m) in
  let player_name := default VNone (sd_find "player_name" m) in
  passes_guards room_id player_name (lobby w) = Some room ->
  sd_find "game_name" m = Some (VStr name) ->
  sd_find "version" m = Some (VStr ver) ->
  popen w name ver (next_game_port (lobby w)) = Some e ->
  exists w',
    start_game rt (VDict m) w
    = (Ret (failure ("Failed to start game server: " ++ exn_str rt e)), w') /\
    rooms (lobby w') = pd_set room_id (set_status "idle" room) (rooms (lobby w)) /\
    next_game_port (lobby w') = (next_game_port (lobby w) + 1)%Z /\
    games (lobby w') = games (lobby w) /\
    next_room_id (lobby w') = next_room_id (lobby w) /\
    session_state (lobby w') = session_state (lobby w) /\
    sent w' = sent w.
Proof.
  intros room_id player_name Hpass Hname Hver Hpopen.
  assert (Hget : forall l key, py_get (VDict l) key = Ret (default VNone (sd_find key l)))
    by done.
  pose proof (start_game_locked_passes _ _ _ _ Hpass) as Hlocked.
  destruct (passes_guards_inv _ _ _ _ Hpass) as (Hh & Hf & _).
  unfold start_game. unfold bind at 1 2 3 4 5. unfold lift at 1 2 3 4.
  rewrite !Hget, Hname, Hver. fold room_id player_name.
  rewrite Hlocked. run. cbn [default from_option id py_path_part].
  change (popen (started room_id room w)) with (popen w). rewrite Hpopen.
  run. eexists. split; [reflexivity|]. cbn.
  rewrite (pd_find_set_eq _ _ _ Hh). cbn.
  by rewrite (pd_set_set _ _ _ _ Hh).
Qed.


End StartOutcome.

(** *** Logging out *)

(** X18. [logout] of a player: when the name is online the binding is
    removed, whichever connection asks, and every other binding, the
    developers, the rooms and the matches stay; when the name is not
    online the lookup raises [KeyError] instead of answering, and nothing
    changes. A role other than ["Player"] and ["Developer"] is answered
    with a false ['success']. *)
Theorem logout_cases (m : list (string * pyval)) (w : World) :
  let name := default VNone (sd_find "name" m) in
  let role := default VNone (sd_find "role" m) in
  hashable name = true ->
  pd_wf (online_players (lobby w)) = true ->
  (py_eq role (VStr "Player") = true ->
     (pd_find name (online_players (lobby w)) = None ->
        logout (VDict m) w = (Raise (KeyError name), w)) /\
     (forall sock, pd_find name (online_players (lobby w)) = Some sock ->
        exists w',
          logout (VDict m) w = (Ret (VDict [("success", VBool true)]), w') /\
          pd_find name (online_players (lobby w')) = None /\
          (forall other, hashable other = true -> py_eq name other = false ->
             pd_find other (online_players (lobby w'))
             = pd_find other (online_players (lobby w))) /\
          online_developers (lobby w') = online_developers (lobby w) /\
          room_state (lobby w') = room_state (lobby w) /\
          sent w' = sent w)) /\
  (py_eq role (VStr "Player") = false ->
   py_eq role (VStr "Developer") = false ->
     logout (VDict m) w = (Ret (VDict [("success", VBool false)]), w)).
Proof.
  intros name role Hh Hwf.
  assert (Hget : forall key, py_get (VDict m) key = Ret (default VNone (sd_find key m)))
    by done.
  unfold logout, pd_getitem. run. rewrite !Hget. fold name role. rewrite Hh.
  split.
  - intros ->. split.
    + by intros ->.
    + intros sock ->. eexists. split; [reflexivity|]. cbn.
      split; [by apply pd_find_del_eq|].
      split; [|done]. intros other Ho Hne. by apply pd_find_del_ne.
  - by intros -> ->.
Qed.

End LobbyMore.

(** ** More on the client's receiver and its waiting loop *)

Module CorrelationMore.
Import Py Db Lobby LobbyViews Correlation LobbyMore.

Lemma receive_body_wf (msg : pyval) (c c' : PlayerClient) :
  receive_body msg c = Ret c' ->
  pd_wf (pending_requests c) = true -> pd_wf (pending_requests c') = true.
Proof.
  unfold receive_body. intros H Hwf.
  repeat match type of H with
         | context [match ?x with _ => _ end] =>
             lazymatch x with
             | context [match _ with _ => _ end] => fail
             | _ => destruct x eqn:?
             end
         end; try discriminate; injection H as <-; try done;
    cbn; by apply pd_wf_set.
Qed.

Lemma receive_wf (msgs : list pyval) (c : PlayerClient) :
  pd_wf (pending_requests c) = true ->
  pd_wf (pending_requests (receive msgs c)) = true.
Proof.
  revert c. induction msgs as [|msg msgs IH]; intros c Hwf; cbn [receive]; [done|].
  destruct (connected c); [|done].
  destruct (negb (truthy msg)); [done|].
  destruct (receive_body msg c) as [c1|e] eqn:E; [|done].
  apply IH. by eapply receive_body_wf.
Qed.

Lemma received_cons (t : tick) (ticks : list tick) (c : PlayerClient) :
  received (t :: ticks) c = received ticks (receive (arrivals t) c).
Proof. reflexivity. Qed.

(** X19. What [wait_reply] returns is either the timeout value, with the
    client as the receiver thread alone left it, or the message stored
    under the correlation id at some pass; the entry is then popped, so
    that the same reply cannot be returned a second time. *)
Theorem reply_returned_once (request_id : string) (start_time : Q)
    (ticks : list tick) (c : PlayerClient) (reply : pyval) (c' : PlayerClient) :
  pd_wf (pending_requests c) = true ->
  wait_reply request_id start_time ticks c = (Some reply, c') ->
  exists n,
    let seen := received (take n ticks) c in
    (reply = timeout_reply /\ c' = seen) \/
    (pd_find (VStr request_id) (pending_requests seen) = Some reply /\
     c' = set_pending (pd_del (VStr request_id) (pending_requests seen)) seen /\
     pd_find (VStr request_id) (pending_requests c') = None).
Proof.
  revert c. induction ticks as [|t ticks IH]; intros c Hwf; cbn [wait_reply]; [done|].
  pose proof (receive_wf (arrivals t) c Hwf) as Hwf1.
  destruct (Qlt_le_dec (now t - start_time) timeout).
  - destruct (pd_find (VStr request_id) (pending_requests (receive (arrivals t) c)))
      as [response|] eqn:E.
    + intros [= <- <-]. exists 1%nat. right. cbn [take]. rewrite received_cons.
      change (received [] ?x) with x. cbn zeta.
      split; [done|]. split; [done|]. cbn. by apply pd_find_del_eq.
    + intros H. destruct (IH _ Hwf1 H) as [n Hn]. exists (S n). exact Hn.
  - intros [= <- <-]. exists 1%nat. left. by split.
Qed.

(** X20. The [GAME_STARTING] push that [start_game] sends, as the
    receiver thread of a connected client handles it. The client of
    another member puts it on [message_queue] and stores nothing under a
    correlation id; the starter's own client drops it, as the push has no
    ['requestId']; and on a client whose [self.player] is the empty dict
    the comparison raises [KeyError], which ends the receiver thread:
    [connected] is cleared and later messages are not handled. *)
Theorem game_starting_push_received (room_id starter : pyval) (game_port : Z)
    (later : list pyval) (c : PlayerClient) :
  let push := game_starting room_id starter game_port in
  connected c = true ->
  (forall me, py_getitem_str (player c) "userName" = Ret me ->
     (py_eq starter me = false ->
        receive [push] c = set_queue (message_queue c ++ [push]) c) /\
     (py_eq starter me = true -> receive [push] c = c)) /\
  (player c = VDict [] ->
     receive (push :: later) c = set_connected false c).
Proof.
  intros push Hc. split.
  - intros me Hme. split; intros Hs; cbn [receive]; rewrite Hc;
      unfold receive_body; cbn; rewrite Hme, Hs; cbn; [|done].
    by destruct c.
  - intros Hp. cbn [receive]. rewrite Hc. unfold receive_body. cbn.
    by rewrite Hp.
Qed.

End CorrelationMore.

(** ** More on the datastore *)

Module DbMore.
Import Py Db LobbyViews LobbyProps LobbyMore.

Abbreviation drop_ids := (fold_left (fun (c : pydict document) doc_id => pd_del doc_id c)).

Lemma drop_ids_cons_ne (k : pyval) (v : document) (ids : list pyval)
    (d : pydict document) :
  Forall (fun k' => py_eq k k' = false) ids ->
  drop_ids ids ((k, v) :: d) = (k, v) :: drop_ids ids d.
Proof.
  revert d. induction ids as [|k' ids IH]; intros d Hall; [done|].
  apply Forall_cons in Hall as [Hk Hall]. cbn. rewrite Hk. by apply IH.
Qed.

Lemma keys_apart (k : pyval) (P : pyval * document -> bool) (d : pydict document) :
  existsb (fun entry => py_eq k entry.1) d = false ->
  Forall (fun k' => py_eq k k' = false) (map fst (filter P d)).
Proof.
  unfold pydict in *.
  induction d as [|[k0 v0] d IH]; [constructor|]. cbn [existsb fst].
  intros [Hk Hd]%orb_false_iff. rewrite filter_cons.
  destruct (decide (P (k0, v0))); cbn [map fst]; [constructor|]; auto.
Qed.

(** Deleting the ids of the documents that satisfy [P] leaves the others,
    in their order. *)
Lemma drop_ids_filter (P : pyval * document -> bool) (d : pydict document) :
  pd_wf d = true ->
  drop_ids (map fst (filter P d)) d = filter (fun entry => negb (P entry)) d.
Proof.
  unfold pydict in *.
  induction d as [|[k v] d IH]; [done|]. cbn [pd_wf].
  intros [[Hh Hnot]%andb_true_iff Hwf]%andb_true_iff.
  apply negb_true_iff in Hnot. rewrite !filter_cons.
  destruct (P (k, v)) eqn:EP; cbn [negb].
  - rewrite (decide_True (P := Is_true true)) by (cbn; tauto). rewrite (decide_False (P := Is_true false)) by (cbn; tauto).
    cbn. rewrite (py_eq_refl_hashable _ Hh). by apply IH.
  - rewrite (decide_False (P := Is_true false)) by (cbn; tauto). rewrite (decide_True (P := Is_true true)) by (cbn; tauto).
    rewrite drop_ids_cons_ne by by apply keys_apart. f_equal. by apply IH.
Qed.

Lemma filter_none (f : list (string * pyval)) (d : pydict document) :
  filter (fun entry => doc_matches f entry.2)
    (filter (fun entry => negb (doc_matches f entry.2)) d) = [].
Proof.
  unfold pydict in *.
  induction d as [|[k v] d IH]; [done|]. rewrite filter_cons. cbn [snd].
  destruct (doc_matches f v) eqn:E; cbn [negb].
  - by rewrite (decide_False (P := Is_true false)) by (cbn; tauto).
  - rewrite (decide_True (P := Is_true true)) by (cbn; tauto).
    rewrite filter_cons. cbn [snd]. rewrite E.
    by rewrite (decide_False (P := Is_true false)) by (cbn; tauto).
Qed.

(** X21. [Database.delete] on a collection whose document ids are distinct
    answers with the documents that satisfy the filter, the very list a
    [query] with that filter returned just before, and removes exactly
    those: the other documents stay in their order, [next_ids] is not
    touched, and the same [query] right after finds nothing. *)
Theorem delete_removes_matches (collection : pyval) (f : list (string * pyval))
    (db : Database) (docs : pydict document) :
  pd_getitem locks collection = Ret tt ->
  pd_find collection (collections db) = Some docs ->
  pd_wf docs = true ->
  exists results db',
    query collection (VDict f) db = Ret (VList results) /\
    delete collection (VDict f) db
    = (Ret (VDict [("success", VBool true); ("data", VList results)]), db') /\
    pd_find collection (collections db')
    = Some (filter (fun entry => negb (doc_matches f entry.2)) docs) /\
    next_ids db' = next_ids db /\
    query collection (VDict f) db' = Ret (VList []).
Proof.
  intros Hlock Hdocs Hwf.
  assert (Hh : hashable collection = true).
  { unfold pd_getitem in Hlock. by destruct (hashable collection). }
  assert (Hsel : exists hits, select (VDict f) docs = Ret hits /\
            hits = filter (fun entry => doc_matches f entry.2) docs).
  { unfold select. destruct docs; eauto. }
  destruct Hsel as (hits & Hsel & Hhits).
  unfold query, delete, pd_getitem at 2 4. rewrite Hlock, Hh, Hdocs, Hsel.
  eexists. eexists. split; [reflexivity|]. split; [reflexivity|].
  cbn [collections next_ids].
  rewrite Hhits, (drop_ids_filter (fun entry => doc_matches f entry.2) docs Hwf).
  split; [by apply pd_find_set_eq|]. split; [done|].
  unfold query, pd_getitem. rewrite Hh. cbn [collections].
  rewrite (pd_find_set_eq _ _ _ Hh).
  unfold pd_getitem in Hlock. rewrite Hh in Hlock.
  destruct (pd_find collection locks); [|done].
  unfold select.
  destruct (filter (fun entry => negb (doc_matches f entry.2)) docs) eqn:E; [done|].
  by rewrite <- E, filter_none.
Qed.

Lemma sd_find_fold_set (key : string) (d acc : list (string * pyval)) :
  NoDup (map fst d) ->
  sd_find key (fold_left (fun doc '(k, v) => sd_set k v doc) d acc)
  = match sd_find key d with
    | Some v => Some v
    | None => sd_find key acc
    end.
Proof.
  revert acc. induction d as [|[k0 v0] d IH]; intros acc Hnd; [done|].
  apply NoDup_cons in Hnd as [Hk0 Hnd]. cbn [fold_left sd_find].
  rewrite (IH _ Hnd), sd_find_set.
  destruct (String.eqb_spec k0 key) as [->|Hne]; [|done].
  assert (sd_find key d = None) as ->; [|done].
  clear -Hk0. induction d as [|[k1 v1] d IH]; [done|]. cbn in *.
  apply not_elem_of_cons in Hk0 as [Hne Hk0].
  destruct (String.eqb_spec k1 key) as [->|]; [done | by apply IH].
Qed.

(** X22. [Database.create] takes the document id from the collection's
    counter, advances the counter and stores the document under that id.
    The document is [{"id": doc_id, **data}]: it has every key of [data]
    with its value, so an ['id'] inside [data] replaces the generated one
    in the document, which is still stored under the generated id; without
    one the document's ['id'] is the generated id. *)
Theorem create_stores_document (collection : pyval) (d : list (string * pyval))
    (db : Database) (doc_id : Z) (docs : pydict document) :
  pd_getitem locks collection = Ret tt ->
  pd_find collection (next_ids db) = Some doc_id ->
  pd_find collection (collections db) = Some docs ->
  NoDup (map fst d) ->
  exists doc db',
    create collection (VDict d) db = (Ret (VDict doc), db') /\
    pd_find collection (collections db') = Some (pd_set (VInt doc_id) doc docs) /\
    pd_find collection (next_ids db') = Some (doc_id + 1)%Z /\
    pd_find (VInt doc_id) (pd_set (VInt doc_id) doc docs) = Some doc /\
    (forall key v, sd_find key d = Some v -> sd_find key doc = Some v) /\
    (sd_find "id" d = None -> sd_find "id" doc = Some (VInt doc_id)) /\
    (forall key, key <> "id" -> sd_find key d = None -> sd_find key doc = None).
Proof.
  intros Hlock Hid Hdocs Hnd.
  assert (Hh : hashable collection = true).
  { unfold pd_getitem in Hlock. by destruct (hashable collection). }
  unfold create, pd_getitem at 2 3. rewrite Hlock, Hh, Hid. cbn [new_document collections].
  rewrite Hdocs. eexists. eexists. split; [reflexivity|]. cbn [collections next_ids].
  split; [by apply pd_find_set_eq|].
  split; [by apply pd_find_set_eq|].
  split; [by apply pd_find_set_eq|].
  split; [|split].
  - intros key v Hkey. by rewrite sd_find_fold_set, Hkey.
  - intros Hno. by rewrite sd_find_fold_set, Hno.
  - intros key Hne Hno. rewrite sd_find_fold_set, Hno by done. cbn [sd_find].
    by destruct (String.eqb_spec "id" key).
Qed.

End DbMore.

(** ** The added properties on the sample data *)

Module MoreCases.
Import Py Db Lobby LobbyViews Correlation Scenario MoreScenario.
Import LobbyMore CorrelationMore DbMore.

Lemma reply_echoes_request_id_witness :
  truthy (VStr "r9") = true /\
  py_get (unknown_action_reply (VStr "r9")) "requestId" = Ret (VStr "r9").
Proof.
  split; [reflexivity|].
  exact (reply_echoes_request_id sample_runtime accept_package accept_package
           accept_package ping_request 3 sample_world
           (unknown_action_reply (VStr "r9")) sample_world eq_refl eq_refl).
Defined.

Lemma leave_room_cases_witness :
  exists w',
    leave_room (VDict leave_request) world_with_room
    = (Ret (VDict [("success", VBool true); ("message", VStr "Left room")]), w') /\
    pd_find (VInt 1) (rooms (lobby w'))
    = Some (set_members [VStr "alice"] sample_room).
Proof.
  destruct (leave_room_cases leave_request world_with_room eq_refl eq_refl)
    as [_ Hpresent].
  destruct (Hpresent sample_room eq_refl) as [_ Hmember].
  destruct (Hmember eq_refl) as (w' & Hrun & Hroom & _).
  exists w'. split; [exact Hrun | exact Hroom].
Defined.


Lemma sessions_change_only_by_login_logout_witness :
  session_state
    (lobby (process_request sample_runtime accept_package accept_package
              accept_package (VDict start_request) 1 world_with_room).2)
  = session_state (lobby world_with_room).
Proof.
  exact (sessions_change_only_by_login_logout sample_runtime accept_package
           accept_package accept_package (VDict start_request) 1
           (VStr "START_GAME") world_with_room eq_refl eq_refl eq_refl).
Defined.

Lemma rooms_change_only_by_room_actions_witness :
  room_state
    (lobby (process_request sample_runtime accept_package accept_package
              accept_package (login_request "alice" "Player") 7 sample_world).2)
  = room_state (lobby sample_world).
Proof.
  exact (rooms_change_only_by_room_actions sample_runtime accept_package
           accept_package accept_package (login_request "alice" "Player") 7
           (VStr "LOGIN") sample_world eq_refl eq_refl eq_refl eq_refl eq_refl).
Defined.

Lemma start_game_bad_path_blocks_room_witness :
  passes_guards (VInt 1) (VStr "alice") (lobby world_with_room) = Some sample_room /\
  start_game sample_runtime (VDict nameless_start_request) world_with_room
  = (Raise TypeError, started (VInt 1) sample_room world_with_room) /\
  start_game sample_runtime (VDict start_request)
    (started (VInt 1) sample_room world_with_room)
  = (Ret (failure "Game is starting, please wait"),
     started (VInt 1) sample_room world_with_room).
Proof.
  split; [reflexivity|].
  destruct (start_game_bad_path_blocks_room sample_runtime nameless_start_request
              start_request world_with_room sample_room eq_refl
              (or_introl eq_refl) eq_refl eq_refl) as (Hraise & _ & _ & Hagain).
  split; [exact Hraise | exact Hagain].
Defined.

Lemma start_game_launch_failure_witness :
  exists w',
    start_game sample_runtime (VDict start_request) world_without_launch
    = (Ret (failure "Failed to start game server: cannot fork"), w') /\
    rooms (lobby w') = [(VInt 1, sample_room)] /\
    next_game_port (lobby w') = 44849%Z.
Proof.
  destruct (start_game_launch_failure sample_runtime start_request
              world_without_launch sample_room "Duel_25" "1.0.0"
              (OSError "cannot fork") eq_refl eq_refl eq_refl eq_refl)
    as (w' & Hrun & Hrooms & Hport & _).
  exists w'. split; [exact Hrun|]. split; [exact Hrooms | exact Hport].
Defined.


Lemma logout_cases_witness :
  exists w',
    logout (VDict logout_request) world_with_room
    = (Ret (VDict [("success", VBool true)]), w') /\
    pd_find (VStr "alice") (online_players (lobby w')) = None /\
    pd_find (VStr "bob") (online_players (lobby w')) = Some 2.
Proof.
  destruct (logout_cases logout_request world_with_room eq_refl eq_refl)
    as [Hplayer _].
  destruct (Hplayer eq_refl) as [_ Honline].
  destruct (Honline 1 eq_refl) as (w' & Hrun & Hgone & Hothers & _).
  exists w'. split; [exact Hrun|]. split; [exact Hgone|].
  rewrite (Hothers (VStr "bob") eq_refl eq_refl). reflexivity.
Defined.

Lemma reply_returned_once_witness :
  exists n,
    pd_find (VStr "r0") (pending_requests (received (take n early_pass) waiting_client))
    = Some (VDict [("success", VBool true); ("requestId", VStr "r0")]) /\
    pd_find (VStr "r0")
      (pending_requests (wait_reply "r0" 100 early_pass waiting_client).2) = None.
Proof.
  destruct (reply_returned_once "r0" 100 early_pass waiting_client
              (VDict [("success", VBool true); ("requestId", VStr "r0")])
              (wait_reply "r0" 100 early_pass waiting_client).2
              eq_refl eq_refl) as [n [[Htimeout _] | (Hseen & _ & Hgone)]].
  - discriminate Htimeout.
  - exists n. split; [exact Hseen | exact Hgone].
Defined.

Lemma game_starting_push_received_witness :
  connected waiting_client = true /\
  receive [game_starting (VInt 1) (VStr "bob") 44848] waiting_client
  = set_queue [game_starting (VInt 1) (VStr "bob") 44848] waiting_client /\
  receive [game_starting (VInt 1) (VStr "alice") 44848] waiting_client
  = waiting_client.
Proof.
  split; [reflexivity|]. split.
  - destruct (game_starting_push_received (VInt 1) (VStr "bob") 44848 []
                waiting_client eq_refl) as [Hknown _].
    destruct (Hknown (VStr "alice") eq_refl) as [Hother _].
    exact (Hother eq_refl).
  - destruct (game_starting_push_received (VInt 1) (VStr "alice") 44848 []
                waiting_client eq_refl) as [Hknown _].
    destruct (Hknown (VStr "alice") eq_refl) as [_ Hself].
    exact (Hself eq_refl).
Defined.

Lemma delete_removes_matches_witness :
  exists results db',
    query (VStr "Player") (VDict [("userName", VStr "alice")]) sample_store
    = Ret (VList results) /\
    delete (VStr "Player") (VDict [("userName", VStr "alice")]) sample_store
    = (Ret (VDict [("success", VBool true); ("data", VList results)]), db') /\
    query (VStr "Player") (VDict [("userName", VStr "alice")]) db' = Ret (VList []).
Proof.
  destruct (delete_removes_matches (VStr "Player") [("userName", VStr "alice")]
              sample_store [(VInt 1, alice)] eq_refl eq_refl eq_refl)
    as (results & db' & Hquery & Hdelete & _ & _ & Hafter).
  exists results, db'. split; [exact Hquery|]. split; [exact Hdelete | exact Hafter].
Defined.

Lemma create_stores_document_witness :
  exists doc db',
    create (VStr "Player") (VDict [("userName", VStr "carol"); ("id", VInt 7)])
      sample_store
    = (Ret (VDict doc), db') /\
    pd_find (VStr "Player") (next_ids db') = Some 3%Z /\
    sd_find "id" doc = Some (VInt 7) /\
    pd_find (VStr "Player") (collections db')
    = Some (pd_set (VInt 2) doc [(VInt 1, alice)]).
Proof.
  assert (Hkeys : NoDup (map fst [("userName", VStr "carol"); ("id", VInt 7)])).
  { cbn. apply NoDup_cons. split; [|apply NoDup_singleton].
    intros H%list_elem_of_singleton. discriminate H. }
  destruct (create_stores_document (VStr "Player")
              [("userName", VStr "carol"); ("id", VInt 7)] sample_store 2
              [(VInt 1, alice)] eq_refl eq_refl eq_refl Hkeys)
    as (doc & db' & Hrun & Hstored & Hnext & _ & Hdata & _).
  exists doc, db'. split; [exact Hrun|]. split; [exact Hnext|].
  split; [exact (Hdata "id" (VInt 7) eq_refl) | exact Hstored].
Defined.

End MoreCases.

(** ** Threads: the room lock and the unlocked join *)

Module ThreadsProps.
Import Py Db Lobby LobbyViews Threads LobbyProps LobbyMore.

(** *** Keys that are equal find the same entry *)

Lemma py_eq_left_congr (k0 k k' : pyval) :
  hashable k = true -> hashable k' = true ->
  py_eq k0 k = true -> py_eq k0 k' = py_eq k k'.
Proof.
  intros Hk Hk' H0.
  pose proof (py_eq_hashable_l _ _ Hk H0) as Hk0.
  destruct (py_eq k k') eqn:E.
  - by apply (py_eq_trans k0 k k').
  - destruct (py_eq k0 k') eqn:E0; [|done].
    rewrite <- E. symmetry. apply (py_eq_trans k k0 k'); [done| |done].
    by rewrite py_eq_sym.
Qed.

Lemma pd_find_set_py {V : Type} (k k' : pyval) (v : V) (d : pydict V) :
  hashable k = true -> hashable k' = true ->
  pd_find k' (pd_set k v d) = if py_eq k k' then Some v else pd_find k' d.
Proof.
  intros Hk Hk'. induction d as [|[k0 u] d IH]; cbn; [done|].
  destruct (py_eq k0 k) eqn:E0; cbn.
  - rewrite (py_eq_left_congr k0 k k' Hk Hk' E0). by destruct (py_eq k k').
  - rewrite IH. destruct (py_eq k0 k') eqn:E1; [|done].
    destruct (py_eq k k') eqn:E; [|done].
    exfalso. assert (py_eq k0 k = true); [|congruence].
    apply (py_eq_trans k0 k' k); [done|done|]. by rewrite py_eq_sym.
Qed.

Lemma pd_find_key_eq {V : Type} (k k' : pyval) (d : pydict V) :
  hashable k = true -> hashable k' = true -> py_eq k k' = true ->
  pd_find k d = pd_find k' d.
Proof.
  intros Hk Hk' E. induction d as [|[k0 u] d IH]; cbn; [done|].
  rewrite IH. destruct (py_eq k0 k) eqn:E0.
  - by rewrite (py_eq_left_congr k0 k k' Hk Hk' E0), E.
  - destruct (py_eq k0 k') eqn:E1; [|done].
    exfalso. assert (py_eq k0 k = true); [|congruence].
    apply (py_eq_trans k0 k' k); [done|done|]. by rewrite py_eq_sym.
Qed.

(** *** The invariant *)

Lemma about_in_block (p : pc) (k : pyval) :
  about_to_set p = Some k -> in_block p = true.
Proof. by destruct p. Qed.

Lemma pool_goto (t t' : nat) (p p0 : pc) (m : machine) :
  pool m !! t = Some p0 ->
  pool (goto t p m) !! t' = if decide (t' = t) then Some p else pool m !! t'.
Proof.
  intros Ht. cbn. destruct (decide (t' = t)) as [->|Hne].
  - apply list_lookup_insert_eq. by eapply lookup_lt_Some.
  - by apply list_lookup_insert_ne.
Qed.

(** A thread moves on without touching the shared state or the lock. *)
Lemma invariant_goto (t : nat) (p p' : pc) (m : machine) :
  invariant m -> pool m !! t = Some p ->
  (in_block p' = true -> room_lock m = Some t) ->
  (forall k, passed p' = Some k -> passed p = Some k) ->
  (forall k, about_to_set p' = Some k ->
     hashable k = true /\
     exists room, pd_find k (rooms (shared m)) = Some room /\ status room <> "playing") ->
  invariant (goto t p' m).
Proof.
  intros [Hlock Hpassed Habout Honce] Ht Hin Hpass Hab. split.
  - intros t1 p1. rewrite (pool_goto _ _ _ _ _ Ht).
    destruct (decide (t1 = t)) as [->|]; [intros [= <-]; exact Hin | apply Hlock].
  - intros t1 p1 k. rewrite (pool_goto _ _ _ _ _ Ht).
    destruct (decide (t1 = t)) as [->|]; [|apply Hpassed].
    intros [= <-] Hp. eapply Hpassed; eauto.
  - intros t1 p1 k. rewrite (pool_goto _ _ _ _ _ Ht).
    destruct (decide (t1 = t)) as [->|]; [|apply Habout].
    intros [= <-]. apply Hab.
  - intros t1 t2 p1 p2 k1 k2 Hne. rewrite !(pool_goto _ _ _ _ _ Ht).
    destruct (decide (t1 = t)) as [->|], (decide (t2 = t)) as [->|]; try done.
    + intros [= <-] H2 Hp1 Hp2. eapply (Honce t t2); eauto.
    + intros H1 [= <-] Hp1 Hp2. eapply (Honce t1 t); eauto.
    + apply Honce; done.
Qed.

(** A write that leaves the status of every room as it was. *)
Lemma invariant_store (s' : MainServer) (m : machine) :
  invariant m ->
  (forall k, hashable k = true ->
     status <$> pd_find k (rooms s') = status <$> pd_find k (rooms (shared m))) ->
  invariant (store s' m).
Proof.
  intros [Hlock Hpassed Habout Honce] Hsame. split; cbn; try done.
  - intros t p k Ht Hp. destruct (Hpassed t p k Ht Hp) as (Hk & room & Hf & Hs).
    split; [done|]. specialize (Hsame k Hk). rewrite Hf in Hsame. cbn in Hsame.
    destruct (pd_find k (rooms s')) as [room'|]; [|done].
    exists room'. split; [done|]. cbn in Hsame. congruence.
  - intros t p k Ht Hp. destruct (Habout t p k Ht Hp) as (Hk & room & Hf & Hs).
    split; [done|]. specialize (Hsame k Hk). rewrite Hf in Hsame. cbn in Hsame.
    destruct (pd_find k (rooms s')) as [room'|]; [|done].
    exists room'. split; [done|]. cbn in Hsame. congruence.
Qed.

Section Invariant.
Variable rt : Runtime.

Lemma invariant_boot (requests : list request) (s : MainServer) :
  invariant (boot requests s).
Proof.
  assert (Hfresh : forall t p, pool (boot requests s) !! t = Some p ->
            in_block p = false /\ passed p = None /\ about_to_set p = None).
  { intros t p. cbn. rewrite list_lookup_fmap.
    destruct (requests !! t) as [[]|]; cbn; intros [= <-]; done. }
  split.
  - intros t p Ht Hp. destruct (Hfresh t p Ht) as (H & _). congruence.
  - intros t p k Ht Hp. destruct (Hfresh t p Ht) as (_ & H & _). congruence.
  - intros t p k Ht Hp. destruct (Hfresh t p Ht) as (_ & _ & H). congruence.
  - intros t t' p p' k k' _ Ht _ Hp. destruct (Hfresh t p Ht) as (_ & H & _). congruence.
Qed.

Lemma invariant_step (t : nat) (m : machine) :
  invariant m -> invariant (step rt t m).
Proof.
  intros Hinv. unfold step.
  destruct (pool m !! t) as [p|] eqn:Ht; [|done].
  pose proof (inv_lock m Hinv t p Ht) as Hheld.
  destruct p; cbn [in_block] in Hheld.
  - (* acquire *)
    destruct (room_lock m) as [holder|] eqn:Hfree; [done|].
    destruct Hinv as [Hlock Hpassed Habout Honce]. split.
    + intros t1 p1. cbn [pool set_room_lock room_lock]. rewrite (pool_goto _ _ _ _ _ Ht).
      destruct (decide (t1 = t)) as [->|]; [done|].
      intros H1 Hin. specialize (Hlock _ _ H1 Hin). congruence.
    + intros t1 p1 k. cbn [pool set_room_lock shared goto]. 
      change (<[t:=SgLookup room_id player_name]> (pool m))
        with (pool (goto t (SgLookup room_id player_name) m)).
      rewrite (pool_goto _ _ _ _ _ Ht).
      destruct (decide (t1 = t)) as [->|]; [by intros [= <-]|apply Hpassed].
    + intros t1 p1 k. cbn [pool set_room_lock shared goto].
      change (<[t:=SgLookup room_id player_name]> (pool m))
        with (pool (goto t (SgLookup room_id player_name) m)).
      rewrite (pool_goto _ _ _ _ _ Ht).
      destruct (decide (t1 = t)) as [->|]; [by intros [= <-]|apply Habout].
    + intros t1 t2 p1 p2 k1 k2 Hne. cbn [pool set_room_lock shared goto].
      change (<[t:=SgLookup room_id player_name]> (pool m))
        with (pool (goto t (SgLookup room_id player_name) m)).
      rewrite !(pool_goto _ _ _ _ _ Ht).
      destruct (decide (t1 = t)) as [->|], (decide (t2 = t)) as [->|]; try done.
      * by intros [= <-].
      * by intros _ [= <-].
      * by apply Honce.
  - (* lookup *)
    destruct (pd_getitem (rooms (shared m)) room_id);
      (apply (invariant_goto t _ _ m Hinv Ht); [auto | done | done]).
  - (* host *)
    destruct (pd_getitem (rooms (shared m)) room_id) as [room|];
      [destruct (negb (py_eq player_name (host room)))|];
      (apply (invariant_goto t _ _ m Hinv Ht); [auto | done | done]).
  - (* members *)
    destruct (pd_getitem (rooms (shared m)) room_id) as [room|];
      [destruct (py_int (room_min room)) as [need|];
       [destruct (Z.of_nat (length (members room)) <? need)%Z|]|];
      (apply (invariant_goto t _ _ m Hinv Ht); [auto | done | done]).
  - (* status *)
    destruct (pd_getitem (rooms (shared m)) room_id) as [room|] eqn:Eg;
      [destruct (String.eqb (status room) "playing") eqn:Es|];
      (apply (invariant_goto t _ _ m Hinv Ht); [auto | done | try done]).
    intros k [= <-]. apply pd_getitem_Ret in Eg as [Hk Hf].
    split; [done|]. exists room. split; [done|]. by apply String.eqb_neq.
  - (* read the port *)
    apply (invariant_goto t _ _ m Hinv Ht); [auto | done |].
    intros k [= <-]. by apply (inv_about m Hinv t _ _ Ht).
  - (* read the port again *)
    apply (invariant_goto t _ _ m Hinv Ht); [auto | done |].
    intros k [= <-]. by apply (inv_about m Hinv t _ _ Ht).
  - (* store the port *)
    apply invariant_store; [|done].
    apply (invariant_goto t _ _ m Hinv Ht); [auto | done |].
    intros k [= <-]. by apply (inv_about m Hinv t _ _ Ht).
  - (* set the status *)
    destruct (pd_getitem (rooms (shared m)) room_id) as [room|] eqn:Eg;
      [|apply (invariant_goto t _ _ m Hinv Ht); [auto | done | done]].
    apply pd_getitem_Ret in Eg as [Hk Hf].
    destruct (inv_about m Hinv t _ _ Ht eq_refl) as (_ & room0 & Hf0 & Hidle).
    assert (room0 = room) as -> by congruence.
    destruct Hinv as [Hlock Hpassed Habout Honce].
    assert (Hother : forall t1 p1 k1, t1 <> t -> pool m !! t1 = Some p1 ->
              passed p1 = Some k1 -> py_eq room_id k1 = false /\ py_eq k1 room_id = false).
    { intros t1 p1 k1 Hne H1 Hp1.
      destruct (Hpassed _ _ _ H1 Hp1) as (Hk1 & room1 & Hf1 & Hplaying).
      assert (py_eq room_id k1 = false) as E.
      { destruct (py_eq room_id k1) eqn:E; [|done].
        rewrite (pd_find_key_eq _ _ _ Hk Hk1 E) in Hf. congruence. }
      split; [done|]. by rewrite py_eq_sym. }
    set (p' := SgRelease room_id (Ret (inr (set_status "playing" room, game_port)))).
    split; cbn [store shared pool room_lock rooms set_rooms].
    + intros t1 p1. rewrite (pool_goto _ _ _ _ _ Ht).
      destruct (decide (t1 = t)) as [->|]; [intros _ _; by apply Hheld | apply Hlock].
    + intros t1 p1 k1. rewrite (pool_goto _ _ _ _ _ Ht).
      destruct (decide (t1 = t)) as [->|Hne].
      * intros [= <-] [= <-]. split; [done|].
        exists (set_status "playing" room). by rewrite pd_find_set_eq.
      * intros H1 Hp1. destruct (Hpassed _ _ _ H1 Hp1) as (Hk1 & room1 & Hf1 & Hplaying).
        split; [done|]. rewrite (pd_find_set_py _ _ _ _ Hk Hk1).
        destruct (Hother _ _ _ Hne H1 Hp1) as [-> _]. eauto.
    + intros t1 p1 k1. rewrite (pool_goto _ _ _ _ _ Ht).
      destruct (decide (t1 = t)) as [->|Hne]; [by intros [= <-]|].
      intros H1 Hp1. exfalso. apply Hne.
      pose proof (Hlock _ _ H1 (about_in_block _ _ Hp1)) as Hl.
      rewrite (Hheld eq_refl) in Hl. congruence.
    + intros t1 t2 p1 p2 k1 k2 Hne. rewrite !(pool_goto _ _ _ _ _ Ht).
      destruct (decide (t1 = t)) as [->|H1], (decide (t2 = t)) as [->|H2]; try done.
      * intros [= <-] Hp2 [= <-] Hk2. by destruct (Hother _ _ _ H2 Hp2 Hk2).
      * intros Hp1 [= <-] Hk1 [= <-]. by destruct (Hother _ _ _ H1 Hp1 Hk1).
      * by apply Honce.
  - (* release *)
    destruct Hinv as [Hlock Hpassed Habout Honce]. split;
      cbn [set_room_lock shared pool room_lock];
      change (<[t:=SgDone room_id result]> (pool m))
        with (pool (goto t (SgDone room_id result) m)).
    + intros t1 p1. rewrite (pool_goto _ _ _ _ _ Ht).
      destruct (decide (t1 = t)) as [->|Hne]; [by intros [= <-]|].
      intros H1 Hin. exfalso. apply Hne.
      pose proof (Hlock _ _ H1 Hin) as Hl. rewrite (Hheld eq_refl) in Hl. congruence.
    + intros t1 p1 k1. rewrite (pool_goto _ _ _ _ _ Ht).
      destruct (decide (t1 = t)) as [->|]; [|apply Hpassed].
      intros [= <-] Hp. by apply (Hpassed t (SgRelease room_id result) k1).
    + intros t1 p1 k1. rewrite (pool_goto _ _ _ _ _ Ht).
      destruct (decide (t1 = t)) as [->|]; [by intros [= <-]|apply Habout].
    + intros t1 t2 p1 p2 k1 k2 Hne. rewrite !(pool_goto _ _ _ _ _ Ht).
      destruct (decide (t1 = t)) as [->|], (decide (t2 = t)) as [->|]; try done.
      * intros [= <-] H2 Hp1 Hp2.
        by apply (Honce t t2 (SgRelease room_id result) p2).
      * intros H1 [= <-] Hp1 Hp2.
        by apply (Honce t1 t p1 (SgRelease room_id result)).
      * by apply Honce.
  - done.
  - (* the capacity test *)
    destruct (pd_getitem (rooms (shared m)) room_id) as [room|];
      [destruct (py_int (room_max room)) as [limit|];
       [destruct (limit <=? Z.of_nat (length (members room)))%Z|]|];
      (apply (invariant_goto t _ _ m Hinv Ht); [auto | done | done]).
  - (* the membership test *)
    destruct (pd_getitem (rooms (shared m)) room_id) as [room|];
      [destruct (negb (list_contains player_name (members room)))|];
      (apply (invariant_goto t _ _ m Hinv Ht); [auto | done | done]).
  - (* the append *)
    destruct (pd_getitem (rooms (shared m)) room_id) as [room|] eqn:Eg;
      [|apply (invariant_goto t _ _ m Hinv Ht); [auto | done | done]].
    apply pd_getitem_Ret in Eg as [Hk Hf].
    apply invariant_store; [apply (invariant_goto t _ _ m Hinv Ht); [auto | done | done]|].
    intros k Hk'. cbn [goto shared rooms set_rooms].
    rewrite (pd_find_set_py _ _ _ _ Hk Hk').
    destruct (py_eq room_id k) eqn:E; [|done].
    by rewrite <- (pd_find_key_eq _ _ _ Hk Hk' E), Hf.
  - done.
Qed.

Lemma invariant_exec (schedule : list nat) (m : machine) :
  invariant m -> invariant (exec rt schedule m).
Proof.
  revert m. induction schedule as [|t schedule IH]; intros m Hinv; [done|].
  apply IH. by apply invariant_step.
Qed.

(** *** A thread on its own does what the handler does *)

Ltac walk :=
  cbn;
  repeat (first
            [ match goal with
              | E : ?x = _ |- context [match ?x with _ => _ end] => rewrite E
              end
            | match goal with
              | |- context [match ?x with _ => _ end] =>
                  lazymatch x with
                  | context [match _ with _ => _ end] => fail
                  | _ => destruct x eqn:?
                  end
              end ];
          cbn).

Lemma solo_start_game (room_id player_name : pyval) (w : World) :
  exec rt (replicate 10 0) (boot [StartGame room_id player_name] (lobby w))
  = {| shared := lobby (start_game_locked rt room_id player_name w).2;
       room_lock := None;
       pool := [SgDone room_id (start_game_locked rt room_id player_name w).1] |}.
Proof.
  unfold start_game_locked. run. unfold exec, boot.
  walk; try done; by destruct w as [[] ? ? ?].
Qed.

Lemma solo_join_room (message player_name room_id : pyval) (w : World) :
  py_get message "player" = Ret player_name ->
  py_get message "roomId" = Ret room_id ->
  exec rt [0; 0; 0] (boot [JoinRoom player_name room_id] (lobby w))
  = {| shared := lobby (join_room message w).2;
       room_lock := None;
       pool := [JoinDone (join_room message w).1] |}.
Proof.
  intros Hp Hk. unfold join_room. run. rewrite Hp, Hk. unfold exec, boot, joined.
  walk; try done; by destruct w as [[] ? ? ?].
Qed.

Lemma pd_getitem_set_eq {V : Type} (k : pyval) (v : V) (d : pydict V) :
  hashable k = true -> pd_getitem (pd_set k v d) k = Ret v.
Proof. intros Hk. unfold pd_getitem. by rewrite Hk, pd_find_set_eq. Qed.

(** X23. [join_room] takes no lock, and two of them can interleave. On a
    room with one seat left, two players who are not members, and whose
    threads both run the capacity test before either appends, are both
    answered "Joined room" and are both appended: the room ends with one
    member more than [room_max]. Run one after the other, the second is
    answered "Room is full". *)
Theorem concurrent_joins_overfill (s : MainServer) (room_id p1 p2 : pyval)
    (room : Room) (limit : Z) :
  pd_getitem (rooms s) room_id = Ret room ->
  py_int (room_max room) = Ret limit ->
  (Z.of_nat (length (members room)) + 1 = limit)%Z ->
  list_contains p1 (members room) = false ->
  list_contains p2 (members room) = false ->
  py_eq p1 p2 = false ->
  let requests := [JoinRoom p1 room_id; JoinRoom p2 room_id] in
  let racing := exec rt [0; 1; 0; 1; 0; 1] (boot requests s) in
  let in_turn := exec rt [0; 0; 0; 1; 1; 1] (boot requests s) in
  let overfull := set_members (members room ++ [p1; p2]) room in
  (pool racing = [JoinDone (Ret joined); JoinDone (Ret joined)] /\
   pd_find room_id (rooms (shared racing)) = Some overfull /\
   (Z.of_nat (length (members overfull)) = limit + 1)%Z /\
   room_ok overfull = false) /\
  (pool in_turn = [JoinDone (Ret joined); JoinDone (Ret (failure "Room is full"))] /\
   pd_find room_id (rooms (shared in_turn))
   = Some (set_members (members room ++ [p1]) room)).
Proof.
  intros Hroom Hmax Hseat Hnew1 Hnew2 Hdistinct requests racing in_turn overfull.
  destruct (pd_getitem_Ret _ _ _ Hroom) as [Hk Hf].
  assert (Hfree : (limit <=? Z.of_nat (length (members room)))%Z = false)
    by (apply Z.leb_gt; lia).
  assert (Hnew2' : list_contains p2 (members room ++ [p1]) = false).
  { unfold list_contains in *. rewrite existsb_app, Hnew2. cbn. by rewrite Hdistinct. }
  assert (Hfull : (limit <=? Z.of_nat (length (members room ++ [p1])))%Z = true).
  { apply Z.leb_le. rewrite length_app. cbn. lia. }
  set (one := set_members (members room ++ [p1]) room).
  set (rooms1 := pd_set room_id one (rooms s)).
  assert (Hroom1 : pd_getitem rooms1 room_id = Ret one) by by apply pd_getitem_set_eq.
  assert (Hracing : racing
            = {| shared := set_rooms
                             (pd_set room_id (set_members (members one ++ [p2]) one)
                                rooms1)
                             (set_rooms rooms1 s);
                 room_lock := None;
                 pool := [JoinDone (Ret joined); JoinDone (Ret joined)] |}).
  { subst racing requests. unfold exec, boot. cbn [fold_left map enter].
    unfold step at 6. cbn [pool shared lookup list_lookup]. rewrite Hroom, Hmax, Hfree.
    unfold step at 5. cbn [pool shared goto lookup list_lookup insert list_insert].
    rewrite Hroom, Hmax, Hfree.
    unfold step at 4. cbn [pool shared goto lookup list_lookup insert list_insert].
    rewrite Hroom, Hnew1. cbn [negb].
    unfold step at 3. cbn [pool shared goto lookup list_lookup insert list_insert].
    rewrite Hroom, Hnew2. cbn [negb].
    unfold step at 2. cbn [pool shared goto lookup list_lookup insert list_insert].
    rewrite Hroom.
    unfold step at 1.
    cbn [pool shared goto store lookup list_lookup insert list_insert rooms set_rooms].
    fold one. fold rooms1. rewrite Hroom1.
    by cbn [pool shared goto store lookup list_lookup insert list_insert rooms set_rooms
            room_lock]. }
  assert (Hturn : in_turn
            = {| shared := set_rooms rooms1 s;
                 room_lock := None;
                 pool := [JoinDone (Ret joined); JoinDone (Ret (failure "Room is full"))] |}).
  { subst in_turn requests. unfold exec, boot. cbn [fold_left map enter].
    unfold step at 6. cbn [pool shared lookup list_lookup]. rewrite Hroom, Hmax, Hfree.
    unfold step at 5. cbn [pool shared goto lookup list_lookup insert list_insert].
    rewrite Hroom, Hnew1. cbn [negb].
    unfold step at 4. cbn [pool shared goto lookup list_lookup insert list_insert].
    rewrite Hroom.
    unfold step at 3.
    cbn [pool shared goto store lookup list_lookup insert list_insert rooms set_rooms].
    fold one. fold rooms1. rewrite Hroom1.
    cbn [room_max one set_members members]. rewrite Hmax, Hfull.
    unfold step at 2.
    cbn [pool shared goto store lookup list_lookup insert list_insert rooms set_rooms].
    unfold step at 1.
    by cbn [pool shared goto store lookup list_lookup insert list_insert rooms set_rooms
            room_lock]. }
  rewrite Hracing, Hturn. cbn [pool shared rooms set_rooms]. split.
  - split; [done|]. split; [|split].
    + unfold rooms1. rewrite pd_set_set by done. rewrite pd_find_set_eq by done.
      unfold overfull, one, set_members. cbn. by rewrite <- app_assoc.
    + unfold overfull. cbn. rewrite length_app. cbn. lia.
    + unfold room_ok, overfull. cbn [members set_members room_max].
      rewrite Hmax. destruct (members room ++ [p1; p2]) eqn:E.
      { by destruct (members room). }
      rewrite <- E. apply Z.leb_gt. rewrite length_app. cbn. lia.
  - split; [done|]. by apply pd_find_set_eq.
Qed.

(** *** The guards of [start_game] and their critical section *)

(** C3. For a request that names an existing room, [start_game] tests, in
    this order: the requester is the host, else the reply is "Only host can
    start the game"; the room has at least [room_min] members, else "Need at
    least ... players to start"; the room is not already ['playing'], else
    "Game is starting, please wait". A refused request changes nothing.
    When the three guards pass, the port is taken and the room is set
    ['playing'] before anything else is done: a bad path raises on that
    state, a launch is answered on it (with the room back to ['idle'] when
    the launch failed), and the same request on it is refused by the third
    guard.

    The tests and the assignment are one block under [room_lock]. A thread
    that runs the block on its own does what [start_game_locked] does; and
    however the threads of any number of [START_GAME] and [JOIN_ROOM]
    requests are interleaved, statement by statement, no two threads are
    inside the block at the same time, and no two threads get past the
    guards for the same room (no thread of the machine sets a room back to
    ['idle'], as a failed launch or the end of a match does). *)
Theorem start_game_guard_order (m : list (string * pyval)) (w : World) (room : Room) :
  let room_id := default VNone (sd_find "roomId" m) in
  let player_name := default VNone (sd_find "player_name" m) in
  let game_name := default VNone (sd_find "game_name" m) in
  let version := default VNone (sd_find "version" m) in
  let game_port := next_game_port (lobby w) in
  pd_getitem (rooms (lobby w)) room_id = Ret room ->
  ((py_eq player_name (host room) = false ->
      start_game rt (VDict m) w
      = (Ret (failure ("Only host can start the game" ++ nl)), w)) /\
   (forall need : Z,
      py_eq player_name (host room) = true ->
      py_int (room_min room) = Ret need ->
      ((Z.of_nat (length (members room)) < need)%Z ->
         start_game rt (VDict m) w
         = (Ret (failure ("Need at least " ++ py_str rt (room_min room)
                          ++ " players to start" ++ nl)), w)) /\
      ((need <= Z.of_nat (length (members room)))%Z ->
         (status room = "playing" ->
            start_game rt (VDict m) w
            = (Ret (failure "Game is starting, please wait"), w)) /\
         (status room <> "playing" ->
            start_game_locked rt room_id player_name w
            = (Ret (inr (set_status "playing" room, game_port)),
               started room_id room w) /\
            next_game_port (lobby (started room_id room w)) = (game_port + 1)%Z /\
            pd_find room_id (rooms (lobby (started room_id room w)))
            = Some (set_status "playing" room) /\
            (py_path_part game_name = Raise TypeError \/
             py_path_part version = Raise TypeError ->
               start_game rt (VDict m) w
               = (Raise TypeError, started room_id room w)) /\
            (forall name ver : string,
               game_name = VStr name -> version = VStr ver ->
               exists w',
                 start_game rt (VDict m) w
                 = (match popen w name ver game_port with
                    | None =>
                        Ret (VDict [("success", VBool true);
                                    ("gamePort", VInt game_port);
                                    ("gameHost", VStr lobby_host);
                                    ("message", VStr "Game server started")])
                    | Some e =>
                        Ret (failure ("Failed to start game server: "
                                      ++ exn_str rt e))
                    end, w') /\
                 next_game_port (lobby w') = (game_port + 1)%Z /\
                 pd_find room_id (rooms (lobby w'))
                 = Some (set_status
                           (match popen w name ver game_port with
                            | None => "playing"
                            | Some _ => "idle"
                            end) room)) /\
            start_game rt (VDict m) (started room_id room w)
            = (Ret (failure "Game is starting, please wait"),
               started room_id room w))))) /\
  exec rt (replicate 10 0) (boot [StartGame room_id player_name] (lobby w))
  = {| shared := lobby (start_game_locked rt room_id player_name w).2;
       room_lock := None;
       pool := [SgDone room_id (start_game_locked rt room_id player_name w).1] |} /\
  (forall (requests : list request) (s : MainServer) (schedule : list nat),
     let now := exec rt schedule (boot requests s) in
     (forall t t' p p',
        pool now !! t = Some p -> pool now !! t' = Some p' ->
        in_block p = true -> in_block p' = true -> t = t') /\
     (forall t t' p p' k k',
        t <> t' -> pool now !! t = Some p -> pool now !! t' = Some p' ->
        passed p = Some k -> passed p' = Some k' -> py_eq k k' = false)).
Proof.
  intros room_id player_name game_name version game_port Hroom.
  assert (Hget : forall l key, py_get (VDict l) key = Ret (default VNone (sd_find key l)))
    by done.
  assert (Hstart : forall w0,
            start_game rt (VDict m) w0
            = (checked <- start_game_locked rt room_id player_name ;;
               match checked with
               | inl refusal => ret refusal
               | inr (room, game_port) =>
                   name <- lift (py_path_part game_name) ;;
                   ver <- lift (py_path_part version) ;;
                   fun w =>
                     match popen w name ver game_port with
                     | None =>
                         (update_lobby (fun s =>
                            set_games (pd_set room_id {| port := game_port |} (games s)) s) ;;;
                          notify_room_members room_id
                            (VDict [("action", VStr "GAME_STARTING");
                                    ("gameStarter", player_name);
                                    ("gamePort", VInt game_port);
                                    ("gameHost", VStr lobby_host);
                                    ("roomId", room_id)]) ;;;
                          ret (VDict [("success", VBool true);
                                      ("gamePort", VInt game_port);
                                      ("gameHost", VStr lobby_host);
                                      ("message", VStr "Game server started")])) w
                     | Some e =>
                         (update_lobby (fun s =>
                            match pd_find room_id (rooms s) with
                            | Some r =>
                                set_rooms (pd_set room_id (set_status "idle" r) (rooms s)) s
                            | None => s
                            end) ;;;
                          ret (failure ("Failed to start game server: " ++ exn_str rt e))) w
                     end
               end) w0) by done.
  destruct (pd_getitem_Ret _ _ _ Hroom) as [Hhash Hfind].
  split; [|split].
  - split; [|intros need Hhost Hneed; split; [|intros Hge; split]].
    + intros Hhost. rewrite Hstart. unfold start_game_locked. run.
      by rewrite Hroom, Hhost.
    + intros Hlt. rewrite Hstart. unfold start_game_locked. run.
      rewrite Hroom, Hhost. cbn. apply Z.ltb_lt in Hlt. by rewrite Hneed, Hlt.
    + intros Hplay. rewrite Hstart. unfold start_game_locked. run.
      rewrite Hroom, Hhost. cbn. apply Z.ltb_ge in Hge.
      by rewrite Hneed, Hge, Hplay.
    + intros Hidle. apply Z.ltb_ge in Hge. apply String.eqb_neq in Hidle.
      assert (Hpass : passes_guards room_id player_name (lobby w) = Some room).
      { unfold passes_guards. rewrite Hroom, Hhost, Hneed, Hidle. cbn.
        apply Z.ltb_ge, Z.leb_le in Hge. by rewrite Hge. }
      pose proof (start_game_locked_passes rt _ _ _ _ Hpass) as Hlocked.
      pose proof (start_game_locked_again rt _ _ _ _ Hpass) as Hagain.
      split; [exact Hlocked|].
      split; [done|]. split; [unfold started; cbn; by apply pd_find_set_eq|].
      split; [|split].
      * intros Hbad. rewrite Hstart. unfold bind at 1. rewrite Hlocked. run.
        destruct Hbad as [-> | Hv]; [done|].
        destruct (py_path_part game_name) eqn:Eg; [by rewrite Hv|].
        by rewrite (py_path_part_raises _ _ Eg).
      * intros name ver Hname Hver. rewrite Hstart. unfold bind at 1.
        rewrite Hlocked, Hname, Hver. run. cbn [py_path_part].
        change (popen (started room_id room w)) with (popen w). fold game_port.
        destruct (popen w name ver game_port) as [e|].
        -- run. eexists. split; [reflexivity|]. cbn.
           rewrite (pd_find_set_eq _ _ _ Hhash). cbn.
           split; [done|]. by rewrite pd_find_set_eq.
        -- unfold notify_room_members. run. cbn.
           rewrite (pd_find_set_eq _ _ _ Hhash).
           eexists. split; [reflexivity|]. cbn. split; [done|].
           by apply pd_find_set_eq.
      * rewrite Hstart. unfold bind at 1. by rewrite Hagain.
  - apply solo_start_game.
  - intros requests s schedule now.
    pose proof (invariant_exec schedule _ (invariant_boot requests s)) as Hinv.
    fold now in Hinv. split.
    + intros t t' p p' Ht Ht' Hp Hp'.
      pose proof (inv_lock _ Hinv _ _ Ht Hp) as H1.
      pose proof (inv_lock _ Hinv _ _ Ht' Hp') as H2. congruence.
    + apply (inv_once _ Hinv).
Qed.

End Invariant.

End ThreadsProps.

(** ** The threads on the sample data *)

Module ThreadsCases.
Import Py Db Lobby LobbyViews Threads Scenario MoreScenario ThreadsProps.

Lemma start_game_guard_order_witness :
  pd_getitem (rooms (lobby world_with_room)) (VInt 1) = Ret sample_room /\
  (exists w',
     start_game sample_runtime (VDict start_request) world_with_room
     = (Ret (VDict [("success", VBool true); ("gamePort", VInt 44848);
                    ("gameHost", VStr lobby_host);
                    ("message", VStr "Game server started")]), w') /\
     next_game_port (lobby w') = 44849%Z /\
     pd_find (VInt 1) (rooms (lobby w')) = Some (set_status "playing" sample_room)) /\
  start_game sample_runtime (VDict start_request)
    (started (VInt 1) sample_room world_with_room)
  = (Ret (failure "Game is starting, please wait"),
     started (VInt 1) sample_room world_with_room).
Proof.
  split; [reflexivity|].
  destruct (start_game_guard_order sample_runtime start_request world_with_room
              sample_room eq_refl) as [[_ Hhost] _].
  destruct (Hhost 2%Z eq_refl eq_refl) as [_ Henough].
  destruct (Henough ltac:(vm_compute; discriminate)) as [_ Hidle].
  destruct (Hidle ltac:(discriminate)) as (_ & _ & _ & _ & Hlaunch & Hagain).
  destruct (Hlaunch "Duel_25" "1.0.0" eq_refl eq_refl) as (w' & Hrun & Hport & Hstatus).
  split; [|exact Hagain].
  exists w'. split; [exact Hrun|]. split; [exact Hport | exact Hstatus].
Defined.

Lemma concurrent_joins_overfill_witness :
  let racing :=
    exec sample_runtime [0; 1; 0; 1; 0; 1]
      (boot [JoinRoom (VStr "carol") (VInt 1); JoinRoom (VStr "dave") (VInt 1)]
         lobby_with_open_room) in
  pool racing = [JoinDone (Ret joined); JoinDone (Ret joined)] /\
  pd_find (VInt 1) (rooms (shared racing))
  = Some (set_members [VStr "alice"; VStr "carol"; VStr "dave"] sample_room) /\
  room_max sample_room = VInt 2.
Proof.
  destruct (concurrent_joins_overfill sample_runtime lobby_with_open_room (VInt 1)
              (VStr "carol") (VStr "dave") open_room 2
              eq_refl eq_refl eq_refl eq_refl eq_refl eq_refl)
    as [(Hpool & Hroom & _) _].
  split; [exact Hpool|]. split; [exact Hroom | reflexivity].
Defined.

End ThreadsCases.
